(** * zendesk-mcp-server: a shallow embedding of the request handlers

    The development follows the two source files of the server:

    - [zendesk_client.py]: the API adapter [ZendeskClient], whose methods
      translate tool parameters into calls against the helpdesk SDK and the
      raw HTTP endpoints and reshape the answers into JSON-like records;
    - [server.py]: the handlers registered with the protocol library
      ([handle_get_prompt], [handle_call_tool], [handle_list_resources],
      [handle_read_resource]) and the memoised [get_cached_kb].

    The helpdesk (SDK object model and HTTP endpoint) is the external
    collaborator: it is an interface [Helpdesk] over an abstract remote
    state.  Python values are the JSON-like universe [value]; exceptions are
    explicit results; the server process is an explicit [world]. *)

From Stdlib Require Import ZArith QArith String Ascii List Lia Lqa DecimalString.
From stdpp Require Import base option list strings gmap fin_maps.

Set Warnings "-register-all,-clear-no-such-hyp".
Close Scope Q_scope.
Local Open Scope Z_scope.
Local Open Scope string_scope.
Local Open Scope list_scope.

(** ** Python values *)

(** The values that flow through the handlers: what [json.loads] yields, what
    the protocol hands over as [arguments], and the attribute values of SDK
    objects.  A [dict] with string keys is a finite map. *)
Inductive value : Type :=
| VNone
| VBool (b : bool)
| VInt (n : Z)
| VStr (s : string)
| VList (l : list value)
| VDict (d : gmap string value).

(** A Python [dict[str, Any]], also used for keyword arguments and for the
    attribute namespace of an SDK object. *)
Abbreviation dict := (gmap string value).

(** ** Exceptions *)

(** The classes of the exceptions that occur, all of them subclasses of
    [Exception]: these are what an [except Exception] clause catches.
    [PlainException] is [Exception] itself, as raised by the adapter. *)
Inductive exn_class : Set :=
| ValueError
| KeyError
| TypeError
| AttributeError
| HTTPError
| PlainException.

(** What an [urllib.error.HTTPError] carries: [code], [reason], and the
    body [e.read().decode()] when [e.fp] is set. *)
Record http_error : Set := HttpError {
  http_code : Z;
  http_reason : string;
  http_body : option string;
}.

(** An exception instance: its class, what [str(e)] renders, and the HTTP
    details when it is an [HTTPError]. *)
Record exn : Set := MkExn {
  exn_type : exn_class;
  exn_str : string;
  exn_http : option http_error;
}.

Definition Exn (c : exn_class) (msg : string) : exn := MkExn c msg None.

(** The outcome of evaluating Python code: a value or a raised exception. *)
Inductive result (A : Type) : Type :=
| Ok (a : A)
| Raise (e : exn).
Arguments Ok {A} a.
Arguments Raise {A} e.

Definition rbind {A B} (m : result A) (k : A -> result B) : result B :=
  match m with
  | Ok a => k a
  | Raise e => Raise e
  end.

Declare Scope py_scope.
Delimit Scope py_scope with py.
Notation "'let?' x ':=' m 'in' k" := (rbind m (fun x => k))
  (at level 10, x name, m at level 100, k at level 200) : py_scope.
Local Open Scope py_scope.

(** ** String builtins *)

Module PyStr.

(** [str.isspace] on the ASCII range: tab, line feed, vertical tab, form
    feed, carriage return, the four separators 0x1c-0x1f and the space. *)
Definition is_space (c : ascii) : bool :=
  let n := nat_of_ascii c in
  ((9 <=? n)%nat && (n <=? 13)%nat) || ((28 <=? n)%nat && (n <=? 32)%nat).

Definition is_digit (c : ascii) : bool :=
  let n := nat_of_ascii c in (48 <=? n)%nat && (n <=? 57)%nat.

Definition digit_val (c : ascii) : Z := Z.of_nat (nat_of_ascii c) - 48.

Fixpoint lstrip (s : string) : string :=
  match s with
  | EmptyString => EmptyString
  | String c s' => if is_space c then lstrip s' else s
  end.

Fixpoint rstrip (s : string) : string :=
  match s with
  | EmptyString => EmptyString
  | String c s' =>
      match rstrip s' with
      | EmptyString => if is_space c then EmptyString else String c EmptyString
      | r => String c r
      end
  end.

(** [s.strip()] *)
Definition strip (s : string) : string := rstrip (lstrip s).

(** [s.lower()] on the ASCII range. *)
Definition lower_char (c : ascii) : ascii :=
  let n := nat_of_ascii c in
  if ((65 <=? n)%nat && (n <=? 90)%nat)%bool then ascii_of_nat (n + 32) else c.

Fixpoint lower (s : string) : string :=
  match s with
  | EmptyString => EmptyString
  | String c s' => String (lower_char c) (lower s')
  end.

(** [s.startswith(p)] *)
Fixpoint startswith (p s : string) : bool :=
  match p, s with
  | EmptyString, _ => true
  | String a p', String b s' => if Ascii.eqb a b then startswith p' s' else false
  | String _ _, EmptyString => false
  end.

(** [s.replace(old, new)] for a non-empty [old]: scan from the left; at an
    occurrence of [old] emit [new] and jump over the occurrence ([skip]
    counts the characters of it still to pass), otherwise copy one
    character. *)
Fixpoint replace_from (old new : string) (skip : nat) (s : string) : string :=
  match s with
  | EmptyString => EmptyString
  | String c s' =>
      match skip with
      | S k => replace_from old new k s'
      | O =>
          if startswith old s
          then new +:+ replace_from old new (String.length old - 1) s'
          else String c (replace_from old new 0 s')
      end
  end.

Definition replace (old new s : string) : string := replace_from old new 0 s.

(** [str(n)] for an [int]. *)
Definition str_of_Z (n : Z) : string :=
  NilZero.string_of_int (Z.to_int n).

(** The digits of an [int()] literal, after the sign: decimal digits, with
    single underscores allowed between two digits.  [seen] tells whether the
    previous character was a digit; the result is the number read and the
    count of digits. *)
Fixpoint int_digits (s : string) (seen : bool) (acc : Z) (n : nat) : option (Z * nat) :=
  match s with
  | EmptyString => if seen then Some (acc, n) else None
  | String c s' =>
      if is_digit c then int_digits s' true (10 * acc + digit_val c) (S n)
      else if Ascii.eqb c "_" then
        (if seen then int_digits s' false acc n else None)
      else None
  end.

(** CPython's default [sys.int_max_str_digits]. *)
Definition int_max_str_digits : nat := 4300.

(** What [int(s)] raises on a malformed literal; [r] is [repr(s)]. *)
Definition int_invalid_literal (r : string) : exn :=
  Exn ValueError ("invalid literal for int() with base 10: " +:+ r).

Definition int_too_long : exn :=
  Exn ValueError
    "Exceeds the limit (4300 digits) for integer string conversion; use sys.set_int_max_str_digits() to increase the limit".

(** [int(s)] for a [str] of ASCII characters: surrounding whitespace is
    ignored, then an optional sign, then the digits.  [r] is [repr(s)], used
    in the error message. *)
Definition int_of_str (r : string) (s : string) : result Z :=
  let t := strip s in
  let '(neg, body) :=
    match t with
    | String "-" b => (true, b)
    | String "+" b => (false, b)
    | _ => (false, t)
    end in
  match int_digits body false 0 0 with
  | None => Raise (int_invalid_literal r)
  | Some (v, n) =>
      if (int_max_str_digits <? n)%nat then Raise int_too_long
      else Ok (if neg then - v else v)
  end.

(** [str.format] with keyword arguments [kw], restricted to what the
    templates of the server use: literal text, the escapes of a doubled
    brace, and replacement fields that are plain keyword names.  [field] holds the name being read while
    inside braces.  The values of [kw] are already rendered. *)
Fixpoint format_from (kw : list (string * string)) (field : option string) (s : string)
  : result string :=
  match s with
  | EmptyString =>
      match field with
      | None => Ok EmptyString
      | Some _ => Raise (Exn ValueError "expected '}' before end of string")
      end
  | String c s' =>
      match field with
      | Some name =>
          if Ascii.eqb c "}" then
            match List.find (fun kv => String.eqb (fst kv) name) kw with
            | Some kv =>
                let? r := format_from kw None s' in Ok (snd kv +:+ r)
            | None => Raise (Exn KeyError ("'" +:+ name +:+ "'"))
            end
          else format_from kw (Some (name +:+ String c EmptyString)) s'
      | None =>
          if Ascii.eqb c "{" then
            match s' with
            | String "{" s'' =>
                let? r := format_from kw None s'' in Ok (String "{" r)
            | _ => format_from kw (Some EmptyString) s'
            end
          else if Ascii.eqb c "}" then
            match s' with
            | String "}" s'' =>
                let? r := format_from kw None s'' in Ok (String "}" r)
            | _ => Raise (Exn ValueError "Single '}' encountered in format string")
            end
          else
            let? r := format_from kw None s' in Ok (String c r)
      end
  end.

Definition format (template : string) (kw : list (string * string)) : result string :=
  format_from kw None template.

End PyStr.


(** ** Operations of the runtime that are only passed along *)

(** Renderings whose exact text no handler inspects: [repr], [json.dumps],
    [urllib.parse.urlencode] and [base64.b64encode]. *)
Class PyRuntime : Type := {
  py_repr : value -> string;
  json_dumps : option nat -> value -> string;
  urlencode : list (string * string) -> string;
  b64encode : string -> string;
}.

Section Builtins.
Context {rt : PyRuntime}.

(** Truth value of an object, as [if x], [not x], [x and y], [x or y] test it. *)
Definition truthy (v : value) : bool :=
  match v with
  | VNone => false
  | VBool b => b
  | VInt n => negb (n =? 0)%Z
  | VStr s => negb (String.eqb s EmptyString)
  | VList l => match l with [] => false | _ => true end
  | VDict d => negb (bool_decide (d = ∅))
  end.

(** [x is None] *)
Definition is_none (v : value) : bool :=
  match v with
  | VNone => true
  | _ => false
  end.

(** [str(x)], also what an f-string field renders. *)
Definition py_str (v : value) : string :=
  match v with
  | VNone => "None"
  | VBool true => "True"
  | VBool false => "False"
  | VInt n => PyStr.str_of_Z n
  | VStr s => s
  | _ => py_repr v
  end.

Definition type_name (v : value) : string :=
  match v with
  | VNone => "NoneType"
  | VBool _ => "bool"
  | VInt _ => "int"
  | VStr _ => "str"
  | VList _ => "list"
  | VDict _ => "dict"
  end.

(** [int(x)] *)
Definition py_int (v : value) : result Z :=
  match v with
  | VInt n => Ok n
  | VBool b => Ok (if b then 1 else 0)
  | VStr s => PyStr.int_of_str (py_repr v) s
  | _ => Raise (Exn TypeError
           ("int() argument must be a string, a bytes-like object or a real number, not '"
              +:+ type_name v +:+ "'"))
  end.

(** An [int] operand of arithmetic and comparison ([bool] is a subclass). *)
Definition as_number (v : value) : option Z :=
  match v with
  | VInt n => Some n
  | VBool b => Some (if b then 1 else 0)
  | _ => None
  end.

(** [len(x)] *)
Definition py_len (v : value) : result nat :=
  match v with
  | VStr s => Ok (String.length s)
  | VList l => Ok (List.length l)
  | VDict d => Ok (size d)
  | _ => Raise (Exn TypeError ("object of type '" +:+ type_name v +:+ "' has no len()"))
  end.

(** The elements a [for] loop over [x] visits: the items of a list, the keys
    of a dict, the characters of a string. *)
Definition py_iter (v : value) : result (list value) :=
  match v with
  | VList l => Ok l
  | VDict d => Ok (VStr <$> (map_to_list d).*1)
  | VStr s => Ok ((fun c => VStr (String c EmptyString)) <$> list_ascii_of_string s)
  | _ => Raise (Exn TypeError ("'" +:+ type_name v +:+ "' object is not iterable"))
  end.

(** [x.get(key)] and [x.get(key, default)]: only a dict has the method. *)
Definition py_get (v : value) (key : string) (dflt : value) : result value :=
  match v with
  | VDict d => Ok (default dflt (d !! key))
  | _ => Raise (Exn AttributeError
           ("'" +:+ type_name v +:+ "' object has no attribute 'get'"))
  end.

End Builtins.


(** ** State and exceptions *)

(** Code that acts on a state [S] and may raise: the state is threaded
    explicitly and survives an exception, as the effects of a Python block
    do when it is left by [raise]. *)
Definition St (S A : Type) : Type := S -> result A * S.

Definition sret {S A} (a : A) : St S A := fun s => (Ok a, s).
Definition sraise {S A} (e : exn) : St S A := fun s => (Raise e, s).
Definition slift {S A} (x : result A) : St S A := fun s => (x, s).

Definition sbind {S A B} (m : St S A) (k : A -> St S B) : St S B :=
  fun s =>
    match m s with
    | (Ok a, s') => k a s'
    | (Raise e, s') => (Raise e, s')
    end.

(** [try: m  except Exception as e: h e] *)
Definition try_except {S A} (m : St S A) (h : exn -> St S A) : St S A :=
  fun s =>
    match m s with
    | (Ok a, s') => (Ok a, s')
    | (Raise e, s') => h e s'
    end.

Notation "'let!' x ':=' m 'in' k" := (sbind m (fun x => k))
  (at level 10, x name, m at level 100, k at level 200) : py_scope.

(** A list comprehension whose element expression may raise. *)
Fixpoint rmap {A B} (f : A -> result B) (l : list A) : result (list B) :=
  match l with
  | [] => Ok []
  | x :: l' => let? y := f x in let? ys := rmap f l' in Ok (y :: ys)
  end.

(** A dict display [{k1: e1, ..., kn: en}]: the entries are evaluated from
    left to right, and the first one that raises aborts the display. *)
Fixpoint dict_display (entries : list (string * result value)) : result dict :=
  match entries with
  | [] => Ok ∅
  | (k, e) :: rest =>
      let? v := e in
      let? d := dict_display rest in
      Ok (<[k := default v (d !! k)]> d)
  end.

(** ** The helpdesk: SDK object model and HTTP endpoint *)

(** An SDK object (ticket, comment, user, audit) is its attribute namespace;
    an object stored in an attribute is the [VDict] of its attributes. *)
Abbreviation obj := (gmap string value).

(** [o.name] *)
Definition getattr (o : obj) (name : string) : result value :=
  match o !! name with
  | Some v => Ok v
  | None => Raise (Exn AttributeError ("object has no attribute '" +:+ name +:+ "'"))
  end.

(** [getattr(o, name, dflt)] on an object that may be [None]. *)
Definition getattr_or (o : option obj) (name : string) (dflt : value) : value :=
  match o with
  | Some a => default dflt (a !! name)
  | None => dflt
  end.

(** The object denoted by a value, if it denotes one. *)
Definition as_obj (v : value) : option obj :=
  match v with
  | VDict d => Some d
  | _ => None
  end.

(** A help-center section and an article, with the attributes the adapter
    reads.  A section name is a string. *)
Record section : Type := Section_ {
  section_id : value;
  section_name : string;
  section_description : value;
}.

Record article : Type := Article {
  article_id : value;
  article_title : value;
  article_body : value;
  article_updated_at : value;
  article_html_url : value;
}.

Record http_request : Type := HttpRequest {
  req_url : string;
  req_headers : list (string * string);
}.


(** The helpdesk over a remote state [R].  Every call may change the remote
    state and may raise. *)
Class Helpdesk (R : Type) : Type := {
  (** [client.tickets(id=ticket_id)] *)
  sdk_tickets : value -> St R obj;
  (** [client.tickets.comments(ticket=ticket_id)], fully iterated *)
  sdk_tickets_comments : value -> St R (list obj);
  (** [client.tickets.update(ticket)]: the audit *)
  sdk_tickets_update : obj -> St R obj;
  (** [client.tickets.create(ticket)]: the audit *)
  sdk_tickets_create : obj -> St R obj;
  (** [client.users(id=user_id)] *)
  sdk_users : value -> St R obj;
  (** [client.users.create(user)] *)
  sdk_users_create : obj -> St R obj;
  (** [client.search] with keyword arguments, fully iterated *)
  sdk_search : dict -> St R (list obj);
  (** [client.help_center.sections()], fully iterated *)
  sdk_sections : St R (list section);
  (** [client.help_center.sections.articles(section_id)], fully iterated *)
  sdk_section_articles : value -> St R (list article);
  (** [urllib.request.urlopen(req)] followed by
      [json.loads(response.read().decode())]: the decoded document, or what
      was raised on the way (an [HTTPError] carries its details) *)
  http_get_json : http_request -> St R value;
}.

(** ** The API adapter ([zendesk_client.py]) *)

Module ZendeskClient.

(** The fields [__init__] stores for the direct API calls. *)
Record self : Type := Self {
  subdomain : string;
  email : string;
  token : string;
  base_url : string;
  auth_header : string;
}.

Section Adapter.
Context {rt : PyRuntime} {R : Type} {hd : Helpdesk R}.

Definition init (subdomain email token : string) : self :=
  Self subdomain email token
    ("https://" +:+ subdomain +:+ ".zendesk.com/api/v2")
    ("Basic " +:+ b64encode (email +:+ "/token:" +:+ token)).

(** [str(x)] of an expression that may raise. *)
Definition rstr (x : result value) : result value :=
  let? v := x in Ok (VStr (py_str v)).

(** [x or y] *)
Definition py_or (x y : value) : value := if truthy x then x else y.

(** [list(x)] *)
Definition py_list (x : value) : result value :=
  let? items := py_iter x in Ok (VList items).

(** [raise Exception(msg)] *)
Definition fail {A} (msg : string) : St R A := sraise (Exn PlainException msg).

Definition get_ticket (ticket_id : value) : St R value :=
  try_except
    (let! ticket := sdk_tickets ticket_id in
     let! d := slift (dict_display
       [ ("id", getattr ticket "id");
         ("subject", getattr ticket "subject");
         ("description", getattr ticket "description");
         ("status", getattr ticket "status");
         ("priority", getattr ticket "priority");
         ("created_at", rstr (getattr ticket "created_at"));
         ("updated_at", rstr (getattr ticket "updated_at"));
         ("requester_id", getattr ticket "requester_id");
         ("assignee_id", getattr ticket "assignee_id");
         ("organization_id", getattr ticket "organization_id") ]) in
     sret (VDict d))
    (fun e => fail ("Failed to get ticket " +:+ py_str ticket_id +:+ ": " +:+ exn_str e)).

Definition comment_record (comment : obj) : result value :=
  let? d := dict_display
    [ ("id", getattr comment "id");
      ("author_id", getattr comment "author_id");
      ("body", getattr comment "body");
      ("html_body", getattr comment "html_body");
      ("public", getattr comment "public");
      ("created_at", rstr (getattr comment "created_at")) ] in
  Ok (VDict d).

Definition get_ticket_comments (ticket_id : value) : St R value :=
  try_except
    (let! comments := sdk_tickets_comments ticket_id in
     let! l := slift (rmap comment_record comments) in
     sret (VList l))
    (fun e => fail ("Failed to get comments for ticket " +:+ py_str ticket_id
                      +:+ ": " +:+ exn_str e)).

(** [Comment(html_body=comment, public=public)] *)
Definition Comment (html_body public : value) : obj :=
  {[ "html_body" := html_body; "public" := public ]}.

Definition post_comment (ticket_id comment public : value) : St R value :=
  try_except
    (let! ticket := sdk_tickets ticket_id in
     let ticket := <["comment" := VDict (Comment comment public)]> ticket in
     let! _ := sdk_tickets_update ticket in
     sret comment)
    (fun e => fail ("Failed to post comment on ticket " +:+ py_str ticket_id
                      +:+ ": " +:+ exn_str e)).

(** [min(x, 100)]: the first argument unless [100 < x]. *)
Definition py_min_100 (x : value) : result value :=
  match as_number x with
  | Some n => Ok (if (100 <? n)%Z then VInt 100 else x)
  | None => Raise (Exn TypeError
      ("'<' not supported between instances of 'int' and '" +:+ type_name x +:+ "'"))
  end.

(** [x + k] and [x - k] for an int literal [k] ([k] is 1 or -1 below). *)
Definition py_add_int (x : value) (k : Z) : result value :=
  match as_number x with
  | Some n => Ok (VInt (n + k))
  | None => Raise (Exn TypeError
      ("unsupported operand type(s) for " +:+ (if (k <? 0)%Z then "-" else "+")
         +:+ ": '" +:+ type_name x +:+ "' and 'int'"))
  end.

(** [x > 1] *)
Definition py_gt_1 (x : value) : result bool :=
  match as_number x with
  | Some n => Ok (1 <? n)%Z
  | None => Raise (Exn TypeError
      ("'>' not supported between instances of '" +:+ type_name x +:+ "' and 'int'"))
  end.

(** One entry of [ticket_list] in [get_tickets]. *)
Definition ticket_entry (ticket : value) : result value :=
  let? d := dict_display
    [ ("id", py_get ticket "id" VNone);
      ("subject", py_get ticket "subject" VNone);
      ("status", py_get ticket "status" VNone);
      ("priority", py_get ticket "priority" VNone);
      ("description", py_get ticket "description" VNone);
      ("created_at", py_get ticket "created_at" VNone);
      ("updated_at", py_get ticket "updated_at" VNone);
      ("requester_id", py_get ticket "requester_id" VNone);
      ("assignee_id", py_get ticket "assignee_id" VNone) ] in
  Ok (VDict d).

(** The request [get_tickets] sends, for the capped [per_page]. *)
Definition tickets_request (c : self) (page per_page sort_by sort_order : value)
  : http_request :=
  let params :=
    [ ("page", py_str page);
      ("per_page", py_str per_page);
      ("sort_by", py_str sort_by);
      ("sort_order", py_str sort_order) ] in
  HttpRequest
    (base_url c +:+ "/tickets.json?" +:+ urlencode params)
    [ ("Authorization", auth_header c); ("Content-Type", "application/json") ].

(** [page + 1 if data.get('next_page') else None] *)
Definition next_page_of (data page : value) : result value :=
  let? nxt := py_get data "next_page" VNone in
  if truthy nxt then py_add_int page 1 else Ok VNone.

(** [page - 1 if data.get('previous_page') and page > 1 else None] *)
Definition previous_page_of (data page : value) : result value :=
  let? prv := py_get data "previous_page" VNone in
  let? cond := (if truthy prv then py_gt_1 page else Ok false) in
  if cond then py_add_int page (-1) else Ok VNone.

(** [data.get('next_page') is not None] *)
Definition has_more_of (data : value) : result value :=
  let? nxt := py_get data "next_page" VNone in
  Ok (VBool (negb (is_none nxt))).

(** The record [get_tickets] returns, from the decoded response. *)
Definition tickets_page (data page per_page sort_by sort_order : value) : result value :=
  let? tickets_data := py_get data "tickets" (VList []) in
  let? items := py_iter tickets_data in
  let? ticket_list := rmap ticket_entry items in
  let? d := dict_display
    [ ("tickets", Ok (VList ticket_list));
      ("page", Ok page);
      ("per_page", Ok per_page);
      ("count", Ok (VInt (Z.of_nat (List.length ticket_list))));
      ("sort_by", Ok sort_by);
      ("sort_order", Ok sort_order);
      ("has_more", has_more_of data);
      ("next_page", next_page_of data page);
      ("previous_page", previous_page_of data page) ] in
  Ok (VDict d).

Definition get_tickets (c : self) (page per_page sort_by sort_order : value) : St R value :=
  try_except
    (let! per_page := slift (py_min_100 per_page) in
     let! data := http_get_json (tickets_request c page per_page sort_by sort_order) in
     slift (tickets_page data page per_page sort_by sort_order))
    (fun e =>
       match exn_type e, exn_http e with
       | HTTPError, Some h =>
           let error_body := default "No response body" (http_body h) in
           fail ("Failed to get latest tickets: HTTP " +:+ PyStr.str_of_Z (http_code h)
                   +:+ " - " +:+ http_reason h +:+ ". " +:+ error_body)
       | _, _ => fail ("Failed to get latest tickets: " +:+ exn_str e)
       end).

(** One article of a section record. *)
Definition article_record (a : article) : value :=
  VDict {[ "id" := article_id a;
           "title" := article_title a;
           "body" := article_body a;
           "updated_at" := VStr (py_str (article_updated_at a));
           "url" := article_html_url a ]}.

(** What [kb[section.name]] is assigned. *)
Definition section_record (s : section) (articles : list article) : value :=
  VDict {[ "section_id" := section_id s;
           "description" := section_description s;
           "articles" := VList (article_record <$> articles) ]}.

(** The loop of [get_all_articles] over the sections still to visit. *)
Fixpoint collect_sections (sections : list section) (kb : dict) : St R dict :=
  match sections with
  | [] => sret kb
  | s :: rest =>
      let! articles := sdk_section_articles (section_id s) in
      collect_sections rest (<[section_name s := section_record s articles]> kb)
  end.

Definition get_all_articles : St R value :=
  try_except
    (let! sections := sdk_sections in
     let! kb := collect_sections sections ∅ in
     sret (VDict kb))
    (fun e => fail ("Failed to fetch knowledge base: " +:+ exn_str e)).

(** [ZenpyTicket(subject=..., ...)] *)
Definition ZenpyTicket
  (subject description requester_id assignee_id priority type tags custom_fields : value)
  : obj :=
  {[ "subject" := subject;
     "description" := description;
     "requester_id" := requester_id;
     "assignee_id" := assignee_id;
     "priority" := priority;
     "type" := type;
     "tags" := tags;
     "custom_fields" := custom_fields ]}.

Definition create_ticket
  (subject description requester_id assignee_id priority type tags custom_fields : value)
  : St R value :=
  try_except
    (let ticket := ZenpyTicket subject description requester_id assignee_id
                     priority type tags custom_fields in
     let! created_audit := sdk_tickets_create ticket in
     let created_ticket_id :=
       getattr_or (as_obj (getattr_or (Some created_audit) "ticket" VNone)) "id" VNone in
     let created_ticket_id :=
       if is_none created_ticket_id
       then getattr_or (Some created_audit) "id" VNone
       else created_ticket_id in
     let! created :=
       (if truthy created_ticket_id
        then let! t := sdk_tickets created_ticket_id in sret (Some t)
        else sret None) in
     let! tags_list :=
       slift (py_list (py_or (getattr_or created "tags" (py_or tags (VList []))) (VList []))) in
     sret (VDict
       {[ "id" := getattr_or created "id" created_ticket_id;
          "subject" := getattr_or created "subject" subject;
          "description" := getattr_or created "description" description;
          "status" := getattr_or created "status" (VStr "new");
          "priority" := getattr_or created "priority" priority;
          "type" := getattr_or created "type" type;
          "created_at" := VStr (py_str (getattr_or created "created_at" (VStr EmptyString)));
          "updated_at" := VStr (py_str (getattr_or created "updated_at" (VStr EmptyString)));
          "requester_id" := getattr_or created "requester_id" requester_id;
          "assignee_id" := getattr_or created "assignee_id" assignee_id;
          "organization_id" := getattr_or created "organization_id" VNone;
          "tags" := tags_list ]}))
    (fun e => fail ("Failed to create ticket: " +:+ exn_str e)).

(** One round of the loop of [update_ticket]: a [None] value is skipped,
    any other value is assigned to the attribute. *)
Definition set_field (key : string) (v : value) (ticket : obj) : obj :=
  if is_none v then ticket else <[key := v]> ticket.

(** The loop [for key, value in fields.items()] of [update_ticket]. *)
Definition apply_fields (fields : dict) (ticket : obj) : obj :=
  map_fold set_field ticket fields.

Definition update_ticket (ticket_id : value) (fields : dict) : St R value :=
  try_except
    (let! ticket := sdk_tickets ticket_id in
     let ticket := apply_fields fields ticket in
     let! _ := sdk_tickets_update ticket in
     let! refreshed := sdk_tickets ticket_id in
     let! d := slift (dict_display
       [ ("id", getattr refreshed "id");
         ("subject", getattr refreshed "subject");
         ("description", getattr refreshed "description");
         ("status", getattr refreshed "status");
         ("priority", getattr refreshed "priority");
         ("type", Ok (getattr_or (Some refreshed) "type" VNone));
         ("created_at", rstr (getattr refreshed "created_at"));
         ("updated_at", rstr (getattr refreshed "updated_at"));
         ("requester_id", getattr refreshed "requester_id");
         ("assignee_id", getattr refreshed "assignee_id");
         ("organization_id", getattr refreshed "organization_id");
         ("tags", py_list (py_or (getattr_or (Some refreshed) "tags" (VList [])) (VList []))) ]) in
     sret (VDict d))
    (fun e => fail ("Failed to update ticket " +:+ py_str ticket_id +:+ ": " +:+ exn_str e)).

Definition get_user (user_id : value) : St R value :=
  try_except
    (let! user := sdk_users user_id in
     let! d := slift (dict_display
       [ ("id", getattr user "id");
         ("name", getattr user "name");
         ("email", getattr user "email");
         ("role", getattr user "role");
         ("phone", Ok (getattr_or (Some user) "phone" VNone));
         ("organization_id", getattr user "organization_id");
         ("created_at", rstr (getattr user "created_at"));
         ("updated_at", rstr (getattr user "updated_at"));
         ("time_zone", Ok (getattr_or (Some user) "time_zone" VNone));
         ("locale", Ok (getattr_or (Some user) "locale" VNone));
         ("active", Ok (getattr_or (Some user) "active" VNone));
         ("verified", Ok (getattr_or (Some user) "verified" VNone));
         ("tags", py_list (py_or (getattr_or (Some user) "tags" (VList [])) (VList []))) ]) in
     sret (VDict d))
    (fun e => fail ("Failed to get user " +:+ py_str user_id +:+ ": " +:+ exn_str e)).

(** The record of a user in [search_users_by_email] and [create_user]. *)
Definition user_brief (user : obj) : result value :=
  let? d := dict_display
    [ ("id", getattr user "id");
      ("name", getattr user "name");
      ("email", getattr user "email");
      ("role", getattr user "role");
      ("organization_id", getattr user "organization_id");
      ("created_at", rstr (getattr user "created_at"));
      ("active", Ok (getattr_or (Some user) "active" VNone)) ] in
  Ok (VDict d).

Definition search_users_by_email (email : value) : St R value :=
  try_except
    (let! users := sdk_search {[ "type" := VStr "user"; "email" := email ]} in
     let! l := slift (rmap user_brief users) in
     sret (VList l))
    (fun e => fail ("Failed to search users by email '" +:+ py_str email
                      +:+ "': " +:+ exn_str e)).

(** [User(email=..., ...)] *)
Definition User (email name role phone organization_id time_zone locale : value) : obj :=
  {[ "email" := email;
     "name" := name;
     "role" := role;
     "phone" := phone;
     "organization_id" := organization_id;
     "time_zone" := time_zone;
     "locale" := locale ]}.

Definition create_user (email name : value) (kwargs : dict) : St R value :=
  try_except
    (let user := User email name
                   (default (VStr "end-user") (kwargs !! "role"))
                   (default VNone (kwargs !! "phone"))
                   (default VNone (kwargs !! "organization_id"))
                   (default VNone (kwargs !! "time_zone"))
                   (default VNone (kwargs !! "locale")) in
     let! created := sdk_users_create user in
     slift (user_brief created))
    (fun e => fail ("Failed to create user: " +:+ exn_str e)).

(** One entry of [ticket_list] in [get_user_tickets]. *)
Definition user_ticket_entry (ticket : obj) : result value :=
  let? d := dict_display
    [ ("id", getattr ticket "id");
      ("subject", getattr ticket "subject");
      ("description", getattr ticket "description");
      ("status", getattr ticket "status");
      ("priority", getattr ticket "priority");
      ("created_at", rstr (getattr ticket "created_at"));
      ("updated_at", rstr (getattr ticket "updated_at"));
      ("requester_id", getattr ticket "requester_id");
      ("assignee_id", getattr ticket "assignee_id") ] in
  Ok (VDict d).

Definition get_user_tickets (user_id status : value) : St R value :=
  try_except
    (let search_query := "type:ticket requester:" +:+ py_str user_id in
     let search_query :=
       if truthy status then search_query +:+ " status:" +:+ py_str status
       else search_query in
     let! tickets := sdk_search {[ "query" := VStr search_query; "type" := VStr "ticket" ]} in
     let! l := slift (rmap user_ticket_entry tickets) in
     sret (VList l))
    (fun e => fail ("Failed to get tickets for user " +:+ py_str user_id
                      +:+ ": " +:+ exn_str e)).

(** The headers every direct API request carries. *)
Definition api_headers (c : self) : list (string * string) :=
  [ ("Authorization", auth_header c); ("Content-Type", "application/json") ].

(** The two [except] clauses of the macro methods: an [HTTPError] is
    reported with its code, reason and body, anything else with [str(e)]. *)
Definition http_failure {A} (what : string) (e : exn) : St R A :=
  match exn_type e, exn_http e with
  | HTTPError, Some h =>
      let error_body := default "No response body" (http_body h) in
      fail (what +:+ ": HTTP " +:+ PyStr.str_of_Z (http_code h)
              +:+ " - " +:+ http_reason h +:+ ". " +:+ error_body)
  | _, _ => fail (what +:+ ": " +:+ exn_str e)
  end.

(** The query parameters of [list_macros], in insertion order: [access] and
    [category] when they are truthy, [active] whenever it is not [None]. *)
Definition macros_params (access active category : value) : list (string * string) :=
  (if truthy access then [ ("access", py_str access) ] else []) ++
  (if is_none active then [] else [ ("active", PyStr.lower (py_str active)) ]) ++
  (if truthy category then [ ("category", py_str category) ] else []).

(** The request [list_macros] sends. *)
Definition macros_request (c : self) (access active category : value) : http_request :=
  let params := macros_params access active category in
  let query_string :=
    match params with
    | [] => EmptyString
    | _ => urlencode params
    end in
  let url := base_url c +:+ "/macros.json" in
  let url := if String.eqb query_string EmptyString then url
             else url +:+ "?" +:+ query_string in
  HttpRequest url (api_headers c).

(** The record of a macro in [list_macros] and [get_macro]. *)
Definition macro_record (macro : value) : result value :=
  let? d := dict_display
    [ ("id", py_get macro "id" VNone);
      ("title", py_get macro "title" VNone);
      ("description", py_get macro "description" VNone);
      ("active", py_get macro "active" VNone);
      ("actions", py_get macro "actions" (VList []));
      ("restriction", py_get macro "restriction" VNone);
      ("created_at", py_get macro "created_at" VNone);
      ("updated_at", py_get macro "updated_at" VNone) ] in
  Ok (VDict d).

Definition list_macros (c : self) (access active category : value) : St R value :=
  try_except
    (let! data := http_get_json (macros_request c access active category) in
     let! macros_data := slift (py_get data "macros" (VList [])) in
     let! items := slift (py_iter macros_data) in
     let! macro_list := slift (rmap macro_record items) in
     sret (VList macro_list))
    (http_failure "Failed to list macros").

(** The request [get_macro] sends. *)
Definition macro_request (c : self) (macro_id : value) : http_request :=
  HttpRequest (base_url c +:+ "/macros/" +:+ py_str macro_id +:+ ".json") (api_headers c).

Definition get_macro (c : self) (macro_id : value) : St R value :=
  try_except
    (let! data := http_get_json (macro_request c macro_id) in
     let! macro := slift (py_get data "macro" (VDict ∅)) in
     slift (macro_record macro))
    (http_failure ("Failed to get macro " +:+ py_str macro_id)).

(** The request [apply_macro_to_ticket] sends. *)
Definition apply_request (c : self) (ticket_id macro_id : value) : http_request :=
  HttpRequest
    (base_url c +:+ "/tickets/" +:+ py_str ticket_id +:+ "/macros/" +:+ py_str macro_id
       +:+ "/apply.json")
    (api_headers c).

(** The [ticket_changes] entry of the preview. *)
Definition changes_record (ticket_changes : value) : result value :=
  let? d := dict_display
    [ ("subject", py_get ticket_changes "subject" VNone);
      ("status", py_get ticket_changes "status" VNone);
      ("priority", py_get ticket_changes "priority" VNone);
      ("type", py_get ticket_changes "type" VNone);
      ("assignee_id", py_get ticket_changes "assignee_id" VNone);
      ("group_id", py_get ticket_changes "group_id" VNone);
      ("tags", py_get ticket_changes "tags" VNone);
      ("custom_fields", py_get ticket_changes "custom_fields" VNone) ] in
  Ok (VDict d).

(** The [comment] entry of the preview: [{...} if comment else None]. *)
Definition comment_preview (comment : value) : result value :=
  if truthy comment then
    let? d := dict_display
      [ ("body", py_get comment "body" VNone);
        ("html_body", py_get comment "html_body" VNone);
        ("public", py_get comment "public" VNone) ] in
    Ok (VDict d)
  else Ok VNone.

Definition apply_macro_to_ticket (c : self) (ticket_id macro_id : value) : St R value :=
  try_except
    (let! data := http_get_json (apply_request c ticket_id macro_id) in
     let! result := slift (py_get data "result" (VDict ∅)) in
     let! ticket_changes := slift (py_get result "ticket" (VDict ∅)) in
     let! comment := slift (py_get result "comment" (VDict ∅)) in
     let! d := slift (dict_display
       [ ("ticket_changes", changes_record ticket_changes);
         ("comment", comment_preview comment);
         ("macro_id", Ok macro_id);
         ("ticket_id", Ok ticket_id) ]) in
     sret (VDict d))
    (http_failure ("Failed to apply macro " +:+ py_str macro_id +:+ " to ticket "
                     +:+ py_str ticket_id)).

End Adapter.
End ZendeskClient.

(** ** The memoising decorator of [get_cached_kb] *)

(** [cachetools.func.ttl_cache] on a function without arguments: the cache
    holds at most one entry, for the empty argument tuple, together with the
    clock reading at which it expires.  Clock readings are numbers of
    seconds. *)
Module TTLCache.

Record entry : Type := Entry {
  expires : Q;
  cached : value;
}.

Definition t : Type := option entry.

Definition empty : t := None.

(** [cache[k]] at clock reading [now]: an entry is served as long as
    [now < expires]; otherwise the lookup is a miss. *)
Definition lookup (now : Q) (c : t) : option value :=
  match c with
  | Some e => if Qle_bool (expires e) now then None else Some (cached e)
  | None => None
  end.

(** [cache.setdefault(k, v)] at clock reading [now]: an entry that is still
    served wins; otherwise [v] is stored and expires [ttl] later. *)
Definition setdefault (ttl now : Q) (v : value) (c : t) : value * t :=
  match lookup now c with
  | Some v0 => (v0, c)
  | None => (v, Some (Entry (now + ttl)%Q v))
  end.

End TTLCache.

(** ** The server process ([server.py]) *)

(** A call of the dispatcher or of [get_cached_kb] into the adapter, with
    its evaluated arguments. *)
Inductive adapter_call : Type :=
| CallGetTicket (ticket_id : value)
| CallCreateTicket
    (subject description requester_id assignee_id priority type tags custom_fields : value)
| CallGetTickets (page per_page sort_by sort_order : value)
| CallGetTicketComments (ticket_id : value)
| CallPostComment (ticket_id comment public : value)
| CallUpdateTicket (ticket_id : value) (fields : dict)
| CallGetUser (user_id : value)
| CallSearchUsersByEmail (email : value)
| CallCreateUser (email name : value) (kwargs : dict)
| CallGetUserTickets (user_id status : value)
| CallGetAllArticles.

(** The state a handler runs in: the remote helpdesk, the in-process state
    of the server (the cache behind [get_cached_kb]), and two observation
    logs: the adapter calls made, oldest first, and the records written by
    [logger.error]. *)
Record world (R : Type) : Type := World {
  w_remote : R;
  w_kb_cache : TTLCache.t;
  w_calls : list adapter_call;
  w_log : list string;
}.
Arguments World {R} _ _ _ _.
Arguments w_remote {R} _.
Arguments w_kb_cache {R} _.
Arguments w_calls {R} _.
Arguments w_log {R} _.

Record TextContent : Type := MkTextContent {
  tc_type : string;
  tc_text : string;
}.

(** [types.TextContent(type="text", text=s)] *)
Definition text_content (s : string) : TextContent := MkTextContent "text" s.

Record PromptMessage : Type := MkPromptMessage {
  pm_role : string;
  pm_content : TextContent;
}.

Record GetPromptResult : Type := MkGetPromptResult {
  gp_description : string;
  gp_messages : list PromptMessage;
}.

(** A parsed URL as the protocol library hands it over: [uri.scheme], and
    what follows the scheme and its colon in the serialization [str(uri)]. *)
Record AnyUrl : Type := MkAnyUrl {
  url_scheme : string;
  url_tail : string;
}.

(** [str(uri)] *)
Definition url_str (u : AnyUrl) : string := url_scheme u +:+ ":" +:+ url_tail u.

(** The characters that end the authority of a URL. *)
Definition ends_authority (c : ascii) : bool :=
  Ascii.eqb c "/" || Ascii.eqb c "?" || Ascii.eqb c "#".

(** Whether the authority at the head of [s] ends with a colon; [prev] tells
    whether the character before [s] was one. *)
Fixpoint authority_ends_colon (prev : bool) (s : string) : bool :=
  match s with
  | EmptyString => prev
  | String c s' =>
      if ends_authority c then prev else authority_ends_colon (Ascii.eqb c ":") s'
  end.

(** The one property of URL serialization the resource handler relies on:
    the serializer writes neither an empty port nor an empty password, so
    the authority of a serialized URL does not end with a colon. *)
Definition url_serialized (u : AnyUrl) : bool :=
  match url_tail u with
  | String "/" (String "/" rest) => negb (authority_ends_colon false rest)
  | _ => true
  end.

Record Resource : Type := MkResource {
  res_uri : AnyUrl;
  res_name : string;
  res_description : string;
  res_mimeType : string;
}.

Definition TICKET_ANALYSIS_TEMPLATE : string := "
You are a helpful Zendesk support analyst. You've been asked to analyze ticket #{ticket_id}.

Please fetch the ticket info and comments to analyze it and provide:
1. A summary of the issue
2. The current status and timeline
3. Key points of interaction

Remember to be professional and focus on actionable insights.
".

Definition COMMENT_DRAFT_TEMPLATE : string := "
You are a helpful Zendesk support agent. You need to draft a response to ticket #{ticket_id}.

Please fetch the ticket info, comments and knowledge base to draft a professional and helpful response that:
1. Acknowledges the customer's concern
2. Addresses the specific issues raised
3. Provides clear next steps or ask for specific details need to proceed
4. Maintains a friendly and professional tone
5. Ask for confirmation before commenting on the ticket

The response should be formatted well and ready to be posted as a comment.
".

Record PromptArgument : Type := MkPromptArgument {
  pa_name : string;
  pa_description : string;
  pa_required : bool;
}.

Record Prompt : Type := MkPrompt {
  prompt_name : string;
  prompt_description : string;
  prompt_arguments : list PromptArgument;
}.

Definition handle_list_prompts : list Prompt :=
  [ MkPrompt "analyze-ticket" "Analyze a Zendesk ticket and provide insights"
      [ MkPromptArgument "ticket_id" "The ID of the ticket to analyze" true ];
    MkPrompt "draft-ticket-response" "Draft a professional response to a Zendesk ticket"
      [ MkPromptArgument "ticket_id" "The ID of the ticket to respond to" true ] ].

(** The names and the [required] lists of the tool catalog returned by
    [handle_list_tools]. *)
Definition tool_catalog : list (string * list string) :=
  [ ("get_ticket", ["ticket_id"]);
    ("create_ticket", ["subject"; "description"]);
    ("get_tickets", []);
    ("get_ticket_comments", ["ticket_id"]);
    ("create_ticket_comment", ["ticket_id"; "comment"]);
    ("update_ticket", ["ticket_id"]);
    ("get_user", ["user_id"]);
    ("search_users_by_email", ["email"]);
    ("create_user", ["email"; "name"]);
    ("get_user_tickets", ["user_id"]) ].

(** [AnyUrl("zendesk://knowledge-base")] *)
Definition knowledge_base_uri : AnyUrl := MkAnyUrl "zendesk" "//knowledge-base".

Definition handle_list_resources : list Resource :=
  [ MkResource knowledge_base_uri
      "Zendesk Knowledge Base"
      "Access to Zendesk Help Center articles and sections"
      "application/json" ].

Section Server.
Context {rt : PyRuntime} {R : Type} {hd : Helpdesk R}.

(** The module-level [zendesk_client]. *)
Variable zendesk_client : ZendeskClient.self.

(** Handlers act on the world. *)
Definition M (A : Type) : Type := St (world R) A.

(** The adapter method a call stands for. *)
Definition run_call (call : adapter_call) : St R value :=
  match call with
  | CallGetTicket ticket_id => ZendeskClient.get_ticket ticket_id
  | CallCreateTicket subject description requester_id assignee_id priority type tags
      custom_fields =>
      ZendeskClient.create_ticket subject description requester_id assignee_id priority
        type tags custom_fields
  | CallGetTickets page per_page sort_by sort_order =>
      ZendeskClient.get_tickets zendesk_client page per_page sort_by sort_order
  | CallGetTicketComments ticket_id => ZendeskClient.get_ticket_comments ticket_id
  | CallPostComment ticket_id comment public =>
      ZendeskClient.post_comment ticket_id comment public
  | CallUpdateTicket ticket_id fields => ZendeskClient.update_ticket ticket_id fields
  | CallGetUser user_id => ZendeskClient.get_user user_id
  | CallSearchUsersByEmail email => ZendeskClient.search_users_by_email email
  | CallCreateUser email name kwargs => ZendeskClient.create_user email name kwargs
  | CallGetUserTickets user_id status => ZendeskClient.get_user_tickets user_id status
  | CallGetAllArticles => ZendeskClient.get_all_articles
  end.

(** A call [zendesk_client.method(...)] made by a handler: the method runs
    against the remote state, and the call is entered in the log. *)
Definition delegate (call : adapter_call) : M value :=
  fun w =>
    let '(x, r') := run_call call (w_remote w) in
    (x, World r' (w_kb_cache w) (w_calls w ++ [call]) (w_log w)).

(** [logger.error(msg)] *)
Definition logger_error (msg : string) : M unit :=
  fun w => (Ok tt, World (w_remote w) (w_kb_cache w) (w_calls w) (w_log w ++ [msg])).

(** *** Prompts *)

(** [not arguments or "ticket_id" not in arguments] *)
Definition lacks_ticket_id (arguments : option (gmap string string)) : bool :=
  match arguments with
  | None => true
  | Some args => bool_decide (args = ∅) || negb (bool_decide (is_Some (args !! "ticket_id")))
  end.

Definition handle_get_prompt (name : string) (arguments : option (gmap string string))
  : M GetPromptResult :=
  if lacks_ticket_id arguments
  then sraise (Exn ValueError "Missing required argument: ticket_id")
  else
    let raw := default EmptyString (default ∅ arguments !! "ticket_id") in
    let! ticket_id := slift (py_int (VStr raw)) in
    try_except
      (let! pd :=
         (if String.eqb name "analyze-ticket" then
            let! prompt := slift (PyStr.format TICKET_ANALYSIS_TEMPLATE
                                    [("ticket_id", PyStr.str_of_Z ticket_id)]) in
            sret (prompt, "Analysis prompt for ticket #" +:+ PyStr.str_of_Z ticket_id)
          else if String.eqb name "draft-ticket-response" then
            let! prompt := slift (PyStr.format COMMENT_DRAFT_TEMPLATE
                                    [("ticket_id", PyStr.str_of_Z ticket_id)]) in
            sret (prompt, "Response draft prompt for ticket #" +:+ PyStr.str_of_Z ticket_id)
          else
            sraise (Exn ValueError ("Unknown prompt: " +:+ name))) in
       sret (MkGetPromptResult (snd pd)
               [ MkPromptMessage "user" (text_content (PyStr.strip (fst pd))) ]))
      (fun e =>
         let! _ := logger_error ("Error generating prompt: " +:+ exn_str e) in
         sraise e).

(** *** Tools *)

(** [not arguments] *)
Definition no_arguments (arguments : option dict) : bool :=
  match arguments with
  | None => true
  | Some args => bool_decide (args = ∅)
  end.

(** The guard [if not arguments: raise ValueError("Missing arguments")];
    past it, [arguments] is a non-empty dict. *)
Definition require_arguments (arguments : option dict) : M dict :=
  if no_arguments arguments
  then sraise (Exn ValueError "Missing arguments")
  else sret (default ∅ arguments).

(** [d[key]] on a dict *)
Definition subscript (d : dict) (key : string) : result value :=
  match d !! key with
  | Some v => Ok v
  | None => Raise (Exn KeyError (py_repr (VStr key)))
  end.

(** [d.get(key)] on a dict *)
Definition dict_get (d : dict) (key : string) : value := default VNone (d !! key).

(** [arguments.get(key, dflt) if arguments else dflt] *)
Definition argument_or (arguments : option dict) (key : string) (dflt : value) : value :=
  if no_arguments arguments then dflt
  else default dflt (default ∅ arguments !! key).

(** Passing [**fields] to [update_ticket(self, ticket_id, **fields)] next to
    the keyword [ticket_id]: a key naming a parameter that is already bound
    is a [TypeError] raised before the method body runs. *)
Definition bind_fields (fields : dict) : result dict :=
  if bool_decide (is_Some (fields !! "self"))
  then Raise (Exn TypeError
         "ZendeskClient.update_ticket() got multiple values for argument 'self'")
  else Ok fields.

(** The body of the [try] block of [handle_call_tool]. *)
Definition call_tool_body (name : string) (arguments : option dict)
  : M (list TextContent) :=
  if String.eqb name "get_ticket" then
    let! args := require_arguments arguments in
    let! ticket_id := slift (subscript args "ticket_id") in
    let! ticket := delegate (CallGetTicket ticket_id) in
    sret [ text_content (json_dumps None ticket) ]
  else if String.eqb name "create_ticket" then
    let! args := require_arguments arguments in
    let! created := delegate (CallCreateTicket
      (dict_get args "subject") (dict_get args "description")
      (dict_get args "requester_id") (dict_get args "assignee_id")
      (dict_get args "priority") (dict_get args "type")
      (dict_get args "tags") (dict_get args "custom_fields")) in
    sret [ text_content (json_dumps (Some 2%nat)
             (VDict {[ "message" := VStr "Ticket created successfully";
                       "ticket" := created ]})) ]
  else if String.eqb name "get_tickets" then
    let page := argument_or arguments "page" (VInt 1) in
    let per_page := argument_or arguments "per_page" (VInt 25) in
    let sort_by := argument_or arguments "sort_by" (VStr "created_at") in
    let sort_order := argument_or arguments "sort_order" (VStr "desc") in
    let! tickets := delegate (CallGetTickets page per_page sort_by sort_order) in
    sret [ text_content (json_dumps (Some 2%nat) tickets) ]
  else if String.eqb name "get_ticket_comments" then
    let! args := require_arguments arguments in
    let! ticket_id := slift (subscript args "ticket_id") in
    let! comments := delegate (CallGetTicketComments ticket_id) in
    sret [ text_content (json_dumps None comments) ]
  else if String.eqb name "create_ticket_comment" then
    let! args := require_arguments arguments in
    let public := default (VBool true) (args !! "public") in
    let! ticket_id := slift (subscript args "ticket_id") in
    let! comment := slift (subscript args "comment") in
    let! result := delegate (CallPostComment ticket_id comment public) in
    sret [ text_content ("Comment created successfully: " +:+ py_str result) ]
  else if String.eqb name "update_ticket" then
    let! args := require_arguments arguments in
    let ticket_id := dict_get args "ticket_id" in
    if is_none ticket_id then sraise (Exn ValueError "ticket_id is required")
    else
      let update_fields := delete "ticket_id" args in
      let! id := slift (py_int ticket_id) in
      let! fields := slift (bind_fields update_fields) in
      let! updated := delegate (CallUpdateTicket (VInt id) fields) in
      sret [ text_content (json_dumps (Some 2%nat)
               (VDict {[ "message" := VStr "Ticket updated successfully";
                         "ticket" := updated ]})) ]
  else if String.eqb name "get_user" then
    let! args := require_arguments arguments in
    let! user_id := slift (subscript args "user_id") in
    let! user := delegate (CallGetUser user_id) in
    sret [ text_content (json_dumps (Some 2%nat) user) ]
  else if String.eqb name "search_users_by_email" then
    let! args := require_arguments arguments in
    let! email := slift (subscript args "email") in
    let! users := delegate (CallSearchUsersByEmail email) in
    let! found := slift (py_len users) in
    sret [ text_content (json_dumps (Some 2%nat)
             (VDict {[ "found" := VInt (Z.of_nat found); "users" := users ]})) ]
  else if String.eqb name "create_user" then
    let! args := require_arguments arguments in
    let! email := slift (subscript args "email") in
    let! name_ := slift (subscript args "name") in
    let kwargs : dict :=
      {[ "role" := dict_get args "role";
         "phone" := dict_get args "phone";
         "organization_id" := dict_get args "organization_id" ]} in
    let! user := delegate (CallCreateUser email name_ kwargs) in
    sret [ text_content (json_dumps (Some 2%nat)
             (VDict {[ "message" := VStr "User created successfully"; "user" := user ]})) ]
  else if String.eqb name "get_user_tickets" then
    let! args := require_arguments arguments in
    let! user_id := slift (subscript args "user_id") in
    let! tickets := delegate (CallGetUserTickets user_id (dict_get args "status")) in
    let! user_id' := slift (subscript args "user_id") in
    let! count := slift (py_len tickets) in
    sret [ text_content (json_dumps (Some 2%nat)
             (VDict {[ "user_id" := user_id';
                       "count" := VInt (Z.of_nat count);
                       "tickets" := tickets ]})) ]
  else
    sraise (Exn ValueError ("Unknown tool: " +:+ name)).

(** What the [except Exception as e] clause of [handle_call_tool] returns. *)
Definition error_content (e : exn) : list TextContent :=
  [ text_content ("Error: " +:+ exn_str e) ].

Definition handle_call_tool (name : string) (arguments : option dict)
  : M (list TextContent) :=
  try_except (call_tool_body name arguments) (fun e => sret (error_content e)).

(** *** Resources *)

(** The [ttl] of the decorator of [get_cached_kb], in seconds. *)
Definition KB_TTL : Q := 3600.

(** [get_cached_kb()], with the two readings of the clock it may take:
    [now] when the cache is looked up, [stored_at] when a fetched value is
    stored.  A value still served is returned without any call.  Otherwise
    the adapter is called; what it raises propagates and nothing is stored;
    what it returns is stored and expires [KB_TTL] after [stored_at]. *)
Definition get_cached_kb (now stored_at : Q) : M value :=
  fun w =>
    match TTLCache.lookup now (w_kb_cache w) with
    | Some v => (Ok v, w)
    | None =>
        match delegate CallGetAllArticles w with
        | (Ok v, w') =>
            let '(v', c') := TTLCache.setdefault KB_TTL stored_at v (w_kb_cache w') in
            (Ok v', World (w_remote w') c' (w_calls w') (w_log w'))
        | (Raise e, w') => (Raise e, w')
        end
    end.

(** [x.values()]: only a dict has the method.  The order of the values is
    that of the finite map, not the insertion order of Python. *)
Definition py_values (v : value) : result (list value) :=
  match v with
  | VDict d => Ok (map_to_list d).*2
  | _ => Raise (Exn AttributeError
           ("'" +:+ type_name v +:+ "' object has no attribute 'values'"))
  end.

(** [x[key]] for a string key *)
Definition py_subscript (v : value) (key : string) : result value :=
  match v with
  | VDict d => subscript d key
  | VList _ => Raise (Exn TypeError "list indices must be integers or slices, not str")
  | VStr _ => Raise (Exn TypeError "string indices must be integers, not 'str'")
  | _ => Raise (Exn TypeError ("'" +:+ type_name v +:+ "' object is not subscriptable"))
  end.

(** [len(section['articles'])] *)
Definition articles_count (section : value) : result nat :=
  let? articles := py_subscript section "articles" in
  py_len articles.

(** The document [handle_read_resource] serializes. *)
Definition kb_document (kb_data : value) : result value :=
  let? sections := py_len kb_data in
  let? values := py_values kb_data in
  let? counts := rmap articles_count values in
  Ok (VDict
    {[ "knowledge_base" := kb_data;
       "metadata" := VDict
         {[ "sections" := VInt (Z.of_nat sections);
            "total_articles" := VInt (Z.of_nat (sum_list counts)) ]} ]}).

(** The [try] statement of [handle_read_resource]. *)
Definition read_knowledge_base (now stored_at : Q) : M string :=
  try_except
    (let! kb_data := get_cached_kb now stored_at in
     let! doc := slift (kb_document kb_data) in
     sret (json_dumps (Some 2%nat) doc))
    (fun e =>
       let! _ := logger_error ("Error fetching knowledge base: " +:+ exn_str e) in
       sraise e).

Definition handle_read_resource (uri : AnyUrl) (now stored_at : Q) : M string :=
  if negb (String.eqb (url_scheme uri) "zendesk") then
    let! _ := logger_error ("Unsupported URI scheme: " +:+ url_scheme uri) in
    sraise (Exn ValueError ("Unsupported URI scheme: " +:+ url_scheme uri))
  else
    let path := PyStr.replace "zendesk://" EmptyString (url_str uri) in
    if negb (String.eqb path "knowledge-base") then
      let! _ := logger_error ("Unknown resource path: " +:+ path) in
      sraise (Exn ValueError ("Unknown resource path: " +:+ path))
    else
      read_knowledge_base now stored_at.

(** One read of the knowledge-base resource as the process serves it: the
    two clock readings of the read and the state the helpdesk is in when
    the read arrives. *)
Record read : Type := Read {
  read_now : Q;
  read_stored_at : Q;
  read_remote : R;
}.

(** What a read is observed to do: its outcome and the number of
    [get_all_articles] calls it made. *)
Record observation : Type := Observation {
  obs_result : result string;
  obs_fetches : nat;
}.

(** Number of [get_all_articles] calls in a call log. *)
Definition count_fetches (calls : list adapter_call) : nat :=
  List.length (List.filter
    (fun c => match c with CallGetAllArticles => true | _ => false end) calls).

(** Serving a sequence of reads of the knowledge-base resource, starting
    from the cache [c]: each read meets the helpdesk in the state of its own
    moment, and the cache is carried from one read to the next. *)
Fixpoint serve_reads (c : TTLCache.t) (reads : list read) : list observation :=
  match reads with
  | [] => []
  | rd :: rest =>
      let '(x, w') :=
        handle_read_resource knowledge_base_uri (read_now rd) (read_stored_at rd)
          (World (read_remote rd) c [] []) in
      Observation x (count_fetches (w_calls w')) :: serve_reads (w_kb_cache w') rest
  end.

End Server.

Arguments M : clear implicits.
Arguments read : clear implicits.

(** ** A small helpdesk to run the handlers against *)

Module Sample.

(** A runtime with simple renderings: [repr] and [json.dumps] are exact on
    [None], booleans, integers and plain strings, and write a placeholder
    for lists and dicts; the two encoders are the identity on a single
    string. *)
Definition repr (v : value) : string :=
  match v with
  | VNone => "None"
  | VBool b => if b then "True" else "False"
  | VInt n => PyStr.str_of_Z n
  | VStr s => "'" +:+ s +:+ "'"
  | VList _ => "[...]"
  | VDict _ => "{...}"
  end.

Definition dumps (indent : option nat) (v : value) : string :=
  match v with
  | VNone => "null"
  | VBool b => if b then "true" else "false"
  | VInt n => PyStr.str_of_Z n
  | VStr s => String "034" (s +:+ String "034" EmptyString)
  | VList _ => "[...]"
  | VDict _ => "{...}"
  end.

Definition encode_query (params : list (string * string)) : string :=
  String.concat "&" ((fun kv => fst kv +:+ "=" +:+ snd kv) <$> params).

#[export] Instance runtime : PyRuntime := {
  py_repr := repr;
  json_dumps := dumps;
  urlencode := encode_query;
  b64encode := fun s => s;
}.

(** The remote state: whether the helpdesk answers at all, its tickets by
    id, its help-center sections with their articles, and the document the
    ticket listing endpoint answers with. *)
Record desk : Type := Desk {
  online : bool;
  tickets : gmap Z obj;
  sections : list (section * list article);
  listing : value;
}.

Definition unreachable : exn := Exn PlainException "connection refused".
Definition not_found : exn := Exn PlainException "RecordNotFound".

(** Every call fails while the helpdesk is offline. *)
Definition guarded {A} (m : St desk A) : St desk A :=
  fun d => if online d then m d else (Raise unreachable, d).

Definition ticket_by_id (id : value) : St desk obj :=
  guarded (fun d =>
    match id with
    | VInt n =>
        match tickets d !! n with
        | Some t => (Ok t, d)
        | None => (Raise not_found, d)
        end
    | _ => (Raise not_found, d)
    end).

(** An update stores the ticket under its id and answers with an audit. *)
Definition store_ticket (t : obj) : St desk obj :=
  guarded (fun d =>
    match t !! "id" with
    | Some (VInt n) =>
        (Ok {[ "ticket" := VDict t ]},
         Desk (online d) (<[n := t]> (tickets d)) (sections d) (listing d))
    | _ => (Raise not_found, d)
    end).

(** A created ticket gets the next free id and the status [new]. *)
Definition create_ticket (t : obj) : St desk obj :=
  guarded (fun d =>
    let n := Z.of_nat (size (tickets d)) + 1 in
    let t' := <["id" := VInt n]> (<["status" := VStr "new"]> t) in
    (Ok {[ "ticket" := VDict t' ]},
     Desk (online d) (<[n := t']> (tickets d)) (sections d) (listing d))).

Definition same_id (a b : value) : bool :=
  match a, b with
  | VInt m, VInt n => (m =? n)%Z
  | _, _ => false
  end.

Definition articles_of (id : value) : St desk (list article) :=
  guarded (fun d =>
    match List.find (fun sa => same_id (section_id (fst sa)) id) (sections d) with
    | Some sa => (Ok (snd sa), d)
    | None => (Raise not_found, d)
    end).

#[export] Instance helpdesk : Helpdesk desk := {
  sdk_tickets := ticket_by_id;
  sdk_tickets_comments := fun _ => guarded (sret []);
  sdk_tickets_update := store_ticket;
  sdk_tickets_create := create_ticket;
  sdk_users := fun _ => guarded (sraise not_found);
  sdk_users_create := fun u => guarded (sret (<["id" := VInt 1]> u));
  sdk_search := fun _ => guarded (sret []);
  sdk_sections := guarded (fun d => (Ok (fst <$> sections d), d));
  sdk_section_articles := articles_of;
  http_get_json := fun _ =>
    fun d =>
      if online d then (Ok (listing d), d)
      else (Raise (MkExn HTTPError "HTTP Error 503: Service Unavailable"
                     (Some (HttpError 503 "Service Unavailable" None))), d);
}.

Definition client : ZendeskClient.self := ZendeskClient.init "acme" "agent@acme.test" "t0ken".

Definition an_article (id : Z) (title : string) : article :=
  Article (VInt id) (VStr title) (VStr "...") (VStr "2024-01-01 00:00:00+00:00")
    (VStr "https://acme.zendesk.com/hc/articles").

Definition a_ticket (id : Z) (subject : string) : obj :=
  {[ "id" := VInt id;
     "subject" := VStr subject;
     "description" := VStr "It does not work";
     "status" := VStr "open";
     "priority" := VStr "normal";
     "type" := VStr "problem";
     "created_at" := VStr "2024-01-01 00:00:00+00:00";
     "updated_at" := VStr "2024-01-02 00:00:00+00:00";
     "requester_id" := VInt 10;
     "assignee_id" := VInt 20;
     "organization_id" := VNone;
     "tags" := VList [VStr "vip"] ]}.

(** A helpdesk with one ticket, two sections and a one-ticket listing. *)
Definition up : desk :=
  Desk true
    {[ 7 := a_ticket 7 "Printer on fire" ]}
    [ (Section_ (VInt 1) "FAQ" (VStr "Frequent questions"),
       [ an_article 11 "Reset a password"; an_article 12 "Close an account" ]);
      (Section_ (VInt 2) "Billing" VNone, [ an_article 21 "Invoices" ]) ]
    (VDict {[ "tickets" := VList [ VDict (a_ticket 7 "Printer on fire") ];
              "next_page" := VStr "https://acme.zendesk.com/api/v2/tickets.json?page=2";
              "previous_page" := VNone ]}).

(** The same helpdesk, not answering. *)
Definition down : desk := Desk false (tickets up) (sections up) (listing up).

(** A fresh server process facing the remote state [d]. *)
Definition boot (d : desk) : world desk := World d TTLCache.empty [] [].

End Sample.

(** ** Vocabulary of the properties *)

(** The fields that are not [None]. *)
Definition given (fields : dict) : dict :=
  filter (fun kv => is_none kv.2 = false) fields.

(** The nine fields of an entry of [tickets]. *)
Definition entry_fields : gset string :=
  {[ "id"; "subject"; "status"; "priority"; "description"; "created_at";
     "updated_at"; "requester_id"; "assignee_id" ]}.

(** An argument is absent when there are no arguments at all or the
    dictionary has no such key. *)
Definition absent (key : string) (arguments : option dict) : Prop :=
  arguments = None \/ exists args, arguments = Some args /\ args !! key = None.

(** [s] without its prefix [p], when it has that prefix. *)
Fixpoint after_prefix (p s : string) : option string :=
  match p, s with
  | EmptyString, _ => Some s
  | String a p', String b s' => if Ascii.eqb a b then after_prefix p' s' else None
  | String _ _, EmptyString => None
  end.

(** Whether a character that ends an authority occurs in [s]. *)
Fixpoint has_delimiter (s : string) : bool :=
  match s with
  | EmptyString => false
  | String c s' => ends_authority c || has_delimiter s'
  end.

(** A section record with a list of articles. *)
Definition has_article_list (section : value) : Prop :=
  exists (rec : dict) (articles : list value),
    section = VDict rec /\ rec !! "articles" = Some (VList articles).

(** The clock readings of a sequence of reads never go back: each read
    looks the cache up no earlier than [t], stores no earlier than it looked
    up, and the reads after it come no earlier than its store. *)
Fixpoint ordered_from {R : Type} (t : Q) (reads : list (read R)) : Prop :=
  match reads with
  | [] => True
  | rd :: rest =>
      (t <= read_now rd)%Q /\ (read_now rd <= read_stored_at rd)%Q /\
      ordered_from (read_stored_at rd) rest
  end.

Definition ordered {R : Type} (reads : list (read R)) : Prop :=
  match reads with
  | [] => True
  | rd :: _ => ordered_from (read_now rd) reads
  end.

Section Vocabulary.
Context {rt : PyRuntime} {R : Type} {hd : Helpdesk R}.
Variable cfg : ZendeskClient.self.

(** A run of handler code from the world [w] that makes at most one adapter
    call: either it raises before any call and leaves the world as it was,
    or it makes the call [call] against the remote state of [w], raises what
    the call raises, and after a call that returns either returns one text
    content or raises; the call is the only change to the world. *)
Inductive dispatched {A : Type} (good : A -> Prop) (w : world R)
  : result A * world R -> Prop :=
| Rejected (e : exn) : dispatched good w (Raise e, w)
| Delegated (call : adapter_call) (x : result value) (r' : R) (out : result A) :
    run_call cfg call (w_remote w) = (x, r') ->
    match x with
    | Raise e => out = Raise e
    | Ok _ => match out with Ok a => good a | Raise _ => True end
    end ->
    dispatched good w (out, World r' (w_kb_cache w) (w_calls w ++ [call]) (w_log w)).

(** A content list of one text content. *)
Definition one_text (content : list TextContent) : Prop :=
  exists text, content = [ text_content text ].

(** Code after the call that only computes: it leaves the world alone, and
    what it returns is good. *)
Definition computes {A B} (good : B -> Prop) (k : A -> M R B) : Prop :=
  forall a w, exists out,
    k a w = (out, w) /\ match out with Ok b => good b | Raise _ => True end.

(** Handler code that neither reads nor writes the in-process state: what
    it returns and what it does to the helpdesk depend on the remote state
    alone, and it leaves the cache and the error log as they were. *)
Definition stateless {A : Type} (m : M R A) : Prop :=
  forall w1 w2, w_remote w1 = w_remote w2 ->
    fst (m w1) = fst (m w2) /\
    w_remote (snd (m w1)) = w_remote (snd (m w2)) /\
    w_kb_cache (snd (m w1)) = w_kb_cache w1 /\
    w_log (snd (m w1)) = w_log w1.

(** The world after one [logger.error(msg)] and nothing else. *)
Definition logged (w : world R) (msg : string) : world R :=
  World (w_remote w) (w_kb_cache w) (w_calls w) (w_log w ++ [msg]).

(** What a read returns when [get_cached_kb] hands it the snapshot [v]. *)
Definition rendered (v : value) : result string :=
  let? doc := kb_document v in Ok (json_dumps (Some 2%nat) doc).

(** One read served from the cache [c]. *)
Definition serve (c : TTLCache.t) (rd : read R) : result string * world R :=
  handle_read_resource cfg knowledge_base_uri (read_now rd) (read_stored_at rd)
    (World (read_remote rd) c [] []).

End Vocabulary.

(** ** Vocabulary of the further properties *)

Section MoreVocabulary.
Context {rt : PyRuntime} {R : Type} {hd : Helpdesk R}.
Variable cfg : ZendeskClient.self.

(** Handler code that, run from [w], answers with one text content
    whenever it made the adapter call [call] and that call returned. *)
Definition answers (m : M R (list TextContent)) (w : world R) : Prop :=
  forall call v r',
    w_calls (snd (m w)) = w_calls w ++ [call] ->
    run_call cfg call (w_remote w) = (Ok v, r') ->
    exists text,
      m w = (Ok [ text_content text ],
             World r' (w_kb_cache w) (w_calls w ++ [call]) (w_log w)).

End MoreVocabulary.

(** ** A helpdesk that only acknowledges creations *)

Module Degenerate.

(** A helpdesk without state in which every call is refused, except that a
    ticket creation is acknowledged with the audit [audit]. *)
Definition refused {A} : St unit A := sraise (Exn PlainException "refused").

Definition acknowledging (audit : obj) : Helpdesk unit := {|
  sdk_tickets := fun _ => refused;
  sdk_tickets_comments := fun _ => refused;
  sdk_tickets_update := fun _ => refused;
  sdk_tickets_create := fun _ => sret audit;
  sdk_users := fun _ => refused;
  sdk_users_create := fun _ => refused;
  sdk_search := fun _ => refused;
  sdk_sections := refused;
  sdk_section_articles := fun _ => refused;
  http_get_json := fun _ => refused;
|}.

End Degenerate.

(** An empty sample helpdesk whose endpoint answers every request with
    [doc]. *)
Definition answering (doc : value) : Sample.desk := Sample.Desk true ∅ [] doc.

(** ** Vocabulary of the macro records *)

(** The eight fields of a macro record. *)
Definition macro_fields : gset string :=
  {[ "id"; "title"; "description"; "active"; "actions"; "restriction";
     "created_at"; "updated_at" ]}.

(** The eight fields of the [ticket_changes] of a macro preview. *)
Definition change_fields : gset string :=
  {[ "subject"; "status"; "priority"; "type"; "assignee_id"; "group_id";
     "tags"; "custom_fields" ]}.

(** The three fields of the [comment] of a macro preview. *)
Definition comment_fields : gset string := {[ "body"; "html_body"; "public" ]}.

(** What a field of a macro record holds when the macro lacks it. *)
Definition macro_default (field : string) : value :=
  if String.eqb field "actions" then VList [] else VNone.

(** [rec] holds exactly the fields [fields], each with the value [src] has
    for it, or with the default of the field when [src] lacks it. *)
Definition picked (fields : gset string) (dflt : string -> value) (src rec : dict) : Prop :=
  dom rec = fields /\
  forall k, k ∈ fields -> rec !! k = Some (default (dflt k) (src !! k)).


Section Requests.
Context {rt : PyRuntime}.


End Requests.

(** * Examples *)

Example strip_ex :
  PyStr.strip (String "010" (String " " ("a b" +:+ String "009" (String "010" EmptyString)))) = "a b".
Proof. reflexivity. Qed.

Example replace_ex : PyStr.replace "ab" "-" "xabab_a_ab" = "x--_a_-".
Proof. reflexivity. Qed.

Example replace_all_occurrences :
  PyStr.replace "zendesk://" EmptyString "zendesk://a/zendesk://b" = "a/b".
Proof. reflexivity. Qed.

Example str_of_Z_ex : PyStr.str_of_Z (-42) = "-42" /\ PyStr.str_of_Z 0 = "0".
Proof. split; reflexivity. Qed.

Example int_of_str_ex :
  PyStr.int_of_str "r" " 4_2 " = Ok 42 /\
  PyStr.int_of_str "r" "-007" = Ok (-7) /\
  PyStr.int_of_str "r" "abc" = Raise (PyStr.int_invalid_literal "r") /\
  PyStr.int_of_str "r" "1__0" = Raise (PyStr.int_invalid_literal "r") /\
  PyStr.int_of_str "r" "+" = Raise (PyStr.int_invalid_literal "r").
Proof. repeat split; reflexivity. Qed.

Example format_ex :
  PyStr.format "ticket #{ticket_id} of {{n}}" [("ticket_id", "7")] = Ok "ticket #7 of {n}" /\
  PyStr.format "{other}" [("ticket_id", "7")] = Raise (Exn KeyError "'other'").
Proof. split; reflexivity. Qed.

Example lookup_ex :
  TTLCache.lookup 3600 (Some (TTLCache.Entry 3601 VNone)) = Some VNone /\
  TTLCache.lookup 3601 (Some (TTLCache.Entry 3601 VNone)) = None.
Proof. split; reflexivity. Qed.

Example get_ticket_ex :
  fst (handle_call_tool (rt := Sample.runtime) (hd := Sample.helpdesk) Sample.client
         "get_ticket" (Some {[ "ticket_id" := VInt 8 ]}) (Sample.boot Sample.up))
  = Ok [ text_content "Error: Failed to get ticket 8: RecordNotFound" ].
Proof. vm_compute. reflexivity. Qed.

Example unknown_tool_ex :
  fst (handle_call_tool (rt := Sample.runtime) (hd := Sample.helpdesk) Sample.client
         "close_ticket" None (Sample.boot Sample.up))
  = Ok [ text_content "Error: Unknown tool: close_ticket" ].
Proof. vm_compute. reflexivity. Qed.

Example analyze_prompt_ex :
  fst (handle_get_prompt (rt := Sample.runtime) "analyze-ticket"
         (Some {[ "ticket_id" := "42" ]}) (Sample.boot Sample.up))
  = Ok (MkGetPromptResult "Analysis prompt for ticket #42"
          [ MkPromptMessage "user" (text_content
"You are a helpful Zendesk support analyst. You've been asked to analyze ticket #42.

Please fetch the ticket info and comments to analyze it and provide:
1. A summary of the issue
2. The current status and timeline
3. Key points of interaction

Remember to be professional and focus on actionable insights.") ]).
Proof. vm_compute. reflexivity. Qed.

Example read_sequence_ex :
  obs_fetches <$>
    serve_reads (rt := Sample.runtime) (hd := Sample.helpdesk) Sample.client TTLCache.empty
      [ Read 0 1 Sample.down; Read 2 3 Sample.up; Read 5 6 Sample.down;
        Read 3603 3604 Sample.down ]
  = [ 1%nat; 1%nat; 0%nat; 1%nat ].
Proof. vm_compute. reflexivity. Qed.

(** * Properties *)

(** ** The monad *)

Section MonadFacts.
Context {S A B : Type}.

Lemma sbind_ok (m : St S A) (k : A -> St S B) (s s' : S) (a : A) :
  m s = (Ok a, s') -> sbind m k s = k a s'.
Proof. intros E. unfold sbind. now rewrite E. Qed.

Lemma sbind_raise (m : St S A) (k : A -> St S B) (s s' : S) (e : exn) :
  m s = (Raise e, s') -> sbind m k s = (Raise e, s').
Proof. intros E. unfold sbind. now rewrite E. Qed.

Lemma try_except_ok (m : St S A) (h : exn -> St S A) (s s' : S) (a : A) :
  m s = (Ok a, s') -> try_except m h s = (Ok a, s').
Proof. intros E. unfold try_except. now rewrite E. Qed.

Lemma try_except_raise (m : St S A) (h : exn -> St S A) (s s' : S) (e : exn) :
  m s = (Raise e, s') -> try_except m h s = h e s'.
Proof. intros E. unfold try_except. now rewrite E. Qed.

End MonadFacts.

Lemma rmap_length {A B} (f : A -> result B) (l : list A) (l' : list B) :
  rmap f l = Ok l' -> List.length l' = List.length l.
Proof.
  revert l'. induction l as [|x l IH]; intros l' E; simpl in E.
  - now inversion E.
  - destruct (f x) as [y|e]; simpl in E; [|discriminate].
    destruct (rmap f l) as [ys|e]; simpl in E; [|discriminate].
    inversion E; subst. simpl. now rewrite (IH ys).
Qed.

Lemma rmap_Forall {A B} (f : A -> result B) (P : B -> Prop) (l : list A) (l' : list B) :
  (forall x y, f x = Ok y -> P y) -> rmap f l = Ok l' -> Forall P l'.
Proof.
  intros Hf. revert l'. induction l as [|x l IH]; intros l' E; simpl in E.
  - inversion E. constructor.
  - destruct (f x) as [y|e] eqn:Ex; simpl in E; [|discriminate].
    destruct (rmap f l) as [ys|e]; simpl in E; [|discriminate].
    inversion E; subst. constructor; eauto.
Qed.

(** ** [update_ticket]: the loop over the fields *)

Section UpdateTicket.
Context {rt : PyRuntime} {R : Type} {hd : Helpdesk R}.


(** The loop assigns exactly the fields that are not [None], on top of the
    attributes the ticket was loaded with. *)
Lemma apply_fields_union (fields : dict) (ticket : obj) :
  ZendeskClient.apply_fields fields ticket = given fields ∪ ticket.
Proof.
  unfold ZendeskClient.apply_fields, given.
  apply (map_fold_weak_ind
           (fun (r : obj) (m : dict) =>
              r = filter (fun kv => is_none kv.2 = false) m ∪ ticket)).
  - now rewrite map_filter_empty, (left_id_L ∅ (∪)).
  - intros k v m r Hk IH. unfold ZendeskClient.set_field.
    destruct (is_none v) eqn:Ev.
    + rewrite map_filter_insert_not'; simpl; [exact IH | congruence |].
      intros y Hy. rewrite Hk in Hy. discriminate.
    + rewrite map_filter_insert_True by (simpl; exact Ev).
      now rewrite IH, insert_union_l.
Qed.

Lemma apply_fields_skips_none (fields : dict) (ticket : obj) (key : string) :
  fields !! key = Some VNone \/ fields !! key = None ->
  ZendeskClient.apply_fields fields ticket !! key = ticket !! key.
Proof.
  intros Hk. rewrite apply_fields_union.
  apply lookup_union_r. unfold given.
  apply map_lookup_filter_None. destruct Hk as [Hk|Hk].
  - right. intros v Hv. rewrite Hk in Hv. inversion Hv; subst. simpl. discriminate.
  - now left.
Qed.

Lemma apply_fields_writes (fields : dict) (ticket : obj) (key : string) (v : value) :
  fields !! key = Some v -> is_none v = false ->
  ZendeskClient.apply_fields fields ticket !! key = Some v.
Proof.
  intros Hk Hv. rewrite apply_fields_union.
  apply lookup_union_Some_l. unfold given.
  apply map_lookup_filter_Some. split; [exact Hk | exact Hv].
Qed.

(** C9. In [update_ticket], once the ticket is loaded, a round of the loop
    on a field whose value is [None] assigns nothing; the ticket handed to
    [client.tickets.update] keeps the loaded value of every attribute whose
    field is [None] or is not provided (so no attribute can be cleared to
    null), and carries the provided value of every field that is not
    [None]; that ticket is the one the update is sent with. *)
Theorem update_ticket_skips_none_fields
  (ticket_id : value) (fields : dict) (r r1 : R) (ticket : obj) :
  sdk_tickets ticket_id r = (Ok ticket, r1) ->
  (forall key t, ZendeskClient.set_field key VNone t = t) /\
  (forall key, fields !! key = Some VNone ->
     ZendeskClient.apply_fields fields ticket !! key = ticket !! key) /\
  (forall key, fields !! key = None ->
     ZendeskClient.apply_fields fields ticket !! key = ticket !! key) /\
  (forall key v, fields !! key = Some v -> v <> VNone ->
     ZendeskClient.apply_fields fields ticket !! key = Some v) /\
  (exists x r2,
     sdk_tickets_update (ZendeskClient.apply_fields fields ticket) r1 = (x, r2) /\
     match x with
     | Raise e =>
         ZendeskClient.update_ticket ticket_id fields r =
           (Raise (Exn PlainException
              ("Failed to update ticket " +:+ py_str ticket_id +:+ ": " +:+ exn_str e)), r2)
     | Ok _ =>
         exists y r3,
           sdk_tickets ticket_id r2 = (y, r3) /\
           snd (ZendeskClient.update_ticket ticket_id fields r) = r3
     end).
Proof.
  intros Hload. split; [|split; [|split; [|split]]].
  - reflexivity.
  - intros key Hk. apply apply_fields_skips_none. now left.
  - intros key Hk. apply apply_fields_skips_none. now right.
  - intros key v Hk Hv. apply apply_fields_writes; [exact Hk|].
    destruct v; simpl; congruence.
  - destruct (sdk_tickets_update (ZendeskClient.apply_fields fields ticket) r1)
      as [x r2] eqn:Hupd.
    exists x, r2. split; [reflexivity|].
    unfold ZendeskClient.update_ticket, try_except, sbind.
    rewrite Hload, Hupd.
    destruct x as [audit|e].
    + destruct (sdk_tickets ticket_id r2) as [y r3] eqn:Hre.
      exists y, r3. split; [reflexivity|].
      destruct y as [refreshed|e]; [|reflexivity].
      unfold slift.
      match goal with
      | |- context [dict_display ?l] => destruct (dict_display l) as [d|e]
      end; reflexivity.
    + reflexivity.
Qed.

End UpdateTicket.

(** ** Dict displays *)

Lemma dict_display_dom (entries : list (string * result value)) (d : dict) :
  dict_display entries = Ok d -> dom d = list_to_set entries.*1.
Proof.
  revert d. induction entries as [|[k e] entries IH]; intros d E; simpl in E.
  - inversion E. now rewrite dom_empty_L.
  - destruct e as [v|x]; simpl in E; [|discriminate].
    destruct (dict_display entries) as [d'|x]; simpl in E; [|discriminate].
    inversion E; subst. simpl. rewrite dom_insert_L. now rewrite (IH d').
Qed.

Lemma dict_display_lookup (entries : list (string * result value)) (d : dict)
  (k : string) (v : value) :
  dict_display entries = Ok d -> NoDup entries.*1 ->
  (k, Ok v) ∈ entries -> d !! k = Some v.
Proof.
  revert d. induction entries as [|[k' e] entries IH]; intros d E Hnd Hin; simpl in E.
  - inversion Hin.
  - destruct e as [v'|x]; simpl in E; [|discriminate].
    destruct (dict_display entries) as [d'|x] eqn:E'; simpl in E; [|discriminate].
    inversion E; subst. simpl in Hnd. apply NoDup_cons in Hnd as [Hk' Hnd].
    assert (Hfresh : d' !! k' = None).
    { apply not_elem_of_dom. rewrite (dict_display_dom _ _ E').
      now rewrite elem_of_list_to_set. }
    apply elem_of_cons in Hin as [Heq|Hin].
    + inversion Heq; subst. rewrite Hfresh. simpl. apply lookup_insert_eq.
    + assert (k <> k').
      { intros ->. apply Hk'. apply list_elem_of_fmap. now exists (k', Ok v). }
      rewrite lookup_insert_ne by congruence. now apply IH.
Qed.

#[local] Arguments dict_display : simpl never.

(** ** [get_tickets]: the record of a page *)


Section GetTickets.
Context {rt : PyRuntime} {R : Type} {hd : Helpdesk R}.
Variable c : ZendeskClient.self.

Lemma ticket_entry_fields (ticket entry : value) :
  ZendeskClient.ticket_entry ticket = Ok entry ->
  exists e : dict, entry = VDict e /\ dom e = entry_fields.
Proof.
  unfold ZendeskClient.ticket_entry. intros E.
  destruct (dict_display _) as [d|x] eqn:Ed; simpl in E; [|discriminate].
  inversion E; subst. exists d. split; [reflexivity|].
  rewrite (dict_display_dom _ _ Ed). simpl. unfold entry_fields.
  set_solver.
Qed.

Lemma py_min_100_int (n : Z) :
  ZendeskClient.py_min_100 (VInt n) = Ok (VInt (Z.min n 100)).
Proof.
  unfold ZendeskClient.py_min_100. simpl.
  destruct (Z.ltb_spec 100 n); f_equal; f_equal; lia.
Qed.

Lemma next_page_of_int (data : dict) (page : Z) :
  ZendeskClient.next_page_of (VDict data) (VInt page) =
  Ok (if truthy (default VNone (data !! "next_page")) then VInt (page + 1) else VNone).
Proof.
  unfold ZendeskClient.next_page_of. simpl.
  now destruct (truthy (default VNone (data !! "next_page"))).
Qed.

Lemma previous_page_of_int (data : dict) (page : Z) :
  ZendeskClient.previous_page_of (VDict data) (VInt page) =
  Ok (if truthy (default VNone (data !! "previous_page")) && (1 <? page)%Z
      then VInt (page - 1) else VNone).
Proof.
  unfold ZendeskClient.previous_page_of. simpl.
  destruct (truthy (default VNone (data !! "previous_page"))); simpl; [|reflexivity].
  destruct (1 <? page)%Z; reflexivity.
Qed.

(** C5, as the code has it.  A call [get_tickets(page, per_page, sort_by,
    sort_order)] on integers and strings that succeeds has sent one request,
    whose [per_page] parameter is [min(per_page, 100)], and returns a record
    in which [per_page] is that minimum, [count] is the length of [tickets],
    [next_page] is [page + 1] when the [next_page] field of the response is
    truthy and null otherwise, [previous_page] is [page - 1] when the
    [previous_page] field of the response is truthy and [page > 1] and null
    otherwise, and every entry of [tickets] has exactly the nine fields. *)
Theorem get_tickets_record
  (page per_page : Z) (sort_by sort_order : string) (r r' : R) (record : value) :
  ZendeskClient.get_tickets c (VInt page) (VInt per_page) (VStr sort_by) (VStr sort_order) r
    = (Ok record, r') ->
  exists (req : http_request) (data d : dict) (ticket_list : list value),
    req_url req = ZendeskClient.base_url c +:+ "/tickets.json?" +:+
      urlencode [ ("page", PyStr.str_of_Z page);
                  ("per_page", PyStr.str_of_Z (Z.min per_page 100));
                  ("sort_by", sort_by);
                  ("sort_order", sort_order) ] /\
    http_get_json req r = (Ok (VDict data), r') /\
    record = VDict d /\
    d !! "per_page" = Some (VInt (Z.min per_page 100)) /\
    d !! "tickets" = Some (VList ticket_list) /\
    d !! "count" = Some (VInt (Z.of_nat (List.length ticket_list))) /\
    d !! "next_page" =
      Some (if truthy (default VNone (data !! "next_page"))
            then VInt (page + 1) else VNone) /\
    d !! "previous_page" =
      Some (if truthy (default VNone (data !! "previous_page")) && (1 <? page)%Z
            then VInt (page - 1) else VNone) /\
    Forall (fun t => exists e : dict, t = VDict e /\ dom e = entry_fields) ticket_list.
Proof.
  intros E. unfold ZendeskClient.get_tickets, try_except, sbind, slift in E.
  rewrite py_min_100_int in E.
  destruct (http_get_json _ r) as [[data|e] r1] eqn:Hreq.
  2:{ destruct (exn_type e), (exn_http e); discriminate. }
  destruct (ZendeskClient.tickets_page data _ _ _ _) as [rec|e] eqn:Hpage.
  2:{ destruct (exn_type e), (exn_http e); discriminate. }
  inversion E; subst rec r1; clear E.
  unfold ZendeskClient.tickets_page in Hpage.
  destruct data as [| | | | |data]; try discriminate.
  simpl in Hpage.
  destruct (py_iter (default (VList []) (data !! "tickets"))) as [items|e];
    simpl in Hpage; [|discriminate].
  destruct (rmap ZendeskClient.ticket_entry items) as [ticket_list|e] eqn:Hentries;
    simpl in Hpage; [|discriminate].
  fold (ZendeskClient.has_more_of (VDict data)) in Hpage.
  rewrite next_page_of_int, previous_page_of_int in Hpage.
  destruct (dict_display _) as [d|e] eqn:Hd in Hpage; simpl in Hpage; [|discriminate].
  inversion Hpage; subst record; clear Hpage.
  assert (Hnd : NoDup
    [ "tickets"; "page"; "per_page"; "count"; "sort_by"; "sort_order"; "has_more";
      "next_page"; "previous_page" ]).
  { apply NoDup_ListNoDup. repeat constructor; simpl; intuition discriminate. }
  exists (ZendeskClient.tickets_request c (VInt page) (VInt (Z.min per_page 100))
            (VStr sort_by) (VStr sort_order)), data, d, ticket_list.
  split; [reflexivity|].
  split; [exact Hreq|].
  split; [reflexivity|].
  repeat split;
    try (apply (dict_display_lookup _ _ _ _ Hd Hnd); set_solver).
  eapply rmap_Forall; [|exact Hentries].
  intros t y. apply ticket_entry_fields.
Qed.

End GetTickets.


(** ** Prompts *)

Lemma rstrip_app (a b : string) :
  PyStr.rstrip b <> EmptyString -> PyStr.rstrip (a +:+ b) = a +:+ PyStr.rstrip b.
Proof.
  intros Hb. induction a as [|c a IH]; [reflexivity|].
  change (String c a +:+ b) with (String c (a +:+ b)).
  cbn [PyStr.rstrip]. rewrite IH.
  destruct a as [|c' a]; simpl.
  - destruct (PyStr.rstrip b); [contradiction|reflexivity].
  - reflexivity.
Qed.

Lemma lstrip_app (a b : string) :
  PyStr.lstrip a <> EmptyString -> PyStr.lstrip (a +:+ b) = PyStr.lstrip a +:+ b.
Proof.
  induction a as [|c a IH]; intros Ha; [contradiction|].
  change (String c a +:+ b) with (String c (a +:+ b)).
  cbn [PyStr.lstrip] in *. destruct (PyStr.is_space c); [now apply IH|reflexivity].
Qed.

Lemma append_nonempty (a b : string) : b <> EmptyString -> a +:+ b <> EmptyString.
Proof. destruct a; [trivial|discriminate]. Qed.

(** Stripping a text whose first and last parts are not blank only trims
    those two parts. *)
Lemma strip_sandwich (pre s post : string) :
  PyStr.lstrip pre <> EmptyString -> PyStr.rstrip post <> EmptyString ->
  PyStr.strip (pre +:+ s +:+ post) = PyStr.lstrip pre +:+ s +:+ PyStr.rstrip post.
Proof.
  intros Hpre Hpost. unfold PyStr.strip.
  rewrite lstrip_app by exact Hpre.
  rewrite rstrip_app.
  - now rewrite rstrip_app.
  - rewrite rstrip_app by exact Hpost. now apply append_nonempty.
Qed.

Lemma format_analysis (s : string) :
  PyStr.format TICKET_ANALYSIS_TEMPLATE [("ticket_id", s)] =
  Ok (String "010" "You are a helpful Zendesk support analyst. You've been asked to analyze ticket #"
        +:+ s +:+ ".

Please fetch the ticket info and comments to analyze it and provide:
1. A summary of the issue
2. The current status and timeline
3. Key points of interaction

Remember to be professional and focus on actionable insights.
").
Proof. reflexivity. Qed.

Lemma format_draft (s : string) :
  PyStr.format COMMENT_DRAFT_TEMPLATE [("ticket_id", s)] =
  Ok (String "010" "You are a helpful Zendesk support agent. You need to draft a response to ticket #"
        +:+ s +:+ ".

Please fetch the ticket info, comments and knowledge base to draft a professional and helpful response that:
1. Acknowledges the customer's concern
2. Addresses the specific issues raised
3. Provides clear next steps or ask for specific details need to proceed
4. Maintains a friendly and professional tone
5. Ask for confirmation before commenting on the ticket

The response should be formatted well and ready to be posted as a comment.
").
Proof. reflexivity. Qed.

Section Prompts.
Context {rt : PyRuntime} {R : Type} {hd : Helpdesk R}.

Lemma has_ticket_id (args : gmap string string) (raw : string) :
  args !! "ticket_id" = Some raw -> lacks_ticket_id (Some args) = false.
Proof.
  intros Hraw. unfold lacks_ticket_id.
  rewrite bool_decide_eq_false_2.
  - rewrite bool_decide_eq_true_2; [reflexivity|]. rewrite Hraw. eauto.
  - intros ->. rewrite lookup_empty in Hraw. discriminate.
Qed.

Lemma no_ticket_id (arguments : option (gmap string string)) :
  arguments = None \/ (exists args, arguments = Some args /\ args !! "ticket_id" = None) ->
  lacks_ticket_id arguments = true.
Proof.
  intros [->|(args & -> & Hnone)]; [reflexivity|].
  unfold lacks_ticket_id. rewrite (bool_decide_eq_false_2 (is_Some _)).
  - now rewrite orb_true_r.
  - rewrite Hnone. intros [x Hx]. discriminate.
Qed.

(** C10. When [arguments] holds a [ticket_id] that [int()] rejects, the
    handler raises what [int()] raised and leaves the world as it was: the
    [try] block is not entered, so its [except] clause neither logs nor
    re-raises anything. *)
Theorem handle_get_prompt_bad_ticket_id
  (name : string) (args : gmap string string) (raw : string) (e : exn) (w : world R) :
  args !! "ticket_id" = Some raw ->
  py_int (VStr raw) = Raise e ->
  handle_get_prompt name (Some args) w = (Raise e, w).
Proof.
  intros Hraw Hint. unfold handle_get_prompt.
  rewrite (has_ticket_id _ _ Hraw). cbv zeta.
  change (default ∅ (Some args)) with args. rewrite Hraw.
  change (default EmptyString (Some raw)) with raw.
  unfold sbind, slift. now rewrite Hint.
Qed.

(** C8. [handle_get_prompt] raises a [ValueError] when [arguments] is absent
    or has no [ticket_id]; it raises for every prompt name other than the
    two of the catalog; and for those two, with a [ticket_id] that [int()]
    accepts, it returns one message, of role [user], whose text is the
    template of the prompt with the ticket id in the place of its
    replacement field, stripped: only the blanks before the first and after
    the last part of the template are removed. *)
Theorem handle_get_prompt_spec
  (name : string) (arguments : option (gmap string string)) (w : world R) :
  ((arguments = None \/ exists args, arguments = Some args /\ args !! "ticket_id" = None) ->
   exists msg, handle_get_prompt name arguments w = (Raise (Exn ValueError msg), w)) /\
  (name <> "analyze-ticket" -> name <> "draft-ticket-response" ->
   exists e, fst (handle_get_prompt name arguments w) = Raise e) /\
  (forall args raw tid template,
     arguments = Some args ->
     args !! "ticket_id" = Some raw ->
     py_int (VStr raw) = Ok tid ->
     (name, template) ∈ [ ("analyze-ticket", TICKET_ANALYSIS_TEMPLATE);
                          ("draft-ticket-response", COMMENT_DRAFT_TEMPLATE) ] ->
     exists description pre post,
       template = pre +:+ "{ticket_id}" +:+ post /\
       handle_get_prompt name arguments w =
         (Ok (MkGetPromptResult description
                [ MkPromptMessage "user"
                    (text_content (PyStr.strip (pre +:+ PyStr.str_of_Z tid +:+ post))) ]),
          w) /\
       PyStr.strip (pre +:+ PyStr.str_of_Z tid +:+ post) =
         PyStr.lstrip pre +:+ PyStr.str_of_Z tid +:+ PyStr.rstrip post).
Proof.
  split; [|split].
  - intros Hlacks. unfold handle_get_prompt. rewrite (no_ticket_id _ Hlacks).
    eexists. reflexivity.
  - intros Ha Hd. unfold handle_get_prompt.
    destruct (lacks_ticket_id arguments); [eexists; reflexivity|].
    cbv zeta. unfold sbind at 1, slift at 1.
    destruct (py_int _) as [tid|e]; [|eexists; reflexivity].
    apply String.eqb_neq in Ha, Hd. rewrite Ha, Hd.
    eexists. reflexivity.
  - intros args raw tid template -> Hraw Hint Hin.
    unfold handle_get_prompt. rewrite (has_ticket_id _ _ Hraw). cbv zeta.
    change (default ∅ (Some args)) with args. rewrite Hraw.
    change (default EmptyString (Some raw)) with raw.
    unfold sbind at 1, slift at 1. rewrite Hint.
    apply elem_of_cons in Hin as [Hin|Hin].
    + inversion Hin; subst name template.
      rewrite String.eqb_refl.
      unfold try_except, sbind, slift, sret. rewrite format_analysis.
      eexists _, _, _. split; [|split].
      2: reflexivity.
      * reflexivity.
      * apply strip_sandwich; discriminate.
    + apply list_elem_of_singleton in Hin.
      inversion Hin; subst name template.
      change (String.eqb "draft-ticket-response" "analyze-ticket") with false.
      rewrite String.eqb_refl.
      unfold try_except, sbind, slift, sret. rewrite format_draft.
      eexists _, _, _. split; [|split].
      2: reflexivity.
      * reflexivity.
      * apply strip_sandwich; discriminate.
Qed.

End Prompts.

(** ** Tools *)

Section Tools.
Context {rt : PyRuntime} {R : Type} {hd : Helpdesk R}.
Variable cfg : ZendeskClient.self.

(** *** How a run of the dispatcher relates to the adapter *)



Lemma dispatched_raise {A} (good : A -> Prop) (e : exn) (w : world R) :
  dispatched cfg good w (sraise e w).
Proof. apply Rejected. Qed.

Lemma dispatched_lift {A B} (good : B -> Prop) (x : result A) (k : A -> M R B) (w : world R) :
  (forall a, x = Ok a -> dispatched cfg good w (k a w)) ->
  dispatched cfg good w (sbind (slift x) k w).
Proof.
  intros Hk. unfold sbind, slift. destruct x as [a|e]; [now apply Hk|apply Rejected].
Qed.

Lemma dispatched_require {B} (good : B -> Prop) (arguments : option dict)
  (k : dict -> M R B) (w : world R) :
  (forall args, arguments = Some args -> args <> ∅ -> dispatched cfg good w (k args w)) ->
  dispatched cfg good w (sbind (require_arguments arguments) k w).
Proof.
  intros Hk. unfold sbind, require_arguments.
  destruct (no_arguments arguments) eqn:Hno; [apply Rejected|].
  destruct arguments as [args|]; [|discriminate]. simpl in Hno.
  apply Hk; [reflexivity|]. now apply bool_decide_eq_false in Hno.
Qed.


Lemma dispatched_delegate {B} (good : B -> Prop) (call : adapter_call)
  (k : value -> M R B) (w : world R) :
  computes (R := R) good k -> dispatched cfg good w (sbind (delegate cfg call) k w).
Proof.
  intros Hk. unfold sbind, delegate.
  destruct (run_call cfg call (w_remote w)) as [[v|e] r'] eqn:Hrun.
  - destruct (Hk v (World r' (w_kb_cache w) (w_calls w ++ [call]) (w_log w)))
      as (out & -> & Hout).
    eapply Delegated; [exact Hrun|exact Hout].
  - eapply Delegated; [exact Hrun|reflexivity].
Qed.

Lemma computes_ret {A} (f : A -> list TextContent) :
  (forall a, one_text (f a)) -> computes (R := R) one_text (fun a => sret (f a)).
Proof. intros Hf a w. exists (Ok (f a)). split; [reflexivity|apply Hf]. Qed.

Lemma computes_lift {A B C} (good : C -> Prop) (x : A -> result B) (k : A -> B -> M R C) :
  (forall a, computes (R := R) good (k a)) ->
  computes (R := R) good (fun a => sbind (slift (x a)) (k a)).
Proof.
  intros Hk a w. unfold sbind, slift. destruct (x a) as [b|e].
  - apply Hk.
  - exists (Raise e). split; [reflexivity|exact I].
Qed.

Ltac one_text := intros; eexists; reflexivity.

Ltac dispatch :=
  repeat first
    [ apply dispatched_raise
    | apply dispatched_require; intros ? _ _
    | apply dispatched_lift; intros ? _
    | apply dispatched_delegate
    | apply computes_ret; one_text
    | apply computes_lift; intros ].

Lemma call_tool_body_dispatched (name : string) (arguments : option dict) (w : world R) :
  dispatched cfg one_text w (call_tool_body cfg name arguments w).
Proof.
  unfold call_tool_body.
  repeat (match goal with
          | |- context [String.eqb name ?s] => destruct (String.eqb name s)
          end; [try solve [dispatch]|]).
  - (* update_ticket *)
    apply dispatched_require; intros args _ _.
    cbv zeta. destruct (is_none (dict_get args "ticket_id")); dispatch.
  - dispatch.
Qed.

(** C1. [handle_call_tool] never propagates an exception: it always returns
    one text content.  When the adapter call it delegated to raised [e], and
    more generally whenever its [try] block raised [e], the text is
    [Error: ] followed by [str(e)].  It returns what the [try] block
    returned only when a call was delegated and that call returned. *)
Theorem handle_call_tool_reports_errors
  (name : string) (arguments : option dict) (w : world R) :
  (exists text, fst (handle_call_tool cfg name arguments w) = Ok [ text_content text ]) /\
  (forall call e r',
     w_calls (snd (handle_call_tool cfg name arguments w)) = w_calls w ++ [call] ->
     run_call cfg call (w_remote w) = (Raise e, r') ->
     fst (handle_call_tool cfg name arguments w) =
       Ok [ text_content ("Error: " +:+ exn_str e) ]) /\
  (forall e,
     fst (call_tool_body cfg name arguments w) = Raise e ->
     fst (handle_call_tool cfg name arguments w) =
       Ok [ text_content ("Error: " +:+ exn_str e) ]) /\
  (forall content,
     fst (call_tool_body cfg name arguments w) = Ok content ->
     fst (handle_call_tool cfg name arguments w) = Ok content /\
     exists call v r',
       w_calls (snd (handle_call_tool cfg name arguments w)) = w_calls w ++ [call] /\
       run_call cfg call (w_remote w) = (Ok v, r')).
Proof.
  unfold handle_call_tool, try_except.
  destruct (call_tool_body_dispatched name arguments w)
    as [e0 | call0 x r0 out Hcall Hx].
  - (* raised before any call *)
    simpl. split; [eexists; reflexivity|].
    split; [|split].
    + intros call e r' Hcalls _. exfalso.
      apply (f_equal (@List.length _)) in Hcalls. rewrite length_app in Hcalls.
      simpl in Hcalls. lia.
    + intros e He. inversion He. reflexivity.
    + intros content Hc. discriminate.
  - (* one call was made *)
    destruct x as [v|e1].
    + destruct out as [content|e2]; simpl.
      * destruct Hx as [text ->].
        split; [eexists; reflexivity|].
        split; [|split].
        -- intros call e r' Hcalls Hraise.
           apply app_inv_head in Hcalls. inversion Hcalls; subst call0.
           rewrite Hraise in Hcall. discriminate.
        -- intros e He. discriminate.
        -- intros content Hc. inversion Hc; subst content.
           split; [reflexivity|]. exists call0, v, r0. split; [reflexivity|exact Hcall].
      * split; [eexists; reflexivity|].
        split; [|split].
        -- intros call e r' Hcalls Hraise.
           apply app_inv_head in Hcalls. inversion Hcalls; subst call0.
           rewrite Hraise in Hcall. discriminate.
        -- intros e He. inversion He. reflexivity.
        -- intros content Hc. discriminate.
    + subst out. simpl.
      split; [eexists; reflexivity|].
      split; [|split].
      * intros call e r' Hcalls Hraise.
        apply app_inv_head in Hcalls. inversion Hcalls; subst call0.
        rewrite Hraise in Hcall. inversion Hcall. reflexivity.
      * intros e He. inversion He. reflexivity.
      * intros content Hc. discriminate.
Qed.

(** *** Statelessness *)


Lemma stateless_ret {A} (a : A) : stateless (R := R) (sret a).
Proof. intros w1 w2 Hr. simpl. auto. Qed.

Lemma stateless_raise {A} (e : exn) : stateless (R := R) (sraise (A := A) e).
Proof. intros w1 w2 Hr. simpl. auto. Qed.

Lemma stateless_lift {A} (x : result A) : stateless (R := R) (slift x).
Proof. intros w1 w2 Hr. simpl. auto. Qed.

Lemma stateless_delegate (call : adapter_call) : stateless (R := R) (delegate cfg call).
Proof.
  intros w1 w2 Hr. unfold delegate. rewrite Hr.
  destruct (run_call cfg call (w_remote w2)) as [x r']. simpl. auto.
Qed.

Lemma stateless_bind {A B} (m : M R A) (k : A -> M R B) :
  stateless m -> (forall a, stateless (k a)) -> stateless (R := R) (sbind m k).
Proof.
  intros Hm Hk w1 w2 Hr. unfold sbind.
  destruct (Hm w1 w2 Hr) as (Hx & Hr' & Hc & Hl).
  destruct (m w1) as [x1 w1'], (m w2) as [x2 w2']. simpl in *. subst x2.
  destruct x1 as [a|e]; simpl; [|auto].
  destruct (Hk a w1' w2' Hr') as (Hy & Hr'' & Hc' & Hl').
  repeat split; congruence.
Qed.

Lemma stateless_try {A} (m : M R A) (h : exn -> M R A) :
  stateless m -> (forall e, stateless (h e)) -> stateless (R := R) (try_except m h).
Proof.
  intros Hm Hh w1 w2 Hr. unfold try_except.
  destruct (Hm w1 w2 Hr) as (Hx & Hr' & Hc & Hl).
  destruct (m w1) as [x1 w1'], (m w2) as [x2 w2']. simpl in *. subst x2.
  destruct x1 as [a|e]; simpl; [auto|].
  destruct (Hh e w1' w2' Hr') as (Hy & Hr'' & Hc' & Hl').
  repeat split; congruence.
Qed.

Lemma stateless_require (arguments : option dict) : stateless (R := R) (require_arguments arguments).
Proof.
  unfold require_arguments.
  destruct (no_arguments arguments); [apply stateless_raise|apply stateless_ret].
Qed.

Ltac stateless :=
  repeat first
    [ apply stateless_ret
    | apply stateless_raise
    | apply stateless_lift
    | apply stateless_delegate
    | apply stateless_require
    | apply stateless_bind; [|intros ?]
    | match goal with
      | |- stateless (if ?b then _ else _) => destruct b
      end
    | progress cbv zeta ].

Lemma call_tool_body_stateless (name : string) (arguments : option dict) :
  stateless (call_tool_body cfg name arguments).
Proof. unfold call_tool_body. stateless. Qed.

(** C4. A tool invocation does not touch the in-process state of the
    server.  Two invocations of the same tool with the same arguments that
    meet the helpdesk in the same state return the same content and leave
    the helpdesk in the same state, whatever the cache behind
    [get_cached_kb] holds; and the cache after the invocation is the cache
    before it (so is the error log). *)
Theorem handle_call_tool_stateless
  (name : string) (arguments : option dict) (w1 w2 : world R) :
  w_remote w1 = w_remote w2 ->
  fst (handle_call_tool cfg name arguments w1) = fst (handle_call_tool cfg name arguments w2) /\
  w_remote (snd (handle_call_tool cfg name arguments w1)) =
    w_remote (snd (handle_call_tool cfg name arguments w2)) /\
  w_kb_cache (snd (handle_call_tool cfg name arguments w1)) = w_kb_cache w1 /\
  w_kb_cache (snd (handle_call_tool cfg name arguments w2)) = w_kb_cache w2 /\
  w_log (snd (handle_call_tool cfg name arguments w1)) = w_log w1.
Proof.
  intros Hr.
  assert (Hs : stateless (R := R) (handle_call_tool cfg name arguments)).
  { unfold handle_call_tool. apply stateless_try.
    - apply call_tool_body_stateless.
    - intros e. apply stateless_ret. }
  destruct (Hs w1 w2 Hr) as (Hx & Hr' & Hc & Hl).
  destruct (Hs w2 w1 (eq_sym Hr)) as (_ & _ & Hc2 & _).
  auto.
Qed.

(** *** Required arguments *)


(** For every tool of the catalog other than [create_ticket], a call that
    lacks an argument the schema of the tool requires raises in the [try]
    block before any adapter call, and is answered with an error text; the
    world is left as it was. *)
Theorem required_arguments_checked
  (name : string) (required : list string) (key : string)
  (arguments : option dict) (w : world R) :
  (name, required) ∈ tool_catalog ->
  name <> "create_ticket" ->
  key ∈ required ->
  absent key arguments ->
  exists e,
    call_tool_body cfg name arguments w = (Raise e, w) /\
    handle_call_tool cfg name arguments w =
      (Ok [ text_content ("Error: " +:+ exn_str e) ], w).
Proof.
  intros Htool Hname Hkey Habsent.
  assert (Hbody : exists e, call_tool_body cfg name arguments w = (Raise e, w)).
  { unfold tool_catalog in Htool.
    repeat (apply elem_of_cons in Htool as [Htool|Htool];
            [inversion Htool; subst name required; clear Htool|]);
      try (now apply elem_of_nil in Htool);
      try congruence;
      repeat (apply elem_of_cons in Hkey as [->|Hkey]);
      try (now apply elem_of_nil in Hkey);
      unfold call_tool_body; simpl (String.eqb _ _); cbv iota;
      (destruct Habsent as [->|(args & -> & Hnone)];
       [ eexists; reflexivity |]);
      unfold sbind, require_arguments;
      (destruct (no_arguments (Some args)); [eexists; reflexivity|]);
      change (default ∅ (Some args)) with args;
      unfold slift, subscript, dict_get, sret; rewrite ?Hnone;
      repeat match goal with
             | |- context [match args !! ?k with _ => _ end] => destruct (args !! k)
             end;
      eexists; reflexivity. }
  destruct Hbody as [e Hbody]. exists e. split; [exact Hbody|].
  unfold handle_call_tool. now rewrite (try_except_raise _ _ _ _ _ Hbody).
Qed.

End Tools.

(** ** Resources: which URI is served *)



Lemma startswith_split (p s : string) :
  PyStr.startswith p s = true -> exists t, s = p +:+ t.
Proof.
  revert s. induction p as [|a p IH]; intros s E.
  - now exists s.
  - destruct s as [|b s]; simpl in E; [discriminate|].
    destruct (Ascii.eqb_spec a b) as [->|]; [|discriminate].
    destruct (IH s E) as [t ->]. now exists t.
Qed.

(** Where nothing ends an authority there is no occurrence of the prefix,
    and [replace] copies the text. *)
Lemma replace_without_delimiter (s : string) :
  has_delimiter s = false ->
  PyStr.replace_from "zendesk://" EmptyString 0 s = s.
Proof.
  induction s as [|c s IH]; intros Hs; [reflexivity|].
  cbn [PyStr.replace_from].
  destruct (PyStr.startswith "zendesk://" (String c s)) eqn:Hpre.
  - apply startswith_split in Hpre as [t Ht]. rewrite Ht in Hs. discriminate.
  - simpl in Hs. apply orb_false_elim in Hs as [_ Hs]. now rewrite IH.
Qed.

(** In a text whose authority does not end with a colon, the character that
    ends the authority survives [replace]. *)
Lemma replace_keeps_delimiter (s : string) (prev : bool) :
  authority_ends_colon prev s = false ->
  has_delimiter s = true ->
  has_delimiter (PyStr.replace_from "zendesk://" EmptyString 0 s) = true.
Proof.
  revert prev. induction s as [|c s IH]; intros prev Hauth Hs; [discriminate|].
  cbn [PyStr.replace_from].
  destruct (PyStr.startswith "zendesk://" (String c s)) eqn:Hpre.
  - apply startswith_split in Hpre as [t Ht]. rewrite Ht in Hauth. discriminate.
  - simpl in *. destruct (ends_authority c); [reflexivity|].
    simpl in *. now apply (IH (Ascii.eqb c ":")).
Qed.

Lemma replace_after_prefix (rest : string) :
  PyStr.replace "zendesk://" EmptyString ("zendesk://" +:+ rest) =
  PyStr.replace "zendesk://" EmptyString rest.
Proof. reflexivity. Qed.

(** For a serialized remainder, removing every occurrence of the prefix
    yields the name of the knowledge base only from that very name. *)
Lemma replace_knowledge_base (rest : string) :
  authority_ends_colon false rest = false ->
  PyStr.replace "zendesk://" EmptyString rest = "knowledge-base" ->
  rest = "knowledge-base".
Proof.
  intros Hauth Hpath. unfold PyStr.replace in Hpath.
  destruct (has_delimiter rest) eqn:Hdel.
  - pose proof (replace_keeps_delimiter rest false Hauth Hdel) as Hkeep.
    rewrite Hpath in Hkeep. discriminate.
  - now rewrite (replace_without_delimiter rest Hdel) in Hpath.
Qed.

Lemma after_prefix_split (p s t : string) :
  after_prefix p s = Some t -> s = p +:+ t.
Proof.
  revert s. induction p as [|a p IH]; intros s E; simpl in E.
  - now inversion E.
  - destruct s as [|b s]; [discriminate|].
    destruct (Ascii.eqb_spec a b) as [->|]; [|discriminate].
    simpl. now rewrite (IH s E).
Qed.

Section ResourceUri.
Context {rt : PyRuntime} {R : Type} {hd : Helpdesk R}.
Variable cfg : ZendeskClient.self.


Lemma read_resource_bad_scheme (uri : AnyUrl) (now stored_at : Q) (w : world R) :
  url_scheme uri <> "zendesk" ->
  exists msg, handle_read_resource cfg uri now stored_at w =
                (Raise (Exn ValueError msg), logged w msg).
Proof.
  intros Hs. unfold handle_read_resource.
  apply String.eqb_neq in Hs. rewrite Hs. simpl negb. cbv iota.
  eexists. reflexivity.
Qed.

Lemma read_resource_bad_path (uri : AnyUrl) (now stored_at : Q) (w : world R) :
  url_scheme uri = "zendesk" ->
  PyStr.replace "zendesk://" EmptyString (url_str uri) <> "knowledge-base" ->
  exists msg, handle_read_resource cfg uri now stored_at w =
                (Raise (Exn ValueError msg), logged w msg).
Proof.
  intros Hs Hp. unfold handle_read_resource.
  rewrite Hs. rewrite String.eqb_refl. simpl negb. cbv iota zeta.
  apply String.eqb_neq in Hp. rewrite Hp. simpl negb. cbv iota.
  eexists. reflexivity.
Qed.

(** C6. For a URI in serialized form, [handle_read_resource] raises a
    [ValueError], after logging it and without touching the cache or the
    adapter, when the scheme is not [zendesk] and when what follows the
    prefix [zendesk://] is not exactly [knowledge-base]; otherwise the URI
    is the one resource [handle_list_resources] advertises, and only then
    does the handler go on to read the knowledge base. *)
Theorem handle_read_resource_uri (uri : AnyUrl) (now stored_at : Q) (w : world R) :
  url_serialized uri = true ->
  (url_scheme uri <> "zendesk" ->
   exists msg, handle_read_resource cfg uri now stored_at w =
                 (Raise (Exn ValueError msg), logged w msg)) /\
  (after_prefix "zendesk://" (url_str uri) <> Some "knowledge-base" ->
   exists msg, handle_read_resource cfg uri now stored_at w =
                 (Raise (Exn ValueError msg), logged w msg)) /\
  (url_scheme uri = "zendesk" ->
   after_prefix "zendesk://" (url_str uri) = Some "knowledge-base" ->
   res_uri <$> handle_list_resources = [uri] /\
   handle_read_resource cfg uri now stored_at w = read_knowledge_base cfg now stored_at w).
Proof.
  intros Hser. split; [|split].
  - apply read_resource_bad_scheme.
  - intros Hrem.
    destruct (String.eqb_spec (url_scheme uri) "zendesk") as [Hs|Hs];
      [|now apply read_resource_bad_scheme].
    apply read_resource_bad_path; [exact Hs|].
    destruct uri as [scheme tail]. simpl in Hs. subst scheme.
    unfold url_str in *. simpl url_scheme in *. simpl url_tail in *.
    destruct (PyStr.startswith "//" tail) eqn:Hslashes.
    + apply startswith_split in Hslashes as [rest ->].
      unfold url_serialized in Hser. simpl in Hser.
      apply negb_true_iff in Hser.
      change ("zendesk" +:+ ":" +:+ "//" +:+ rest) with ("zendesk://" +:+ rest) in *.
      rewrite replace_after_prefix. intros Hpath.
      apply (replace_knowledge_base rest Hser) in Hpath. subst rest.
      apply Hrem. reflexivity.
    + unfold PyStr.replace.
      change ("zendesk" +:+ ":" +:+ tail) with (String "z" ("endesk:" +:+ tail)).
      cbn [PyStr.replace_from].
      change (PyStr.startswith "zendesk://" (String "z" ("endesk:" +:+ tail)))
        with (PyStr.startswith "//" tail).
      rewrite Hslashes. discriminate.
  - intros Hs Hrem. destruct uri as [scheme tail]. simpl in Hs. subst scheme.
    apply after_prefix_split in Hrem. unfold url_str in Hrem. simpl in Hrem.
    simplify_eq/=. change (tail = "//knowledge-base") in Hrem. subst tail.
    split; reflexivity.
Qed.

End ResourceUri.

(** ** Resources: the knowledge-base document *)

Lemma rmap_Forall2 {A B} (f : A -> result B) (l : list A) (l' : list B) :
  rmap f l = Ok l' -> Forall2 (fun x y => f x = Ok y) l l'.
Proof.
  revert l'. induction l as [|x l IH]; intros l' E; simpl in E.
  - inversion E. constructor.
  - destruct (f x) as [y|e] eqn:Ex; simpl in E; [|discriminate].
    destruct (rmap f l) as [ys|e]; simpl in E; [|discriminate].
    inversion E; subst. constructor; auto.
Qed.


Section KnowledgeBase.
Context {rt : PyRuntime} {R : Type} {hd : Helpdesk R}.
Variable cfg : ZendeskClient.self.

Lemma section_record_shape (s : section) (articles : list article) :
  has_article_list (ZendeskClient.section_record s articles).
Proof.
  unfold ZendeskClient.section_record.
  exists {[ "section_id" := section_id s;
            "description" := section_description s;
            "articles" := VList (ZendeskClient.article_record <$> articles) ]},
         (ZendeskClient.article_record <$> articles).
  split; [reflexivity|].
  rewrite lookup_insert_ne by discriminate.
  rewrite lookup_insert_ne by discriminate.
  apply lookup_singleton_eq.
Qed.

Lemma collect_sections_shape (sections : list section) (kb0 kb : dict) (r r' : R) :
  map_Forall (fun _ s => has_article_list s) kb0 ->
  ZendeskClient.collect_sections sections kb0 r = (Ok kb, r') ->
  map_Forall (fun _ s => has_article_list s) kb.
Proof.
  revert kb0 r. induction sections as [|s rest IH]; intros kb0 r Hkb0 E; simpl in E.
  - inversion E; subst. exact Hkb0.
  - unfold sbind in E.
    destruct (sdk_section_articles (section_id s) r) as [[articles|e] r1]; [|discriminate].
    apply (IH _ _ (map_Forall_insert_2 _ _ _ _ (section_record_shape s articles) Hkb0) E).
Qed.

Lemma get_all_articles_shape (r r' : R) (kb_data : value) :
  ZendeskClient.get_all_articles r = (Ok kb_data, r') ->
  exists kb : dict,
    kb_data = VDict kb /\ map_Forall (fun _ s => has_article_list s) kb.
Proof.
  unfold ZendeskClient.get_all_articles, try_except, sbind. intros E.
  destruct (sdk_sections r) as [[sections|e] r1]; [|discriminate].
  destruct (ZendeskClient.collect_sections sections ∅ r1) as [[kb|e] r2] eqn:Hc;
    [|discriminate].
  inversion E; subst. exists kb. split; [reflexivity|].
  eapply collect_sections_shape; [|exact Hc]. apply map_Forall_empty.
Qed.

Lemma articles_count_ok (section : value) (n : nat) :
  articles_count section = Ok n ->
  exists (rec : dict) (articles : value),
    section = VDict rec /\ rec !! "articles" = Some articles /\ py_len articles = Ok n.
Proof.
  unfold articles_count, py_subscript, subscript. intros E.
  destruct section as [| | | | |rec]; try discriminate.
  destruct (rec !! "articles") as [articles|] eqn:Ha; [|discriminate].
  exists rec, articles. auto.
Qed.

Lemma kb_document_ok (kb_data doc : value) :
  kb_document kb_data = Ok doc ->
  exists (kb : dict) (counts : list nat),
    kb_data = VDict kb /\
    Forall2 (fun section n => articles_count section = Ok n) (map_to_list kb).*2 counts /\
    doc = VDict
      {[ "knowledge_base" := VDict kb;
         "metadata" := VDict
           {[ "sections" := VInt (Z.of_nat (size kb));
              "total_articles" := VInt (Z.of_nat (sum_list counts)) ]} ]}.
Proof.
  unfold kb_document. intros E.
  destruct kb_data as [| | | | |kb]; try discriminate.
  simpl in E.
  destruct (rmap articles_count (map_to_list kb).*2) as [counts|e] eqn:Hc;
    simpl in E; [|discriminate].
  inversion E; subst. exists kb, counts.
  split; [reflexivity|]. split; [|reflexivity]. now apply rmap_Forall2.
Qed.

Lemma read_resource_ok (uri : AnyUrl) (now stored_at : Q) (w w' : world R) (s : string) :
  handle_read_resource cfg uri now stored_at w = (Ok s, w') ->
  exists kb_data doc,
    get_cached_kb cfg now stored_at w = (Ok kb_data, w') /\
    kb_document kb_data = Ok doc /\
    s = json_dumps (Some 2%nat) doc.
Proof.
  unfold handle_read_resource. intros E.
  destruct (negb (String.eqb (url_scheme uri) "zendesk")); [discriminate|].
  cbv zeta in E.
  destruct (negb (String.eqb _ "knowledge-base")); [discriminate|].
  unfold read_knowledge_base, try_except, sbind, slift, sret in E.
  destruct (get_cached_kb cfg now stored_at w) as [[kb_data|e] w1]; [|discriminate].
  destruct (kb_document kb_data) as [doc|e] eqn:Hdoc; [|discriminate].
  inversion E; subst. exists kb_data, doc. repeat split. exact Hdoc.
Qed.

(** C7. A read of the resource that succeeds returns the serialization of a
    document whose [knowledge_base] is a mapping of sections and whose
    [metadata] agrees with it: [sections] is the number of entries of the
    mapping and [total_articles] is the sum, over the sections of the
    mapping, of the length of the [articles] of the section.  And every
    section record in what [get_all_articles] returns has a list under
    [articles]. *)
Theorem knowledge_base_metadata_consistent :
  (forall (uri : AnyUrl) (now stored_at : Q) (w w' : world R) (s : string),
     handle_read_resource cfg uri now stored_at w = (Ok s, w') ->
     exists (kb : dict) (counts : list nat),
       s = json_dumps (Some 2%nat)
             (VDict
                {[ "knowledge_base" := VDict kb;
                   "metadata" := VDict
                     {[ "sections" := VInt (Z.of_nat (size kb));
                        "total_articles" := VInt (Z.of_nat (sum_list counts)) ]} ]}) /\
       Forall2
         (fun section n =>
            exists (rec : dict) (articles : value),
              section = VDict rec /\ rec !! "articles" = Some articles /\
              py_len articles = Ok n)
         (map_to_list kb).*2 counts) /\
  (forall (r r' : R) (kb_data : value),
     ZendeskClient.get_all_articles r = (Ok kb_data, r') ->
     exists kb : dict,
       kb_data = VDict kb /\
       map_Forall
         (fun _ section =>
            exists (rec : dict) (articles : list value),
              section = VDict rec /\ rec !! "articles" = Some (VList articles))
         kb).
Proof.
  split.
  - intros uri now stored_at w w' s E.
    apply read_resource_ok in E as (kb_data & doc & _ & Hdoc & ->).
    apply kb_document_ok in Hdoc as (kb & counts & -> & Hcounts & ->).
    exists kb, counts. split; [reflexivity|].
    eapply Forall2_impl; [exact Hcounts|].
    intros section n. apply articles_count_ok.
  - intros r r' kb_data E. exact (get_all_articles_shape r r' kb_data E).
Qed.

End KnowledgeBase.

(** ** Resources: the memoised snapshot *)


Section Cache.
Context {rt : PyRuntime} {R : Type} {hd : Helpdesk R}.
Variable cfg : ZendeskClient.self.



Lemma serve_reads_cons (c : TTLCache.t) (rd : read R) (rest : list (read R)) :
  serve_reads cfg c (rd :: rest) =
  Observation (fst (serve cfg c rd)) (count_fetches (w_calls (snd (serve cfg c rd))))
    :: serve_reads cfg (w_kb_cache (snd (serve cfg c rd))) rest.
Proof. unfold serve. simpl. now destruct (handle_read_resource _ _ _ _ _). Qed.

Lemma lookup_fresh (e : TTLCache.entry) (now : Q) :
  (now < TTLCache.expires e)%Q -> TTLCache.lookup now (Some e) = Some (TTLCache.cached e).
Proof.
  intros Hlt. unfold TTLCache.lookup.
  destruct (Qle_bool (TTLCache.expires e) now) eqn:Hle; [|reflexivity].
  apply Qle_bool_iff in Hle. exfalso. apply (Qlt_not_le _ _ Hlt Hle).
Qed.

Lemma lookup_stays_missed (c : TTLCache.t) (now later : Q) :
  (now <= later)%Q -> TTLCache.lookup now c = None -> TTLCache.lookup later c = None.
Proof.
  intros Hle. unfold TTLCache.lookup. destruct c as [e|]; [|reflexivity].
  destruct (Qle_bool (TTLCache.expires e) now) eqn:Hnow; [|discriminate].
  intros _. apply Qle_bool_iff in Hnow.
  assert (Hlater : Qle_bool (TTLCache.expires e) later = true).
  { apply Qle_bool_iff. eapply Qle_trans; eassumption. }
  now rewrite Hlater.
Qed.

(** A read that finds the snapshot fresh returns it and calls nothing. *)
Lemma serve_hit (c : TTLCache.t) (rd : read R) (v : value) :
  TTLCache.lookup (read_now rd) c = Some v ->
  fst (serve cfg c rd) = rendered v /\
  w_calls (snd (serve cfg c rd)) = [] /\
  w_kb_cache (snd (serve cfg c rd)) = c.
Proof.
  intros Hhit. unfold serve.
  change (handle_read_resource cfg knowledge_base_uri (read_now rd) (read_stored_at rd))
    with (read_knowledge_base cfg (read_now rd) (read_stored_at rd)).
  unfold read_knowledge_base, try_except, sbind, get_cached_kb, rendered, slift, sret.
  cbn [w_kb_cache]. rewrite Hhit.
  destruct (kb_document v) as [doc|e]; simpl; auto.
Qed.

(** A read that misses calls the adapter once.  When the call raises, the
    read raises and the cache is left as it was; when it returns [v], the
    read returns the rendering of [v] and [v] is stored, to expire one
    [KB_TTL] after the store. *)
Lemma serve_miss (c : TTLCache.t) (rd : read R) :
  (read_now rd <= read_stored_at rd)%Q ->
  TTLCache.lookup (read_now rd) c = None ->
  w_calls (snd (serve cfg c rd)) = [CallGetAllArticles] /\
  match fst (ZendeskClient.get_all_articles (read_remote rd)) with
  | Raise e =>
      fst (serve cfg c rd) = Raise e /\ w_kb_cache (snd (serve cfg c rd)) = c
  | Ok v =>
      fst (serve cfg c rd) = rendered v /\
      w_kb_cache (snd (serve cfg c rd)) =
        Some (TTLCache.Entry (read_stored_at rd + KB_TTL)%Q v)
  end.
Proof.
  intros Hclock Hmiss. unfold serve.
  change (handle_read_resource cfg knowledge_base_uri (read_now rd) (read_stored_at rd))
    with (read_knowledge_base cfg (read_now rd) (read_stored_at rd)).
  unfold read_knowledge_base, try_except, sbind, get_cached_kb, rendered, slift, sret,
    delegate, run_call, logger_error, sraise.
  cbn [w_kb_cache w_remote w_calls w_log]. rewrite Hmiss.
  destruct (ZendeskClient.get_all_articles (read_remote rd)) as [[v|e] r'].
  - cbn [w_kb_cache w_remote w_calls w_log]. unfold TTLCache.setdefault.
    rewrite (lookup_stays_missed c _ _ Hclock Hmiss).
    cbn [fst]. destruct (kb_document v) as [doc|e]; simpl; auto.
  - simpl. auto.
Qed.

Lemma ordered_from_lookup (t : Q) (reads : list (read R)) (j : nat) (rd : read R) :
  ordered_from t reads -> reads !! j = Some rd -> (t <= read_now rd)%Q.
Proof.
  revert t j. induction reads as [|rd1 rest IH]; intros t j Hord Hj; [discriminate|].
  destruct Hord as (Ht & Hrd1 & Hrest).
  destruct j as [|j]; simpl in Hj.
  - now inversion Hj; subst.
  - apply (IH _ _ Hrest) in Hj. eapply Qle_trans; [exact Ht|].
    eapply Qle_trans; eassumption.
Qed.

(** As long as the reads come before the entry expires, they are all served
    from it. *)
Lemma served_while_fresh (e : TTLCache.entry) (reads : list (read R)) (t : Q)
  (j : nat) (rd : read R) (o : observation) :
  ordered_from t reads ->
  reads !! j = Some rd ->
  serve_reads cfg (Some e) reads !! j = Some o ->
  (read_now rd < TTLCache.expires e)%Q ->
  obs_fetches o = 0%nat /\ obs_result o = rendered (TTLCache.cached e).
Proof.
  revert t j. induction reads as [|rd1 rest IH]; intros t j Hord Hj Ho Hfresh;
    [discriminate|].
  destruct Hord as (Ht & Hrd1 & Hrest).
  rewrite serve_reads_cons in Ho.
  assert (Hfresh1 : (read_now rd1 < TTLCache.expires e)%Q).
  { destruct j as [|j]; simpl in Hj.
    - now inversion Hj; subst.
    - eapply Qle_lt_trans; [exact Hrd1|].
      eapply Qle_lt_trans; [|exact Hfresh].
      apply (ordered_from_lookup _ _ _ _ Hrest Hj). }
  destruct (serve_hit (Some e) rd1 _ (lookup_fresh e _ Hfresh1)) as (Hx & Hcalls & Hcache).
  destruct j as [|j]; simpl in Hj, Ho.
  - inversion Hj; subst rd1. inversion Ho; subst o. simpl.
    rewrite Hcalls. split; [reflexivity|exact Hx].
  - rewrite Hcache in Ho. apply (IH _ _ Hrest Hj Ho Hfresh).
Qed.

Lemma snapshot_after_fetch (c : TTLCache.t) (reads : list (read R)) (t : Q)
  (i j : nat) (rdi rdj : read R) (oi oj : observation) (s : string) :
  ordered_from t reads ->
  (i < j)%nat ->
  reads !! i = Some rdi ->
  reads !! j = Some rdj ->
  serve_reads cfg c reads !! i = Some oi ->
  serve_reads cfg c reads !! j = Some oj ->
  obs_fetches oi = 1%nat ->
  obs_result oi = Ok s ->
  (read_now rdj < read_stored_at rdi + 3600)%Q ->
  obs_fetches oj = 0%nat /\ obs_result oj = Ok s.
Proof.
  revert c t i j. induction reads as [|rd1 rest IH];
    intros c t i j Hord Hij Hi Hj Hoi Hoj Hfetch Hok Hwindow; [discriminate|].
  destruct Hord as (Ht & Hrd1 & Hrest).
  rewrite serve_reads_cons in Hoi, Hoj.
  destruct j as [|j]; [lia|]. simpl in Hj, Hoj.
  destruct i as [|i]; simpl in Hi, Hoi.
  - inversion Hi; subst rd1. inversion Hoi; subst oi. simpl in Hfetch, Hok.
    destruct (TTLCache.lookup (read_now rdi) c) as [v|] eqn:Hlook.
    + destruct (serve_hit c rdi v Hlook) as (_ & Hcalls & _).
      rewrite Hcalls in Hfetch. discriminate.
    + destruct (serve_miss c rdi Hrd1 Hlook) as (_ & Hcase).
      destruct (fst (ZendeskClient.get_all_articles (read_remote rdi))) as [v|e].
      * destruct Hcase as (Hx & Hcache). rewrite Hcache in Hoj.
        rewrite <- Hok, Hx.
        apply (served_while_fresh _ _ _ _ _ _ Hrest Hj Hoj). exact Hwindow.
      * destruct Hcase as (Hx & _). rewrite Hx in Hok. discriminate.
  - apply (IH _ _ i j Hrest ltac:(lia) Hi Hj Hoi Hoj Hfetch Hok Hwindow).
Qed.

(** C3, as the code has it.  In a sequence of reads of the knowledge-base
    resource whose clock readings never go back, once a read has fetched
    the knowledge base and returned it, every later read that looks the
    cache up less than 3600 seconds after that fetch was stored returns the
    same document without calling [get_all_articles]; hence a later read
    that does call it comes at least 3600 seconds after the store. *)
Theorem kb_snapshot_served_for_an_hour
  (c : TTLCache.t) (reads : list (read R)) (i j : nat) (rdi rdj : read R)
  (oi oj : observation) (s : string) :
  ordered reads ->
  (i < j)%nat ->
  reads !! i = Some rdi ->
  reads !! j = Some rdj ->
  serve_reads cfg c reads !! i = Some oi ->
  serve_reads cfg c reads !! j = Some oj ->
  obs_fetches oi = 1%nat ->
  obs_result oi = Ok s ->
  ((read_now rdj < read_stored_at rdi + 3600)%Q ->
   obs_fetches oj = 0%nat /\ obs_result oj = Ok s) /\
  (obs_fetches oj = 1%nat -> (read_stored_at rdi + 3600 <= read_now rdj)%Q).
Proof.
  intros Hord Hij Hi Hj Hoi Hoj Hfetch Hok.
  assert (Hfrom : exists t, ordered_from t reads).
  { destruct reads as [|rd1 rest]; [discriminate|]. now exists (read_now rd1). }
  destruct Hfrom as [t Hfrom].
  assert (Hserved : (read_now rdj < read_stored_at rdi + 3600)%Q ->
                    obs_fetches oj = 0%nat /\ obs_result oj = Ok s).
  { apply (snapshot_after_fetch c reads t i j rdi rdj oi oj s); assumption. }
  split; [exact Hserved|].
  intros Hagain.
  destruct (Qlt_le_dec (read_now rdj) (read_stored_at rdi + 3600)) as [Hlt|Hle];
    [|exact Hle].
  destruct (Hserved Hlt) as [Hzero _]. rewrite Hzero in Hagain. discriminate.
Qed.

End Cache.

(** * Further properties of the dispatcher *)

Section MoreTools.
Context {rt : PyRuntime} {R : Type} {hd : Helpdesk R}.
Variable cfg : ZendeskClient.self.

Lemma not_in_catalog (name : string) :
  name ∉ (tool_catalog.*1) ->
  Forall (fun tool => String.eqb name tool = false) (tool_catalog.*1).
Proof.
  intros Hnot. apply Forall_forall. intros tool Hin.
  apply String.eqb_neq. intros ->. now apply Hnot.
Qed.

(** A name that is not in the tool catalog is answered with the text
    [Error: Unknown tool: ] followed by the name; the adapter is not called
    and the world is left as it was, whatever the arguments. *)
Theorem unknown_tool_rejected (name : string) (arguments : option dict) (w : world R) :
  name ∉ (tool_catalog.*1) ->
  handle_call_tool cfg name arguments w =
    (Ok [ text_content ("Error: Unknown tool: " +:+ name) ], w).
Proof.
  intros Hnot. apply not_in_catalog in Hnot. simpl in Hnot.
  repeat match goal with
         | Hf : Forall _ (_ :: _) |- _ =>
             let Hh := fresh "Hname" in
             apply Forall_cons in Hf as [Hh Hf]
         end.
  unfold handle_call_tool, call_tool_body.
  repeat match goal with
         | Hn : String.eqb name _ = false |- _ => rewrite Hn; clear Hn
         end.
  reflexivity.
Qed.

Lemma handle_call_tool_world (name : string) (arguments : option dict) (w : world R) :
  snd (handle_call_tool cfg name arguments w) = snd (call_tool_body cfg name arguments w).
Proof.
  unfold handle_call_tool, try_except.
  now destruct (call_tool_body cfg name arguments w) as [[content|e] w'].
Qed.

Lemma require_ok {B} (args : dict) (k : dict -> M R B) (w : world R) :
  args <> ∅ -> sbind (require_arguments (Some args)) k w = k args w.
Proof.
  intros Hne. unfold sbind, require_arguments, no_arguments.
  now rewrite bool_decide_eq_false_2.
Qed.

Lemma subscript_some (args : dict) (key : string) :
  is_Some (args !! key) -> exists v, args !! key = Some v /\ subscript args key = Ok v.
Proof. intros [v Hv]. exists v. unfold subscript. now rewrite Hv. Qed.

(** A call followed by code that only computes leaves the world with that
    one call made and nothing else changed. *)
Lemma delegate_world {B} (good : B -> Prop) (call : adapter_call)
  (k : value -> M R B) (w : world R) :
  computes (R := R) good k ->
  exists x r',
    run_call cfg call (w_remote w) = (x, r') /\
    snd (sbind (delegate cfg call) k w) =
      World r' (w_kb_cache w) (w_calls w ++ [call]) (w_log w).
Proof.
  intros Hk. unfold sbind, delegate.
  destruct (run_call cfg call (w_remote w)) as [[v|e] r'] eqn:Hrun.
  - destruct (Hk v (World r' (w_kb_cache w) (w_calls w ++ [call]) (w_log w)))
      as (out & -> & _).
    now exists (Ok v), r'.
  - now exists (Raise e), r'.
Qed.

Ltac computes :=
  repeat first
    [ apply computes_ret; intros; eexists; reflexivity
    | apply computes_lift; intros ].

Ltac present key :=
  match goal with
  | Hreq : Forall _ (key :: _) |- _ =>
      let Hk := fresh "Hkey" in
      let v := fresh "v" in
      let Hv := fresh "Hv" in
      let Hs := fresh "Hs" in
      apply Forall_cons in Hreq as [Hk Hreq];
      destruct (subscript_some _ _ Hk) as (v & Hv & Hs)
  end.

(** For every tool of the catalog other than [update_ticket], a call whose
    arguments are not empty and hold every argument the schema requires
    gets as far as the adapter: exactly one adapter call is made, and it is
    the only change to the world.  [get_tickets] requires nothing and
    delegates even without arguments. *)
Theorem present_arguments_delegated
  (name : string) (required : list string) (arguments : option dict) (w : world R) :
  (name, required) ∈ tool_catalog ->
  name <> "update_ticket" ->
  (name = "get_tickets" \/
   exists args, arguments = Some args /\ args <> ∅ /\
                Forall (fun key => is_Some (args !! key)) required) ->
  exists call x r',
    run_call cfg call (w_remote w) = (x, r') /\
    snd (handle_call_tool cfg name arguments w) =
      World r' (w_kb_cache w) (w_calls w ++ [call]) (w_log w).
Proof.
  intros Htool Hname Hargs. rewrite handle_call_tool_world.
  unfold tool_catalog in Htool.
  repeat (apply elem_of_cons in Htool as [Htool|Htool];
          [inversion Htool; subst name required; clear Htool|]);
    try (now apply elem_of_nil in Htool);
    try congruence;
    unfold call_tool_body; simpl (String.eqb _ _); cbv iota.
  3:{ (* get_tickets *)
      cbv zeta. eexists. eapply (delegate_world one_text). computes. }
  all: destruct Hargs as [Hargs|(args & -> & Hne & Hreq)]; [discriminate|].
  all: rewrite (require_ok _ _ _ Hne).
  all: cbv zeta.
  all: repeat match goal with
              | Hreq : Forall _ (?key :: _) |- _ => present key
              end.
  all: repeat (unfold sbind at 1, slift at 1;
               match goal with
               | Hs : subscript _ _ = Ok _ |- _ => rewrite Hs; clear Hs
               end).
  all: eexists; eapply (delegate_world one_text); computes.
Qed.

(** The [update_ticket] tool.  With a [ticket_id] that is not null and that
    [int()] accepts, and no argument named [self], the adapter is called
    once, with the converted id and with every other argument as a field:
    [ticket_id] itself is never among the fields.  A null [ticket_id], or
    one that [int()] rejects, is answered with an error text before any
    adapter call. *)
Theorem update_ticket_tool_forwards (args : dict) (w : world R) :
  args <> ∅ ->
  (forall v id,
     args !! "ticket_id" = Some v -> is_none v = false -> py_int v = Ok id ->
     args !! "self" = None ->
     delete "ticket_id" args !! "ticket_id" = None /\
     exists x r',
       run_call cfg (CallUpdateTicket (VInt id) (delete "ticket_id" args)) (w_remote w)
         = (x, r') /\
       snd (handle_call_tool cfg "update_ticket" (Some args) w) =
         World r' (w_kb_cache w)
           (w_calls w ++ [CallUpdateTicket (VInt id) (delete "ticket_id" args)]) (w_log w)) /\
  (is_none (dict_get args "ticket_id") = true ->
   handle_call_tool cfg "update_ticket" (Some args) w =
     (Ok [ text_content "Error: ticket_id is required" ], w)) /\
  (forall v e,
     args !! "ticket_id" = Some v -> is_none v = false -> py_int v = Raise e ->
     handle_call_tool cfg "update_ticket" (Some args) w =
       (Ok [ text_content ("Error: " +:+ exn_str e) ], w)).
Proof.
  intros Hne. split; [|split].
  - intros v id Hv Hnone Hint Hself. split; [apply lookup_delete_eq|].
    rewrite handle_call_tool_world.
    unfold call_tool_body. simpl (String.eqb _ _). cbv iota.
    rewrite (require_ok _ _ _ Hne). cbv zeta.
    unfold dict_get. rewrite Hv. change (default VNone (Some v)) with v. rewrite Hnone.
    unfold sbind at 1, slift at 1. rewrite Hint.
    unfold sbind at 1, slift at 1, bind_fields.
    rewrite bool_decide_eq_false_2.
    2:{ rewrite lookup_delete_ne by discriminate. rewrite Hself. intros [? ?]. discriminate. }
    eapply (delegate_world one_text). computes.
  - intros Hnone. unfold handle_call_tool, try_except, call_tool_body.
    simpl (String.eqb _ _). cbv iota.
    rewrite (require_ok _ _ _ Hne). cbv zeta. now rewrite Hnone.
  - intros v e Hv Hnone Hint. unfold handle_call_tool, try_except, call_tool_body.
    simpl (String.eqb _ _). cbv iota.
    rewrite (require_ok _ _ _ Hne). cbv zeta.
    unfold dict_get. rewrite Hv. change (default VNone (Some v)) with v. rewrite Hnone.
    unfold sbind at 1, slift at 1. now rewrite Hint.
Qed.

Lemma search_users_returns_list (email : value) (r r' : R) (v : value) :
  ZendeskClient.search_users_by_email email r = (Ok v, r') -> exists l, v = VList l.
Proof.
  unfold ZendeskClient.search_users_by_email, try_except, sbind, slift, sret,
    ZendeskClient.fail, sraise.
  destruct (sdk_search _ r) as [[users|e] r1]; [|discriminate].
  destruct (rmap ZendeskClient.user_brief users) as [l|e]; [|discriminate].
  intros E. inversion E. now exists l.
Qed.

Lemma user_tickets_returns_list (user_id status : value) (r r' : R) (v : value) :
  ZendeskClient.get_user_tickets user_id status r = (Ok v, r') -> exists l, v = VList l.
Proof.
  unfold ZendeskClient.get_user_tickets, try_except, sbind, slift, sret,
    ZendeskClient.fail, sraise. cbv zeta.
  destruct (sdk_search _ r) as [[tickets|e] r1]; [|discriminate].
  destruct (rmap ZendeskClient.user_ticket_entry tickets) as [l|e]; [|discriminate].
  intros E. inversion E. now exists l.
Qed.

Lemma no_call_made (w : world R) (call : adapter_call) :
  w_calls w = w_calls w ++ [call] -> False.
Proof.
  intros Hcalls. apply (f_equal (@List.length _)) in Hcalls.
  rewrite length_app in Hcalls. simpl in Hcalls. lia.
Qed.

Lemma answers_raise (e : exn) (w : world R) : answers cfg (sraise e) w.
Proof. intros call v r' Hcalls _. now apply no_call_made in Hcalls. Qed.

Lemma answers_lift {A} (x : result A) (k : A -> M R (list TextContent)) (w : world R) :
  (forall a, x = Ok a -> answers cfg (k a) w) -> answers cfg (sbind (slift x) k) w.
Proof.
  intros Hk. unfold sbind, slift. destruct x as [a|e]; [now apply Hk|apply answers_raise].
Qed.

Lemma answers_require (arguments : option dict) (k : dict -> M R (list TextContent))
  (w : world R) :
  (forall args, answers cfg (k args) w) -> answers cfg (sbind (require_arguments arguments) k) w.
Proof.
  intros Hk. unfold sbind, require_arguments.
  destruct (no_arguments arguments); [apply answers_raise|apply Hk].
Qed.

Lemma answers_delegate (call : adapter_call) (k : value -> M R (list TextContent))
  (w : world R) :
  (forall v r' w', run_call cfg call (w_remote w) = (Ok v, r') ->
                   exists text, k v w' = (Ok [ text_content text ], w')) ->
  answers cfg (sbind (delegate cfg call) k) w.
Proof.
  intros Hk call' v r' Hcalls Hrun. revert Hcalls. unfold sbind, delegate.
  destruct (run_call cfg call (w_remote w)) as [[v0|e] r0] eqn:Hcall.
  - destruct (Hk v0 r0 (World r0 (w_kb_cache w) (w_calls w ++ [call]) (w_log w)) eq_refl)
      as [text Htext].
    rewrite Htext. cbn [snd w_calls]. intros Hcalls.
    apply app_inv_head in Hcalls. inversion Hcalls; subst call'.
    rewrite Hrun in Hcall. inversion Hcall; subst. now exists text.
  - cbn [snd w_calls]. intros Hcalls.
    apply app_inv_head in Hcalls. inversion Hcalls; subst call'.
    rewrite Hrun in Hcall. discriminate.
Qed.

Ltac answers :=
  repeat first
    [ apply answers_raise
    | apply answers_require; intros ?
    | apply answers_lift; intros ? ?
    | apply answers_delegate; intros ? ? ? ? ].

Lemma call_tool_body_answers (name : string) (arguments : option dict) (w : world R) :
  answers cfg (call_tool_body cfg name arguments) w.
Proof.
  unfold call_tool_body.
  repeat (match goal with
          | |- context [String.eqb name ?s] => destruct (String.eqb name s)
          end; [try solve [answers; eexists; reflexivity]|]).
  - (* update_ticket *)
    apply answers_require; intros args. cbv zeta.
    destruct (is_none (dict_get args "ticket_id")); answers. eexists; reflexivity.
  - (* search_users_by_email *)
    answers.
    match goal with
    | Hrun : run_call _ _ _ = _ |- _ =>
        simpl in Hrun; apply search_users_returns_list in Hrun as [l ->]
    end.
    eexists; reflexivity.
  - (* get_user_tickets *)
    answers.
    match goal with
    | Hrun : run_call _ _ _ = _ |- _ =>
        simpl in Hrun; apply user_tickets_returns_list in Hrun as [l ->]
    end.
    match goal with
    | Hs : subscript _ _ = Ok _ |- _ => unfold sbind, slift, sret; rewrite Hs
    end.
    eexists; reflexivity.
  - answers.
Qed.

(** After an adapter call that returned, the dispatcher never answers with
    an error text: what it does with the returned value (serializing it,
    counting its entries) cannot fail, and the content is that of the [try]
    block. *)
Theorem returned_call_is_answered
  (name : string) (arguments : option dict) (w : world R)
  (call : adapter_call) (v : value) (r' : R) :
  w_calls (snd (call_tool_body cfg name arguments w)) = w_calls w ++ [call] ->
  run_call cfg call (w_remote w) = (Ok v, r') ->
  exists text,
    call_tool_body cfg name arguments w =
      (Ok [ text_content text ], World r' (w_kb_cache w) (w_calls w ++ [call]) (w_log w)) /\
    handle_call_tool cfg name arguments w =
      (Ok [ text_content text ], World r' (w_kb_cache w) (w_calls w ++ [call]) (w_log w)).
Proof.
  intros Hcalls Hrun.
  destruct (call_tool_body_answers name arguments w call v r' Hcalls Hrun) as [text Hbody].
  exists text. split; [exact Hbody|].
  unfold handle_call_tool. now rewrite (try_except_ok _ _ _ _ _ Hbody).
Qed.

End MoreTools.

(** * Further properties of the adapter *)

Section MoreAdapter.
Context {rt : PyRuntime} {R : Type} {hd : Helpdesk R}.
Variable cfg : ZendeskClient.self.



End MoreAdapter.

(** * Further properties of the knowledge base *)

Section MoreKnowledgeBase.
Context {rt : PyRuntime} {R : Type} {hd : Helpdesk R}.
Variable cfg : ZendeskClient.self.

Lemma collect_sections_names (sections : list section) (kb0 kb : dict) (r r' : R) :
  ZendeskClient.collect_sections sections kb0 r = (Ok kb, r') ->
  dom kb = dom kb0 ∪ list_to_set (section_name <$> sections) /\
  (size kb <= size kb0 + List.length sections)%nat.
Proof.
  revert kb0 r. induction sections as [|s rest IH]; intros kb0 r E; simpl in E.
  - inversion E; subst. simpl. split; [set_solver|lia].
  - unfold sbind in E.
    destruct (sdk_section_articles (section_id s) r) as [[articles|e] r1]; [|discriminate].
    apply IH in E as [Hdom Hsize]. split.
    + rewrite Hdom, dom_insert_L. simpl. set_solver.
    + etransitivity; [exact Hsize|]. simpl.
      rewrite map_size_insert. destruct (kb0 !! section_name s); unfold id; lia.
Qed.

(** The knowledge base has one entry per section name: its keys are the
    names of the sections the helpdesk lists, so sections that share a name
    collapse into one entry and the mapping never has more entries than
    there are sections. *)
Theorem get_all_articles_keys (r r' : R) (kb_data : value) :
  ZendeskClient.get_all_articles r = (Ok kb_data, r') ->
  exists (sections : list section) (r1 : R) (kb : dict),
    sdk_sections r = (Ok sections, r1) /\
    kb_data = VDict kb /\
    dom kb = list_to_set (section_name <$> sections) /\
    (size kb <= List.length sections)%nat.
Proof.
  unfold ZendeskClient.get_all_articles, try_except, sbind. intros E.
  destruct (sdk_sections r) as [[sections|e] r1]; [|discriminate].
  destruct (ZendeskClient.collect_sections sections ∅ r1) as [[kb|e] r2] eqn:Hc;
    [|discriminate].
  inversion E; subst. exists sections, r1, kb.
  apply collect_sections_names in Hc as [Hdom Hsize].
  rewrite dom_empty_L in Hdom. rewrite map_size_empty in Hsize.
  repeat split; [set_solver|lia].
Qed.


(** When the snapshot is missing or expired and the fetch fails, the read
    raises what the fetch raised, after logging it: no expired snapshot is
    served in its place, and the cache is left as it was, so the next read
    fetches again. *)
Theorem failed_fetch_is_not_cached (now stored_at : Q) (w : world R) (e : exn) (r' : R) :
  TTLCache.lookup now (w_kb_cache w) = None ->
  ZendeskClient.get_all_articles (w_remote w) = (Raise e, r') ->
  handle_read_resource cfg knowledge_base_uri now stored_at w =
    (Raise e,
     World r' (w_kb_cache w) (w_calls w ++ [CallGetAllArticles])
       (w_log w ++ ["Error fetching knowledge base: " +:+ exn_str e])).
Proof.
  intros Hmiss Hfetch.
  change (handle_read_resource cfg knowledge_base_uri now stored_at)
    with (read_knowledge_base cfg now stored_at).
  unfold read_knowledge_base, try_except, sbind, get_cached_kb, delegate, run_call.
  rewrite Hmiss, Hfetch. reflexivity.
Qed.

End MoreKnowledgeBase.

(** * Further properties of the adapter: tickets *)

Lemma dict_display_total (entries : list (string * result value)) :
  Forall (fun entry => exists v, entry.2 = Ok v) entries ->
  exists d, dict_display entries = Ok d.
Proof.
  induction 1 as [|[k e] entries [v Hv] _ [d IH]].
  - now exists ∅.
  - simpl in Hv. subst e.
    exists (<[k := default v (d !! k)]> d).
    change (dict_display ((k, Ok v) :: entries))
      with (let? d := dict_display entries in Ok (<[k := default v (d !! k)]> d)).
    now rewrite IH.
Qed.

Section MoreTickets.
Context {rt : PyRuntime} {R : Type} {hd : Helpdesk R}.
Variable cfg : ZendeskClient.self.

(** A response of the listing endpoint that is an object without a
    [tickets] key is read as an empty page: the call succeeds with no
    tickets and a count of zero.  A response that is not an object makes the
    call fail. *)
Theorem get_tickets_without_tickets_key
  (page per_page : Z) (sort_by sort_order : string) (r r' : R) (data : value) :
  http_get_json
    (ZendeskClient.tickets_request cfg (VInt page) (VInt (Z.min per_page 100))
       (VStr sort_by) (VStr sort_order)) r = (Ok data, r') ->
  (forall d : dict, data = VDict d -> d !! "tickets" = None ->
     exists record : dict,
       ZendeskClient.get_tickets cfg (VInt page) (VInt per_page) (VStr sort_by)
         (VStr sort_order) r = (Ok (VDict record), r') /\
       record !! "tickets" = Some (VList []) /\
       record !! "count" = Some (VInt 0)) /\
  ((forall d : dict, data <> VDict d) ->
   exists e,
     ZendeskClient.get_tickets cfg (VInt page) (VInt per_page) (VStr sort_by)
       (VStr sort_order) r = (Raise e, r')).
Proof.
  intros Hreq. split.
  - intros d -> Hnone.
    unfold ZendeskClient.get_tickets, try_except, sbind, slift.
    rewrite py_min_100_int, Hreq.
    unfold ZendeskClient.tickets_page. simpl py_get. rewrite Hnone.
    cbn [default from_option id rbind py_iter rmap].
    rewrite next_page_of_int, previous_page_of_int.
    unfold ZendeskClient.has_more_of. simpl py_get. cbn [rbind].
    match goal with
    | |- context [dict_display ?l] =>
        destruct (dict_display_total l) as [record Hrecord]
    end.
    { repeat (apply Forall_cons_2; [eexists; reflexivity|]). apply Forall_nil_2. }
    rewrite Hrecord. cbn [rbind]. exists record. split; [reflexivity|].
    assert (Hnd : NoDup
      [ "tickets"; "page"; "per_page"; "count"; "sort_by"; "sort_order"; "has_more";
        "next_page"; "previous_page" ]).
    { apply NoDup_ListNoDup. repeat constructor; simpl; intuition discriminate. }
    split; apply (dict_display_lookup _ _ _ _ Hrecord Hnd); set_solver.
  - intros Hnot.
    unfold ZendeskClient.get_tickets, try_except, sbind, slift.
    rewrite py_min_100_int, Hreq.
    unfold ZendeskClient.tickets_page.
    destruct data as [| | | | |d]; try (simpl; eexists; reflexivity).
    exfalso. now apply (Hnot d).
Qed.

(** When the audit of a creation carries neither a ticket nor an id,
    [create_ticket] makes no further SDK call and answers from what was
    submitted: the id is null, the status is [new], and subject,
    description, priority and type are the submitted ones. *)
Theorem create_ticket_without_id
  (subject description requester_id assignee_id priority type tags custom_fields : value)
  (r r1 : R) (audit : obj) :
  sdk_tickets_create
    (ZendeskClient.ZenpyTicket subject description requester_id assignee_id priority
       type tags custom_fields) r = (Ok audit, r1) ->
  audit !! "ticket" = None ->
  audit !! "id" = None ->
  tags = VNone \/ (exists l, tags = VList l) ->
  exists record : dict,
    ZendeskClient.create_ticket subject description requester_id assignee_id priority
      type tags custom_fields r = (Ok (VDict record), r1) /\
    record !! "id" = Some VNone /\
    record !! "status" = Some (VStr "new") /\
    record !! "subject" = Some subject /\
    record !! "description" = Some description /\
    record !! "priority" = Some priority /\
    record !! "type" = Some type.
Proof.
  intros Hcreate Hticket Hid Htags.
  unfold ZendeskClient.create_ticket, try_except, sbind. cbv zeta.
  rewrite Hcreate. unfold getattr_or, as_obj.
  repeat rewrite Hticket. cbn [default from_option id is_none].
  repeat rewrite Hid. cbn [default from_option id is_none truthy sret].
  assert (Hlist : exists tl,
    ZendeskClient.py_list
      (ZendeskClient.py_or (ZendeskClient.py_or tags (VList [])) (VList [])) = Ok tl).
  { destruct Htags as [->|[l ->]].
    - eexists. reflexivity.
    - destruct l; eexists; reflexivity. }
  destruct Hlist as [tl Hlist]. unfold slift. rewrite Hlist.
  eexists. split; [reflexivity|].
  repeat split; (rewrite ?lookup_insert_ne by discriminate; apply lookup_insert_eq).
Qed.

(** When the audit names the created ticket but reading it back fails,
    [create_ticket] fails with [Failed to create ticket: ...], although the
    creation itself went through: the remote state is the one after the
    creation and the failed read. *)
Theorem create_ticket_read_back_failure
  (subject description requester_id assignee_id priority type tags custom_fields : value)
  (r r1 r2 : R) (audit ticket : obj) (tid : value) (e : exn) :
  sdk_tickets_create
    (ZendeskClient.ZenpyTicket subject description requester_id assignee_id priority
       type tags custom_fields) r = (Ok audit, r1) ->
  audit !! "ticket" = Some (VDict ticket) ->
  ticket !! "id" = Some tid ->
  truthy tid = true ->
  sdk_tickets tid r1 = (Raise e, r2) ->
  ZendeskClient.create_ticket subject description requester_id assignee_id priority
    type tags custom_fields r =
  (Raise (Exn PlainException ("Failed to create ticket: " +:+ exn_str e)), r2).
Proof.
  intros Hcreate Hticket Hid Htruthy Hread.
  unfold ZendeskClient.create_ticket, try_except, sbind. cbv zeta.
  rewrite Hcreate. unfold getattr_or, as_obj.
  repeat rewrite Hticket. cbn [default from_option id].
  repeat rewrite Hid. cbn [default from_option id].
  assert (Hnotnone : is_none tid = false) by (destruct tid; simpl in *; congruence).
  rewrite Hnotnone, Htruthy. rewrite Hread. reflexivity.
Qed.

End MoreTickets.

(** * Further properties of the adapter: macros and HTTP failures *)

Section MoreMacros.
Context {rt : PyRuntime} {R : Type} {hd : Helpdesk R}.
Variable cfg : ZendeskClient.self.

(** A display of [src.get(k, d)] entries with distinct keys. *)
Lemma dict_display_get (keys : list (string * value)) (src : dict) :
  NoDup keys.*1 ->
  exists rec : dict,
    dict_display ((fun kd => (kd.1, py_get (VDict src) kd.1 kd.2)) <$> keys) = Ok rec /\
    dom rec = list_to_set keys.*1 /\
    forall k d, (k, d) ∈ keys -> rec !! k = Some (default d (src !! k)).
Proof.
  intros Hnd.
  destruct (dict_display_total
              ((fun kd => (kd.1, py_get (VDict src) kd.1 kd.2)) <$> keys)) as [rec Hrec].
  { apply Forall_fmap, Forall_forall. intros [k d] _. simpl. eauto. }
  assert (Hkeys : ((fun kd : string * value => (kd.1, py_get (VDict src) kd.1 kd.2)) <$> keys).*1
                  = keys.*1).
  { rewrite <- list_fmap_compose. now apply list_fmap_ext. }
  exists rec. split; [exact Hrec|]. split.
  - rewrite (dict_display_dom _ _ Hrec). now rewrite Hkeys.
  - intros k d Hin. apply (dict_display_lookup _ _ _ _ Hrec).
    + now rewrite Hkeys.
    + apply (list_elem_of_fmap_2 (fun kd => (kd.1, py_get (VDict src) kd.1 kd.2)) _ _ Hin).
Qed.

Ltac distinct_keys :=
  apply NoDup_ListNoDup; repeat constructor; simpl; intuition discriminate.

Ltac field_cases Hk :=
  repeat (apply elem_of_union in Hk as [Hk|Hk]);
  apply elem_of_singleton in Hk; subst.

Lemma macro_record_object (m : dict) :
  exists rec : dict,
    ZendeskClient.macro_record (VDict m) = Ok (VDict rec) /\
    picked macro_fields macro_default m rec.
Proof.
  destruct (dict_display_get
    [ ("id", VNone); ("title", VNone); ("description", VNone); ("active", VNone);
      ("actions", VList []); ("restriction", VNone); ("created_at", VNone);
      ("updated_at", VNone) ] m) as (rec & Hrec & Hdom & Hget); [distinct_keys|].
  exists rec. split.
  - unfold ZendeskClient.macro_record. simpl in Hrec. simpl py_get. now rewrite Hrec.
  - split.
    + rewrite Hdom. unfold macro_fields. simpl. set_solver.
    + intros k Hk. unfold macro_fields in Hk. field_cases Hk;
        (apply Hget; set_solver).
Qed.

Lemma macro_record_other (m : value) :
  (forall d, m <> VDict d) -> exists e, ZendeskClient.macro_record m = Raise e.
Proof.
  intros Hnot. destruct m as [| | | | |d]; try (eexists; reflexivity).
  now destruct (Hnot d).
Qed.

Lemma rmap_macro_records (ms : list dict) :
  exists recs : list dict,
    rmap ZendeskClient.macro_record (VDict <$> ms) = Ok (VDict <$> recs) /\
    Forall2 (picked macro_fields macro_default) ms recs.
Proof.
  induction ms as [|m ms (recs & Hrecs & Hall)].
  - now exists [].
  - destruct (macro_record_object m) as (rec & Hrec & Hpicked).
    exists (rec :: recs). split; [|now constructor].
    change (VDict <$> m :: ms) with (VDict m :: (VDict <$> ms)).
    cbn [rmap]. rewrite Hrec. cbn [rbind]. now rewrite Hrecs.
Qed.

Lemma rmap_raises {A B} (f : A -> result B) (l : list A) (x : A) :
  x ∈ l -> (exists e, f x = Raise e) -> exists e, rmap f l = Raise e.
Proof.
  intros Hin [e He]. induction l as [|y l IH]; [now apply elem_of_nil in Hin|].
  apply elem_of_cons in Hin as [<-|Hin]; simpl.
  - rewrite He. now exists e.
  - destruct (f y) as [b|e']; [|now exists e'].
    destruct (IH Hin) as [e' ->]. now exists e'.
Qed.

Lemma http_failure_raises {A} (what : string) (e : exn) (r : R) :
  exists e', ZendeskClient.http_failure (A := A) what e r = (Raise e', r).
Proof.
  unfold ZendeskClient.http_failure, ZendeskClient.fail, sraise.
  destruct (exn_type e), (exn_http e); eexists; reflexivity.
Qed.

(** [list_macros] reshapes the [macros] of the response one by one.  A
    response without [macros] gives the empty list.  When every macro is an
    object, the call returns as many records, in the same order, each with
    exactly the eight fields: the macro's own value, [None] for a field the
    macro lacks and the empty list for missing [actions].  A macro that is not
    an object makes the whole call fail. *)
Theorem list_macros_records (access active category : value) (r r' : R) (data : dict) :
  http_get_json (ZendeskClient.macros_request cfg access active category) r
    = (Ok (VDict data), r') ->
  (data !! "macros" = None ->
   ZendeskClient.list_macros cfg access active category r = (Ok (VList []), r')) /\
  (forall ms : list dict,
     data !! "macros" = Some (VList (VDict <$> ms)) ->
     exists recs : list dict,
       ZendeskClient.list_macros cfg access active category r
         = (Ok (VList (VDict <$> recs)), r') /\
       Forall2 (picked macro_fields macro_default) ms recs) /\
  (forall (ms : list value) (m : value),
     data !! "macros" = Some (VList ms) -> m ∈ ms -> (forall d, m <> VDict d) ->
     exists e, ZendeskClient.list_macros cfg access active category r = (Raise e, r')).
Proof.
  intros Hreq. split; [|split].
  - intros Hnone.
    unfold ZendeskClient.list_macros, try_except, sbind, slift. rewrite Hreq.
    simpl py_get. now rewrite Hnone.
  - intros ms Hms. destruct (rmap_macro_records ms) as (recs & Hrecs & Hall).
    exists recs. split; [|exact Hall].
    unfold ZendeskClient.list_macros, try_except, sbind, slift. rewrite Hreq.
    simpl py_get. rewrite Hms. cbn [default from_option id py_iter].
    now rewrite Hrecs.
  - intros ms m Hms Hin Hnot.
    destruct (rmap_raises ZendeskClient.macro_record ms m Hin (macro_record_other m Hnot))
      as [e He].
    unfold ZendeskClient.list_macros, try_except, sbind, slift. rewrite Hreq.
    simpl py_get. rewrite Hms. cbn [default from_option id py_iter].
    rewrite He. apply http_failure_raises.
Qed.

(** [get_macro] answers with the record of the [macro] of the response.  A
    response without [macro] is not an error: the record then holds [None]
    in every field and the empty list of actions. *)
Theorem get_macro_record (macro_id : value) (r r' : R) (data : dict) :
  http_get_json (ZendeskClient.macro_request cfg macro_id) r = (Ok (VDict data), r') ->
  (forall m : dict,
     data !! "macro" = Some (VDict m) ->
     exists rec : dict,
       ZendeskClient.get_macro cfg macro_id r = (Ok (VDict rec), r') /\
       picked macro_fields macro_default m rec) /\
  (data !! "macro" = None ->
   exists rec : dict,
     ZendeskClient.get_macro cfg macro_id r = (Ok (VDict rec), r') /\
     dom rec = macro_fields /\
     rec !! "actions" = Some (VList []) /\
     forall k, k ∈ macro_fields -> k <> "actions" -> rec !! k = Some VNone) /\
  (forall m : value,
     data !! "macro" = Some m -> (forall d, m <> VDict d) ->
     exists e, ZendeskClient.get_macro cfg macro_id r = (Raise e, r')).
Proof.
  intros Hreq. split; [|split].
  - intros m Hm. destruct (macro_record_object m) as (rec & Hrec & Hpicked).
    exists rec. split; [|exact Hpicked].
    unfold ZendeskClient.get_macro, try_except, sbind, slift. rewrite Hreq.
    simpl py_get. rewrite Hm. cbn [default from_option id]. now rewrite Hrec.
  - intros Hnone. destruct (macro_record_object ∅) as (rec & Hrec & Hdom & Hget).
    exists rec. split; [|split; [exact Hdom|split]].
    + unfold ZendeskClient.get_macro, try_except, sbind, slift. rewrite Hreq.
      simpl py_get. rewrite Hnone. cbn [default from_option id]. now rewrite Hrec.
    + rewrite Hget by (unfold macro_fields; set_solver). now rewrite lookup_empty.
    + intros k Hk Hactions. rewrite (Hget k Hk), lookup_empty.
      unfold macro_default. apply String.eqb_neq in Hactions. now rewrite Hactions.
  - intros m Hm Hnot. destruct (macro_record_other m Hnot) as [e He].
    unfold ZendeskClient.get_macro, try_except, sbind, slift. rewrite Hreq.
    simpl py_get. rewrite Hm. cbn [default from_option id]. rewrite He.
    apply http_failure_raises.
Qed.

Lemma changes_record_object (changes : dict) :
  exists tc : dict,
    ZendeskClient.changes_record (VDict changes) = Ok (VDict tc) /\
    picked change_fields (fun _ => VNone) changes tc.
Proof.
  destruct (dict_display_get
    [ ("subject", VNone); ("status", VNone); ("priority", VNone); ("type", VNone);
      ("assignee_id", VNone); ("group_id", VNone); ("tags", VNone);
      ("custom_fields", VNone) ] changes) as (tc & Htc & Hdom & Hget); [distinct_keys|].
  exists tc. split.
  - unfold ZendeskClient.changes_record. simpl in Htc. simpl py_get. now rewrite Htc.
  - split.
    + rewrite Hdom. unfold change_fields. simpl. set_solver.
    + intros k Hk. unfold change_fields in Hk. field_cases Hk;
        (apply Hget; set_solver).
Qed.

Lemma comment_preview_object (c : dict) :
  c <> ∅ ->
  exists pc : dict,
    ZendeskClient.comment_preview (VDict c) = Ok (VDict pc) /\
    picked comment_fields (fun _ => VNone) c pc.
Proof.
  intros Hne.
  destruct (dict_display_get
    [ ("body", VNone); ("html_body", VNone); ("public", VNone) ] c)
    as (pc & Hpc & Hdom & Hget); [distinct_keys|].
  exists pc. split.
  - unfold ZendeskClient.comment_preview. cbn [truthy].
    rewrite bool_decide_eq_false_2 by exact Hne. cbn [negb].
    simpl in Hpc. simpl py_get. now rewrite Hpc.
  - split.
    + rewrite Hdom. unfold comment_fields. simpl. set_solver.
    + intros k Hk. unfold comment_fields in Hk. field_cases Hk;
        (apply Hget; set_solver).
Qed.

Lemma comment_preview_other (comment : value) :
  truthy comment = true -> (forall c, comment <> VDict c) ->
  exists e, ZendeskClient.comment_preview comment = Raise e.
Proof.
  intros Htruthy Hnot. unfold ZendeskClient.comment_preview. rewrite Htruthy.
  destruct comment as [| | | | |c]; try (eexists; reflexivity).
  now destruct (Hnot c).
Qed.

(** The preview [apply_macro_to_ticket] returns, for a response whose
    [result] and whose [ticket] inside it are objects (or are missing).  The
    two ids are echoed as they were passed, and [ticket_changes] always holds
    its eight fields.  [comment] is [None] when the result has no comment or
    a falsy one; it holds exactly [body], [html_body] and [public] when the
    comment is a non-empty object; a truthy comment that is not an object
    makes the call fail. *)
Theorem apply_macro_preview
  (ticket_id macro_id : value) (r r' : R) (data res changes : dict) (comment : value) :
  http_get_json (ZendeskClient.apply_request cfg ticket_id macro_id) r
    = (Ok (VDict data), r') ->
  default (VDict ∅) (data !! "result") = VDict res ->
  default (VDict ∅) (res !! "ticket") = VDict changes ->
  default (VDict ∅) (res !! "comment") = comment ->
  (truthy comment = false \/ (exists c, comment = VDict c) ->
   exists (rec tc : dict) (shown : value),
     ZendeskClient.apply_macro_to_ticket cfg ticket_id macro_id r = (Ok (VDict rec), r') /\
     dom rec = {[ "ticket_changes"; "comment"; "macro_id"; "ticket_id" ]} /\
     rec !! "macro_id" = Some macro_id /\
     rec !! "ticket_id" = Some ticket_id /\
     rec !! "ticket_changes" = Some (VDict tc) /\
     picked change_fields (fun _ => VNone) changes tc /\
     rec !! "comment" = Some shown /\
     (truthy comment = false -> shown = VNone) /\
     (forall c, comment = VDict c -> c <> ∅ ->
        exists pc, shown = VDict pc /\ picked comment_fields (fun _ => VNone) c pc)) /\
  (truthy comment = true -> (forall c, comment <> VDict c) ->
   exists e, ZendeskClient.apply_macro_to_ticket cfg ticket_id macro_id r = (Raise e, r')).
Proof.
  intros Hreq Hres Hchanges Hcomment.
  destruct (changes_record_object changes) as (tc & Htc & Hpicked).
  assert (Hkeys : NoDup [ "ticket_changes"; "comment"; "macro_id"; "ticket_id" ])
    by distinct_keys.
  split.
  - intros Hshape.
    assert (Hshown : exists shown,
      ZendeskClient.comment_preview comment = Ok shown /\
      (truthy comment = false -> shown = VNone) /\
      (forall c, comment = VDict c -> c <> ∅ ->
         exists pc, shown = VDict pc /\ picked comment_fields (fun _ => VNone) c pc)).
    { destruct (truthy comment) eqn:Htruthy.
      - destruct Hshape as [Hfalse|[c Hc]]; [discriminate|].
        rewrite Hc in Htruthy |- *.
        assert (Hne : c <> ∅).
        { intros ->. vm_compute in Htruthy. discriminate. }
        destruct (comment_preview_object c Hne) as (pc & Hpc & Hpicked_c).
        exists (VDict pc). split; [exact Hpc|]. split; [discriminate|].
        intros c' Hc' _. inversion Hc'; subst c'. now exists pc.
      - exists VNone. split.
        + unfold ZendeskClient.comment_preview. now rewrite Htruthy.
        + split; [reflexivity|]. intros c -> Hne. cbn [truthy] in Htruthy.
          rewrite bool_decide_eq_false_2 in Htruthy by exact Hne. discriminate. }
    destruct Hshown as (shown & Hshown & Hnone & Hobject).
    destruct (dict_display_total
      [ ("ticket_changes", Ok (VDict tc)); ("comment", Ok shown);
        ("macro_id", Ok macro_id); ("ticket_id", Ok ticket_id) ]) as [rec Hrec].
    { repeat (apply Forall_cons_2; [eexists; reflexivity|]). apply Forall_nil_2. }
    exists rec, tc, shown. split.
    { unfold ZendeskClient.apply_macro_to_ticket, try_except, sbind, slift.
      rewrite Hreq. simpl py_get. rewrite Hres. simpl py_get.
      rewrite Hchanges, Hcomment, Htc, Hshown, Hrec. reflexivity. }
    split.
    { rewrite (dict_display_dom _ _ Hrec). simpl. set_solver. }
    repeat (split; [apply (dict_display_lookup _ _ _ _ Hrec Hkeys); set_solver|]).
    split; [exact Hpicked|].
    split; [apply (dict_display_lookup _ _ _ _ Hrec Hkeys); set_solver|].
    split; [exact Hnone|exact Hobject].
  - intros Htruthy Hnot.
    destruct (comment_preview_other comment Htruthy Hnot) as [e He].
    unfold ZendeskClient.apply_macro_to_ticket, try_except, sbind, slift.
    rewrite Hreq. simpl py_get. rewrite Hres. simpl py_get.
    rewrite Hchanges, Hcomment, Htc, He.
    cbn [dict_display rbind]. apply http_failure_raises.
Qed.


(** The filters [list_macros] sends.  Without any filter the URL carries no
    query string.  [active] is sent whenever it is not [None], as [true] or
    [false]: a filter on inactive macros is not dropped.  [access] and
    [category] are sent only when they are truthy, so an empty access or the
    category [0] is dropped. *)
Theorem list_macros_query (access active category : value) :
  (truthy access = false -> is_none active = true -> truthy category = false ->
   ZendeskClient.macros_request cfg access active category =
     HttpRequest (ZendeskClient.base_url cfg +:+ "/macros.json")
       (ZendeskClient.api_headers cfg)) /\
  (forall b : bool, active = VBool b ->
   ("active", if b then "true" else "false")
     ∈ ZendeskClient.macros_params access active category) /\
  (forall k : string,
     k ∈ (ZendeskClient.macros_params access active category).*1 <->
     (k = "access" /\ truthy access = true) \/
     (k = "active" /\ is_none active = false) \/
     (k = "category" /\ truthy category = true)).
Proof.
  split; [|split].
  - intros Haccess Hactive Hcategory.
    unfold ZendeskClient.macros_request, ZendeskClient.macros_params.
    now rewrite Haccess, Hactive, Hcategory.
  - intros b ->. unfold ZendeskClient.macros_params. cbn [is_none].
    apply elem_of_app. right. apply elem_of_app. left.
    apply list_elem_of_singleton. now destruct b.
  - intros k. unfold ZendeskClient.macros_params.
    destruct (truthy access), (is_none active), (truthy category); simpl;
      (split;
       [ intros Hin;
         repeat (apply elem_of_cons in Hin as [->|Hin]);
         try (now apply elem_of_nil in Hin); auto
       | intros [[-> Hk]|[[-> Hk]|[-> Hk]]]; try discriminate; set_solver ]).
Qed.

End MoreMacros.

(** * The dispatcher and the adapter together *)

Section Composition.
Context {rt : PyRuntime} {R : Type} {hd : Helpdesk R}.
Variable cfg : ZendeskClient.self.

(** What [create_user] reads from the keyword arguments the dispatcher
    passes: the three keywords are always there, so no default applies to
    them, and the two others never are. *)
Lemma create_user_kwargs (role phone organization_id : value) :
  let kwargs : dict :=
    {[ "role" := role; "phone" := phone; "organization_id" := organization_id ]} in
  default (VStr "end-user") (kwargs !! "role") = role /\
  default VNone (kwargs !! "phone") = phone /\
  default VNone (kwargs !! "organization_id") = organization_id /\
  default VNone (kwargs !! "time_zone") = VNone /\
  default VNone (kwargs !! "locale") = VNone.
Proof. cbv zeta. repeat split; reflexivity. Qed.

(** The [create_user] tool, with its two required arguments present.  The
    user handed to [client.users.create] carries [arguments.get(...)] for
    [role], [phone] and [organization_id] and [None] for [time_zone] and
    [locale]: the dispatcher always passes the keyword [role], so the
    adapter's default role [end-user] never applies, and a call without a
    role submits the role [None].  The answer is built from what the SDK
    returns for that user. *)
Theorem create_user_tool_submits
  (args : dict) (email name_ : value) (w : world R) (x : result obj) (r' : R) :
  args !! "email" = Some email ->
  args !! "name" = Some name_ ->
  sdk_users_create
    (ZendeskClient.User email name_ (dict_get args "role") (dict_get args "phone")
       (dict_get args "organization_id") VNone VNone) (w_remote w) = (x, r') ->
  exists text,
    handle_call_tool cfg "create_user" (Some args) w =
      (Ok [ text_content text ],
       World r' (w_kb_cache w)
         (w_calls w ++
            [ CallCreateUser email name_
                {[ "role" := dict_get args "role";
                   "phone" := dict_get args "phone";
                   "organization_id" := dict_get args "organization_id" ]} ])
         (w_log w)) /\
    match x with
    | Raise e => text = "Error: Failed to create user: " +:+ exn_str e
    | Ok created =>
        match ZendeskClient.user_brief created with
        | Ok user =>
            text = json_dumps (Some 2%nat)
                     (VDict {[ "message" := VStr "User created successfully";
                               "user" := user ]})
        | Raise e => text = "Error: Failed to create user: " +:+ exn_str e
        end
    end.
Proof.
  intros Hemail Hname Hcreate.
  assert (Hne : args <> ∅).
  { intros ->. rewrite lookup_empty in Hemail. discriminate. }
  destruct (create_user_kwargs (dict_get args "role") (dict_get args "phone")
              (dict_get args "organization_id")) as (Hrole & Hphone & Horg & Htz & Hlocale).
  cbv zeta in Hrole, Hphone, Horg, Htz, Hlocale.
  unfold handle_call_tool, try_except, call_tool_body.
  simpl (String.eqb _ _). cbv iota.
  rewrite (require_ok _ _ _ Hne). cbv zeta.
  unfold sbind at 1, slift at 1, subscript at 1. rewrite Hemail.
  unfold sbind at 1, slift at 1, subscript at 1. rewrite Hname.
  unfold sbind, delegate. cbn [run_call].
  unfold ZendeskClient.create_user, try_except, sbind. cbv zeta.
  rewrite Hrole, Hphone, Horg, Htz, Hlocale, Hcreate.
  destruct x as [created|e].
  - unfold slift. destruct (ZendeskClient.user_brief created) as [user|e];
      eexists; split; reflexivity.
  - eexists; split; reflexivity.
Qed.

(** The [create_ticket_comment] tool, with its two required arguments
    present and a ticket that can be loaded.  The ticket handed to
    [client.tickets.update] is the loaded one with its [comment] set to the
    submitted text, public unless the arguments hold a [public] key (an
    explicit null is passed on as it is).  When the update returns, the
    answer echoes the submitted text, whatever the helpdesk answered; when
    it fails, the failure is reported and the state is the one the failed
    update left. *)
Theorem comment_tool_posts
  (args : dict) (ticket_id comment : value) (w : world R)
  (ticket : obj) (r1 : R) (x : result obj) (r2 : R) :
  args !! "ticket_id" = Some ticket_id ->
  args !! "comment" = Some comment ->
  sdk_tickets ticket_id (w_remote w) = (Ok ticket, r1) ->
  sdk_tickets_update
    (<["comment" := VDict (ZendeskClient.Comment comment
                             (default (VBool true) (args !! "public")))]> ticket) r1
    = (x, r2) ->
  handle_call_tool cfg "create_ticket_comment" (Some args) w =
    (Ok [ text_content
            match x with
            | Ok _ => "Comment created successfully: " +:+ py_str comment
            | Raise e => "Error: Failed to post comment on ticket " +:+ py_str ticket_id
                           +:+ ": " +:+ exn_str e
            end ],
     World r2 (w_kb_cache w)
       (w_calls w ++
          [ CallPostComment ticket_id comment (default (VBool true) (args !! "public")) ])
       (w_log w)).
Proof.
  intros Hid Hcomment Hload Hupdate.
  assert (Hne : args <> ∅).
  { intros ->. rewrite lookup_empty in Hid. discriminate. }
  unfold handle_call_tool, try_except, call_tool_body.
  simpl (String.eqb _ _). cbv iota.
  rewrite (require_ok _ _ _ Hne). cbv zeta.
  unfold sbind at 1, slift at 1, subscript at 1. rewrite Hid.
  unfold sbind at 1, slift at 1, subscript at 1. rewrite Hcomment.
  unfold sbind, delegate. cbn [run_call].
  unfold ZendeskClient.post_comment, try_except, sbind. cbv zeta.
  rewrite Hload, Hupdate.
  destruct x as [audit|e]; reflexivity.
Qed.

(** The prompts [handle_list_prompts] advertises are the ones
    [handle_get_prompt] serves.  With a [ticket_id] that [int()] accepts, a
    listed name is answered and the world is left as it was; any other name
    raises [Unknown prompt: ...] after logging it once.  And every argument
    a listed prompt declares required is demanded: without it the handler
    raises before anything is logged. *)
Theorem listed_prompts_are_served
  (name : string) (args : gmap string string) (raw : string) (tid : Z) (w : world R) :
  args !! "ticket_id" = Some raw ->
  py_int (VStr raw) = Ok tid ->
  (name ∈ prompt_name <$> handle_list_prompts ->
   exists answer, handle_get_prompt name (Some args) w = (Ok answer, w)) /\
  (name ∉ prompt_name <$> handle_list_prompts ->
   handle_get_prompt name (Some args) w =
     (Raise (Exn ValueError ("Unknown prompt: " +:+ name)),
      logged w ("Error generating prompt: Unknown prompt: " +:+ name))) /\
  (forall (p : Prompt) (a : PromptArgument) (others : gmap string string),
     p ∈ handle_list_prompts -> a ∈ prompt_arguments p -> pa_required a = true ->
     others !! pa_name a = None ->
     exists msg,
       handle_get_prompt (prompt_name p) (Some others) w = (Raise (Exn ValueError msg), w)).
Proof.
  intros Hraw Hint. split; [|split].
  - intros Hin. unfold handle_get_prompt. rewrite (has_ticket_id _ _ Hraw). cbv zeta.
    change (default ∅ (Some args)) with args. rewrite Hraw.
    change (default EmptyString (Some raw)) with raw.
    unfold sbind at 1, slift at 1. rewrite Hint.
    simpl in Hin. apply elem_of_cons in Hin as [->|Hin].
    + rewrite String.eqb_refl.
      unfold try_except, sbind, slift, sret. rewrite format_analysis.
      eexists. reflexivity.
    + apply list_elem_of_singleton in Hin. subst name.
      change (String.eqb "draft-ticket-response" "analyze-ticket") with false.
      rewrite String.eqb_refl.
      unfold try_except, sbind, slift, sret. rewrite format_draft.
      eexists. reflexivity.
  - intros Hnot. simpl in Hnot.
    assert (Ha : String.eqb name "analyze-ticket" = false).
    { apply String.eqb_neq. intros ->. apply Hnot. set_solver. }
    assert (Hd : String.eqb name "draft-ticket-response" = false).
    { apply String.eqb_neq. intros ->. apply Hnot. set_solver. }
    unfold handle_get_prompt. rewrite (has_ticket_id _ _ Hraw). cbv zeta.
    change (default ∅ (Some args)) with args. rewrite Hraw.
    change (default EmptyString (Some raw)) with raw.
    unfold sbind at 1, slift at 1. rewrite Hint, Ha, Hd. reflexivity.
  - intros p a others Hp Ha Hrequired Hnone.
    assert (Hname : pa_name a = "ticket_id").
    { unfold handle_list_prompts in Hp.
      apply elem_of_cons in Hp as [->|Hp];
        [|apply list_elem_of_singleton in Hp; subst p];
        simpl in Ha; apply list_elem_of_singleton in Ha; now subst a. }
    rewrite Hname in Hnone.
    unfold handle_get_prompt. rewrite no_ticket_id by (right; eauto).
    eexists. reflexivity.
Qed.

End Composition.

(** * The requests of the adapter *)



Section MoreRequests.
Context {rt : PyRuntime}.


End MoreRequests.

(** * Runs on the sample helpdesk *)

#[local] Existing Instance Sample.runtime.
#[local] Existing Instance Sample.helpdesk.

(** The ticket 7 of the sample helpdesk, updated with a new status and a
    [None] priority: the priority sent is the one the ticket had. *)
Lemma update_ticket_skips_none_fields_witness :
  ZendeskClient.apply_fields {[ "status" := VStr "solved"; "priority" := VNone ]}
    (Sample.a_ticket 7 "Printer on fire") !! "priority" = Some (VStr "normal") /\
  ZendeskClient.apply_fields {[ "status" := VStr "solved"; "priority" := VNone ]}
    (Sample.a_ticket 7 "Printer on fire") !! "status" = Some (VStr "solved").
Proof.
  destruct (update_ticket_skips_none_fields (VInt 7) {[ "status" := VStr "solved"; "priority" := VNone ]}
              Sample.up Sample.up (Sample.a_ticket 7 "Printer on fire"))
    as (_ & Hnone & _ & Hset & _).
  - vm_compute. reflexivity.
  - split.
    + rewrite (Hnone "priority"); vm_compute; reflexivity.
    + apply (Hset "status"); [vm_compute; reflexivity | discriminate].
Defined.

(** The first page of the sample helpdesk, asked for with 500 tickets a
    page: 100 are requested, and there is a next page and no previous one. *)
Lemma get_tickets_record_witness :
  exists d : dict,
    fst (ZendeskClient.get_tickets Sample.client (VInt 1) (VInt 500)
           (VStr "created_at") (VStr "desc") Sample.up) = Ok (VDict d) /\
    d !! "per_page" = Some (VInt 100) /\
    d !! "next_page" = Some (VInt 2) /\
    d !! "previous_page" = Some VNone.
Proof.
  destruct (ZendeskClient.get_tickets Sample.client (VInt 1) (VInt 500)
              (VStr "created_at") (VStr "desc") Sample.up) as [[rec|e] r'] eqn:E;
    [|vm_compute in E; discriminate].
  destruct (get_tickets_record Sample.client 1 500 "created_at" "desc"
              Sample.up r' rec E)
    as (req & data & d & l & _ & Hreq & Hrec & Hpp & _ & _ & Hnext & Hprev & _).
  exists d. split; [simpl; now rewrite Hrec|].
  assert (Hdata : Sample.listing Sample.up = VDict data).
  { unfold http_get_json in Hreq. simpl in Hreq. now inversion Hreq. }
  inversion Hdata; subst data.
  split; [exact Hpp|]. split; [exact Hnext | exact Hprev].
Defined.

(** C5 as stated fails on a response whose [next_page] field is not null
    but falsy.  The listing endpoint answers with no tickets and the empty
    string as [next_page]: the call succeeds, the field of the response is
    not [None] (and [has_more] is true), yet the [next_page] of the record
    is null and not [page + 1]. *)
Lemma get_tickets_next_page_counterexample :
  exists (data d : dict),
    Sample.listing
      (Sample.Desk true ∅ []
         (VDict {[ "tickets" := VList []; "next_page" := VStr EmptyString ]}))
      = VDict data /\
    fst (ZendeskClient.get_tickets Sample.client (VInt 1) (VInt 25)
           (VStr "created_at") (VStr "desc")
           (Sample.Desk true ∅ []
              (VDict {[ "tickets" := VList []; "next_page" := VStr EmptyString ]})))
      = Ok (VDict d) /\
    data !! "next_page" = Some (VStr EmptyString) /\
    is_none (VStr EmptyString) = false /\
    d !! "has_more" = Some (VBool true) /\
    d !! "next_page" = Some VNone /\
    d !! "next_page" <> Some (VInt (1 + 1)).
Proof.
  eexists _, _. split; [reflexivity|].
  split; [vm_compute; reflexivity|].
  split; [vm_compute; reflexivity|].
  split; [reflexivity|].
  split; [vm_compute; reflexivity|].
  split; [vm_compute; reflexivity|].
  vm_compute. discriminate.
Qed.

(** The string [abc] is no integer literal: the prompt handler raises the
    [ValueError] of [int()] and logs nothing. *)
Lemma handle_get_prompt_bad_ticket_id_witness :
  handle_get_prompt "analyze-ticket" (Some {[ "ticket_id" := "abc" ]})
    (Sample.boot Sample.up)
  = (Raise (PyStr.int_invalid_literal "'abc'"), Sample.boot Sample.up).
Proof.
  apply (handle_get_prompt_bad_ticket_id "analyze-ticket" {[ "ticket_id" := "abc" ]} "abc").
  - vm_compute. reflexivity.
  - vm_compute. reflexivity.
Defined.

(** Asking for ticket 7 from a fresh process and from a process whose cache
    and logs are filled gives the same content, and the filled cache is
    left as it was. *)
Lemma handle_call_tool_stateless_witness :
  fst (handle_call_tool Sample.client "get_ticket" (Some {[ "ticket_id" := VInt 7 ]})
         (Sample.boot Sample.up))
  = fst (handle_call_tool Sample.client "get_ticket" (Some {[ "ticket_id" := VInt 7 ]})
           (World Sample.up (Some (TTLCache.Entry 10 VNone)) [CallGetAllArticles]
              ["Error fetching knowledge base: connection refused"]))
  /\
  w_kb_cache
    (snd (handle_call_tool Sample.client "get_ticket" (Some {[ "ticket_id" := VInt 7 ]})
            (World Sample.up (Some (TTLCache.Entry 10 VNone)) [CallGetAllArticles]
               ["Error fetching knowledge base: connection refused"])))
  = Some (TTLCache.Entry 10 VNone).
Proof.
  destruct (handle_call_tool_stateless Sample.client "get_ticket"
              (Some {[ "ticket_id" := VInt 7 ]})
              (Sample.boot Sample.up)
              (World Sample.up (Some (TTLCache.Entry 10 VNone)) [CallGetAllArticles]
                 ["Error fetching knowledge base: connection refused"])
              eq_refl)
    as (Hcontent & _ & _ & Hcache & _).
  split; [exact Hcontent | exact Hcache].
Defined.

(** A URI below the knowledge base is refused with a [ValueError]. *)
Lemma handle_read_resource_uri_witness :
  exists msg,
    handle_read_resource Sample.client (MkAnyUrl "zendesk" "//knowledge-base/articles")
      0 1 (Sample.boot Sample.up)
    = (Raise (Exn ValueError msg), logged (Sample.boot Sample.up) msg).
Proof.
  apply (handle_read_resource_uri Sample.client
           (MkAnyUrl "zendesk" "//knowledge-base/articles") 0 1 (Sample.boot Sample.up)
           eq_refl).
  vm_compute. discriminate.
Defined.

(** A first read fetches the knowledge base; a second one, 100 seconds
    later, is served the same document although the helpdesk is down. *)
Lemma kb_snapshot_served_for_an_hour_witness :
  exists oi oj s,
    serve_reads Sample.client TTLCache.empty
      [ Read 0 1 Sample.up; Read 100 101 Sample.down ] = [oi; oj] /\
    obs_fetches oi = 1%nat /\ obs_result oi = Ok s /\
    obs_fetches oj = 0%nat /\ obs_result oj = Ok s.
Proof.
  exists (Observation (Ok "{...}") 1), (Observation (Ok "{...}") 0), "{...}".
  split; [vm_compute; reflexivity|].
  split; [reflexivity|]. split; [reflexivity|].
  apply (kb_snapshot_served_for_an_hour Sample.client TTLCache.empty
           [ Read 0 1 Sample.up; Read 100 101 Sample.down ] 0 1
           (Read 0 1 Sample.up) (Read 100 101 Sample.down)
           (Observation (Ok "{...}") 1) (Observation (Ok "{...}") 0) "{...}").
  - simpl. repeat split; unfold Qle; simpl; lia.
  - lia.
  - reflexivity.
  - reflexivity.
  - vm_compute. reflexivity.
  - vm_compute. reflexivity.
  - reflexivity.
  - reflexivity.
  - simpl. unfold Qlt. simpl. lia.
Defined.

(** C3 as stated fails when a fetch raises: nothing is memoised, and the
    next read fetches again.  Two reads two seconds apart, the helpdesk
    being down, both call [get_all_articles]: two fetches within one
    window of 3600 seconds. *)
Lemma kb_fetched_twice_in_a_window_counterexample :
  ordered [ Read 0 1 Sample.down; Read 2 3 Sample.down ] /\
  obs_fetches <$> serve_reads Sample.client TTLCache.empty
                    [ Read 0 1 Sample.down; Read 2 3 Sample.down ] = [1%nat; 1%nat] /\
  (3 < 0 + 3600)%Q.
Proof.
  split; [|split].
  - simpl. repeat split; unfold Qle; simpl; lia.
  - vm_compute. reflexivity.
  - unfold Qlt. simpl. lia.
Qed.

(** C2 fails for [create_ticket]: called with a description and no subject,
    the dispatcher does not reject the call but forwards it to the adapter
    with [None] as subject, and answers with what the [try] block
    returned. *)
Lemma create_ticket_without_subject_is_forwarded :
  absent "subject" (Some {[ "description" := VStr "It does not work" ]}) /\
  w_calls
    (snd (handle_call_tool Sample.client "create_ticket"
            (Some {[ "description" := VStr "It does not work" ]})
            (Sample.boot Sample.up)))
  = [ CallCreateTicket VNone (VStr "It does not work") VNone VNone VNone VNone VNone VNone ] /\
  fst (handle_call_tool Sample.client "create_ticket"
         (Some {[ "description" := VStr "It does not work" ]}) (Sample.boot Sample.up))
  = fst (call_tool_body Sample.client "create_ticket"
           (Some {[ "description" := VStr "It does not work" ]}) (Sample.boot Sample.up)) /\
  exists ticket : dict,
    Sample.tickets
      (w_remote
         (snd (handle_call_tool Sample.client "create_ticket"
                 (Some {[ "description" := VStr "It does not work" ]})
                 (Sample.boot Sample.up)))) !! 2%Z = Some ticket /\
    ticket !! "subject" = Some VNone.
Proof.
  split; [|split; [|split]].
  - right. eexists. split; [reflexivity|]. vm_compute. reflexivity.
  - vm_compute. reflexivity.
  - vm_compute. reflexivity.
  - eexists. split; vm_compute; reflexivity.
Qed.

(** [get_user] asked without its [user_id] is answered with the text of the
    [KeyError], and the adapter is not called. *)
Lemma required_arguments_checked_witness :
  handle_call_tool Sample.client "get_user" (Some {[ "name" := VStr "Ann" ]})
    (Sample.boot Sample.up)
  = (Ok [ text_content "Error: 'user_id'" ], Sample.boot Sample.up).
Proof.
  destruct (required_arguments_checked Sample.client "get_user" ["user_id"] "user_id"
              (Some {[ "name" := VStr "Ann" ]}) (Sample.boot Sample.up))
    as (e & Hbody & Hcall).
  - unfold tool_catalog. set_solver.
  - discriminate.
  - set_solver.
  - right. eexists. split; [reflexivity|]. vm_compute. reflexivity.
  - rewrite Hcall. vm_compute in Hbody. inversion Hbody. reflexivity.
Defined.

(** ** Runs for the further properties *)

(** There is no tool [close_ticket]. *)
Lemma unknown_tool_rejected_witness :
  handle_call_tool Sample.client "close_ticket" (Some {[ "ticket_id" := VInt 7 ]})
    (Sample.boot Sample.up)
  = (Ok [ text_content "Error: Unknown tool: close_ticket" ], Sample.boot Sample.up).
Proof.
  apply (unknown_tool_rejected Sample.client "close_ticket").
  unfold tool_catalog. simpl. intros Hin.
  repeat (apply elem_of_cons in Hin as [Hin|Hin]; [discriminate|]).
  now apply elem_of_nil in Hin.
Defined.

(** [get_ticket] with its [ticket_id] reaches the adapter. *)
Lemma present_arguments_delegated_witness :
  exists call x r',
    run_call Sample.client call Sample.up = (x, r') /\
    snd (handle_call_tool Sample.client "get_ticket" (Some {[ "ticket_id" := VInt 7 ]})
           (Sample.boot Sample.up))
    = World r' TTLCache.empty [call] [].
Proof.
  apply (present_arguments_delegated Sample.client "get_ticket" ["ticket_id"]
           (Some {[ "ticket_id" := VInt 7 ]}) (Sample.boot Sample.up)).
  - unfold tool_catalog. set_solver.
  - discriminate.
  - right. exists {[ "ticket_id" := VInt 7 ]}. split; [reflexivity|]. split.
    + intros Hempty. apply (f_equal (fun m : dict => m !! "ticket_id")) in Hempty.
      vm_compute in Hempty. discriminate.
    + apply Forall_cons_2; [|apply Forall_nil_2].
      exists (VInt 7). vm_compute. reflexivity.
Defined.

(** A textual ticket id is converted, and it is not among the fields. *)
Lemma update_ticket_tool_forwards_witness :
  exists x r',
    run_call Sample.client
      (CallUpdateTicket (VInt 7)
         (delete "ticket_id" {[ "ticket_id" := VStr "7"; "status" := VStr "solved" ]}))
      Sample.up = (x, r') /\
    snd (handle_call_tool Sample.client "update_ticket"
           (Some {[ "ticket_id" := VStr "7"; "status" := VStr "solved" ]})
           (Sample.boot Sample.up))
    = World r' TTLCache.empty
        [ CallUpdateTicket (VInt 7)
            (delete "ticket_id" {[ "ticket_id" := VStr "7"; "status" := VStr "solved" ]}) ]
        [].
Proof.
  assert (Hne : ({[ "ticket_id" := VStr "7"; "status" := VStr "solved" ]} : dict) <> ∅).
  { intros Hempty. apply (f_equal (fun m : dict => m !! "ticket_id")) in Hempty.
    vm_compute in Hempty. discriminate. }
  destruct (update_ticket_tool_forwards Sample.client
              {[ "ticket_id" := VStr "7"; "status" := VStr "solved" ]}
              (Sample.boot Sample.up) Hne) as (Hok & _ & _).
  apply (Hok (VStr "7") 7%Z); vm_compute; reflexivity.
Defined.


(** Ticket 7 exists: the call returns and the answer is its record. *)
Lemma returned_call_is_answered_witness :
  exists text,
    handle_call_tool Sample.client "get_ticket" (Some {[ "ticket_id" := VInt 7 ]})
      (Sample.boot Sample.up)
    = (Ok [ text_content text ],
       World Sample.up TTLCache.empty [ CallGetTicket (VInt 7) ] []).
Proof.
  destruct (run_call Sample.client (CallGetTicket (VInt 7)) Sample.up) as [[v|e] r'] eqn:E;
    [|vm_compute in E; discriminate].
  assert (Hr : r' = Sample.up).
  { unfold run_call, ZendeskClient.get_ticket, try_except, sbind in E.
    simpl in E. vm_compute in E. now inversion E. }
  subst r'.
  destruct (returned_call_is_answered Sample.client "get_ticket"
              (Some {[ "ticket_id" := VInt 7 ]}) (Sample.boot Sample.up)
              (CallGetTicket (VInt 7)) v Sample.up) as (text & _ & Hcall).
  - vm_compute. reflexivity.
  - exact E.
  - exists text. exact Hcall.
Defined.

(** Two sections named [FAQ] give one entry of the knowledge base. *)
Lemma get_all_articles_keys_witness :
  exists kb : dict,
    fst (ZendeskClient.get_all_articles
           (Sample.Desk true ∅
              [ (Section_ (VInt 1) "FAQ" VNone, [ Sample.an_article 11 "Reset a password" ]);
                (Section_ (VInt 2) "FAQ" VNone, []) ]
              VNone)) = Ok (VDict kb) /\
    dom kb = {[ "FAQ" ]} /\ (size kb <= 2)%nat.
Proof.
  destruct (ZendeskClient.get_all_articles
              (Sample.Desk true ∅
                 [ (Section_ (VInt 1) "FAQ" VNone, [ Sample.an_article 11 "Reset a password" ]);
                   (Section_ (VInt 2) "FAQ" VNone, []) ]
                 VNone)) as [[kb_data|e] r'] eqn:E;
    [|vm_compute in E; discriminate].
  destruct (get_all_articles_keys _ _ _ E) as (sections & r1 & kb & Hs & -> & Hdom & Hsize).
  exists kb. split; [reflexivity|].
  vm_compute in Hs. inversion Hs; subst sections r1. split.
  - rewrite Hdom. simpl. set_solver.
  - exact Hsize.
Defined.


(** The helpdesk is down and the snapshot expired at reading 10: a read at
    reading 10 fails and the expired snapshot stays where it was. *)
Lemma failed_fetch_is_not_cached_witness :
  handle_read_resource Sample.client knowledge_base_uri 10 11
    (World Sample.down (Some (TTLCache.Entry 10 VNone)) [] [])
  = (Raise (Exn PlainException "Failed to fetch knowledge base: connection refused"),
     World Sample.down (Some (TTLCache.Entry 10 VNone)) [CallGetAllArticles]
       ["Error fetching knowledge base: Failed to fetch knowledge base: connection refused"]).
Proof.
  apply (failed_fetch_is_not_cached Sample.client 10 11
           (World Sample.down (Some (TTLCache.Entry 10 VNone)) [] [])
           (Exn PlainException "Failed to fetch knowledge base: connection refused")
           Sample.down).
  - reflexivity.
  - reflexivity.
Defined.

(** A listing answered with an object that has no [tickets]. *)
Lemma get_tickets_without_tickets_key_witness :
  exists record : dict,
    ZendeskClient.get_tickets Sample.client (VInt 1) (VInt 25) (VStr "created_at")
      (VStr "desc") (Sample.Desk true ∅ [] (VDict {[ "count" := VInt 0 ]}))
    = (Ok (VDict record), Sample.Desk true ∅ [] (VDict {[ "count" := VInt 0 ]})) /\
    record !! "tickets" = Some (VList []) /\
    record !! "count" = Some (VInt 0).
Proof.
  destruct (get_tickets_without_tickets_key Sample.client 1 25 "created_at" "desc"
              (Sample.Desk true ∅ [] (VDict {[ "count" := VInt 0 ]}))
              (Sample.Desk true ∅ [] (VDict {[ "count" := VInt 0 ]}))
              (VDict {[ "count" := VInt 0 ]})) as [Hobject _].
  - reflexivity.
  - apply (Hobject {[ "count" := VInt 0 ]}); reflexivity.
Defined.

(** A creation acknowledged with an empty audit is answered from what was
    submitted. *)
Lemma create_ticket_without_id_witness :
  exists record : dict,
    ZendeskClient.create_ticket (rt := Sample.runtime) (hd := Degenerate.acknowledging ∅)
      (VStr "Printer on fire") (VStr "It burns") VNone VNone (VStr "urgent") VNone VNone VNone
      tt = (Ok (VDict record), tt) /\
    record !! "id" = Some VNone /\
    record !! "status" = Some (VStr "new") /\
    record !! "subject" = Some (VStr "Printer on fire").
Proof.
  destruct (create_ticket_without_id (rt := Sample.runtime) (hd := Degenerate.acknowledging ∅)
              (VStr "Printer on fire") (VStr "It burns") VNone VNone (VStr "urgent")
              VNone VNone VNone tt tt ∅)
    as (record & Hrun & Hid & Hstatus & Hsubject & _).
  - reflexivity.
  - reflexivity.
  - reflexivity.
  - now left.
  - exists record. auto.
Defined.

(** A creation whose audit names ticket 5, in a helpdesk that then refuses
    to show it, is reported as a failed creation. *)
Lemma create_ticket_read_back_failure_witness :
  ZendeskClient.create_ticket (rt := Sample.runtime)
    (hd := Degenerate.acknowledging {[ "ticket" := VDict {[ "id" := VInt 5 ]} ]})
    (VStr "Printer on fire") (VStr "It burns") VNone VNone VNone VNone VNone VNone tt
  = (Raise (Exn PlainException "Failed to create ticket: refused"), tt).
Proof.
  apply (create_ticket_read_back_failure (rt := Sample.runtime)
           (hd := Degenerate.acknowledging {[ "ticket" := VDict {[ "id" := VInt 5 ]} ]})
           (VStr "Printer on fire") (VStr "It burns") VNone VNone VNone VNone VNone VNone
           tt tt tt {[ "ticket" := VDict {[ "id" := VInt 5 ]} ]} {[ "id" := VInt 5 ]}
           (VInt 5) (Exn PlainException "refused"));
    reflexivity.
Defined.

(** ** Runs for the macros and for the composed calls *)

(** A listing of one macro that has a title and nothing else. *)
Lemma list_macros_records_witness :
  exists recs : list dict,
    ZendeskClient.list_macros Sample.client VNone VNone VNone
      (answering (VDict {[ "macros" := VList [ VDict {[ "title" := VStr "Close" ]} ] ]}))
    = (Ok (VList (VDict <$> recs)),
       answering (VDict {[ "macros" := VList [ VDict {[ "title" := VStr "Close" ]} ] ]})) /\
    Forall2 (picked macro_fields macro_default) [ {[ "title" := VStr "Close" ]} ] recs.
Proof.
  destruct (list_macros_records Sample.client VNone VNone VNone
              (answering (VDict {[ "macros" := VList [ VDict {[ "title" := VStr "Close" ]} ] ]}))
              (answering (VDict {[ "macros" := VList [ VDict {[ "title" := VStr "Close" ]} ] ]}))
              {[ "macros" := VList [ VDict {[ "title" := VStr "Close" ]} ] ]})
    as (_ & Hobjects & _).
  - reflexivity.
  - apply (Hobjects [ {[ "title" := VStr "Close" ]} ]). reflexivity.
Defined.

(** A response without [macro]. *)
Lemma get_macro_record_witness :
  exists rec : dict,
    ZendeskClient.get_macro Sample.client (VInt 3) (answering (VDict ∅))
    = (Ok (VDict rec), answering (VDict ∅)) /\
    rec !! "actions" = Some (VList []).
Proof.
  destruct (get_macro_record Sample.client (VInt 3) (answering (VDict ∅))
              (answering (VDict ∅)) ∅) as (_ & Hmissing & _).
  - reflexivity.
  - destruct Hmissing as (rec & Hrun & _ & Hactions & _); [reflexivity|].
    exists rec. split; [exact Hrun|exact Hactions].
Defined.

(** A macro that solves the ticket and adds no comment. *)
Lemma apply_macro_preview_witness :
  exists rec : dict,
    ZendeskClient.apply_macro_to_ticket Sample.client (VInt 7) (VInt 3)
      (answering (VDict {[ "result" :=
                             VDict {[ "ticket" := VDict {[ "status" := VStr "solved" ]} ]} ]}))
    = (Ok (VDict rec),
       answering (VDict {[ "result" :=
                             VDict {[ "ticket" := VDict {[ "status" := VStr "solved" ]} ]} ]})) /\
    rec !! "comment" = Some VNone /\
    rec !! "ticket_id" = Some (VInt 7).
Proof.
  destruct (apply_macro_preview Sample.client (VInt 7) (VInt 3)
              (answering (VDict {[ "result" :=
                 VDict {[ "ticket" := VDict {[ "status" := VStr "solved" ]} ]} ]}))
              (answering (VDict {[ "result" :=
                 VDict {[ "ticket" := VDict {[ "status" := VStr "solved" ]} ]} ]}))
              {[ "result" := VDict {[ "ticket" := VDict {[ "status" := VStr "solved" ]} ]} ]}
              {[ "ticket" := VDict {[ "status" := VStr "solved" ]} ]}
              {[ "status" := VStr "solved" ]}
              (VDict ∅)) as (Hpreview & _).
  - reflexivity.
  - reflexivity.
  - reflexivity.
  - reflexivity.
  - destruct Hpreview as (rec & tc & shown & Hrun & _ & _ & Hticket & _ & _ & Hshown & Hnone & _).
    + left. reflexivity.
    + exists rec. split; [exact Hrun|]. split; [|exact Hticket].
      rewrite Hshown. f_equal. apply Hnone. reflexivity.
Defined.


(** A user created without a role: the role submitted is [None]. *)
Lemma create_user_tool_submits_witness :
  exists text,
    handle_call_tool Sample.client "create_user"
      (Some {[ "email" := VStr "ann@acme.test"; "name" := VStr "Ann" ]})
      (Sample.boot Sample.up)
    = (Ok [ text_content text ],
       World Sample.up TTLCache.empty
         [ CallCreateUser (VStr "ann@acme.test") (VStr "Ann")
             {[ "role" := VNone; "phone" := VNone; "organization_id" := VNone ]} ] []).
Proof.
  destruct (create_user_tool_submits Sample.client
              {[ "email" := VStr "ann@acme.test"; "name" := VStr "Ann" ]}
              (VStr "ann@acme.test") (VStr "Ann") (Sample.boot Sample.up)
              (Ok (<["id" := VInt 1]>
                     (ZendeskClient.User (VStr "ann@acme.test") (VStr "Ann")
                        VNone VNone VNone VNone VNone)))
              Sample.up) as (text & Hrun & _).
  - reflexivity.
  - reflexivity.
  - reflexivity.
  - exists text. exact Hrun.
Defined.

(** A comment on ticket 7 without [public]: it is posted, and echoed. *)
Lemma comment_tool_posts_witness :
  fst (handle_call_tool Sample.client "create_ticket_comment"
         (Some {[ "ticket_id" := VInt 7; "comment" := VStr "On it" ]})
         (Sample.boot Sample.up))
  = Ok [ text_content "Comment created successfully: On it" ].
Proof.
  rewrite (comment_tool_posts Sample.client
             {[ "ticket_id" := VInt 7; "comment" := VStr "On it" ]}
             (VInt 7) (VStr "On it") (Sample.boot Sample.up)
             (Sample.a_ticket 7 "Printer on fire") Sample.up
             (fst (Sample.store_ticket
                     (<["comment" := VDict (ZendeskClient.Comment (VStr "On it") (VBool true))]>
                        (Sample.a_ticket 7 "Printer on fire")) Sample.up))
             (snd (Sample.store_ticket
                     (<["comment" := VDict (ZendeskClient.Comment (VStr "On it") (VBool true))]>
                        (Sample.a_ticket 7 "Printer on fire")) Sample.up))).
  - vm_compute. reflexivity.
  - reflexivity.
  - reflexivity.
  - reflexivity.
  - reflexivity.
Defined.

(** The prompt [analyze-ticket] for ticket 7. *)
Lemma listed_prompts_are_served_witness :
  exists answer,
    handle_get_prompt "analyze-ticket" (Some {[ "ticket_id" := "7" ]}) (Sample.boot Sample.up)
    = (Ok answer, Sample.boot Sample.up).
Proof.
  destruct (listed_prompts_are_served "analyze-ticket" {[ "ticket_id" := "7" ]} "7" 7
              (Sample.boot Sample.up)) as (Hlisted & _).
  - reflexivity.
  - reflexivity.
  - apply Hlisted. simpl. set_solver.
Defined.

